(** * NeuroPyxels [rtn/npix/io.py]: sync-channel decoding and raw binary access

    A shallow embedding of the array code of [io.py] together with the
    properties stated about it.  NumPy arrays are modelled by their shape
    and their elements in C (row-major) order; the NumPy primitives the
    source calls are modelled in [Module np] after their documented
    behaviour, the functions of [io.py] are then transcribed line by line
    on top of them. *)

From Stdlib Require Import ZArith List Lia Bool Ascii String QArith.
From Stdlib.Strings Require Import Byte.
From Stdlib.Sorting Require Import Sorted.
From Stdlib.Floats Require PrimFloat SpecFloat FloatOps.
From stdpp Require Import base option list gmap strings.

Local Close Scope Q_scope.
Local Open Scope Z_scope.

(** ** The NumPy fragment used by [io.py] *)

(** An n-dimensional integer array: its shape and its elements, flattened
    in C order.  Boolean arrays are kept as arrays of 0 and 1.  The
    element type stands for the integer dtypes NumPy combines with int64
    into int64 (the signed ones, and the unsigned ones up to 32 bits);
    the recordings hold int16. *)
Record ndarray : Type := mk_ndarray { shape : list nat; data : list Z }.

Module np.

Definition prod_shape (s : list nat) : nat := foldr Nat.mul 1%nat s.

(** A genuine array holds exactly as many elements as its shape says. *)
Definition wf (a : ndarray) : Prop := length (data a) = prod_shape (shape a).

Definition wfb (a : ndarray) : bool :=
  Nat.eqb (length (data a)) (prod_shape (shape a)).

(** [a.reshape(newshape)]: the elements stay, the shape changes.  One
    entry may be [-1] and is then inferred from the size; any other
    negative entry, two unknown entries, or a size mismatch raise. *)
Definition reshape (a : ndarray) (newshape : list Z) : option ndarray :=
  let size := Z.of_nat (length (data a)) in
  let unknown := List.filter (fun d => d =? -1) newshape in
  let known := List.filter (fun d => negb (d =? -1)) newshape in
  if existsb (fun d => d <? 0) known then None
  else
    let p := foldr Z.mul 1 known in
    match unknown with
    | [] =>
        if p =? size
        then Some (mk_ndarray (map Z.to_nat newshape) (data a))
        else None
    | [_] =>
        if p =? 0 then None
        else if size mod p =? 0
        then Some (mk_ndarray
                     (map (fun d => Z.to_nat (if d =? -1 then size / p else d))
                          newshape)
                     (data a))
        else None
    | _ => None
    end.

(** [a.flatten()]: a one-dimensional copy. *)
Definition flatten (a : ndarray) : ndarray :=
  mk_ndarray [length (data a)] (data a).

(** [np.arange(n)]: 0, 1, ..., n-1 as 64-bit integers. *)
Definition arange (n : nat) : ndarray :=
  mk_ndarray [n] (map Z.of_nat (seq 0 n)).

(** Arithmetic on the 64-bit integer dtype wraps around. *)
Definition int64_wrap (z : Z) : Z := (z + 2 ^ 63) mod 2 ^ 64 - 2 ^ 63.

Definition is_int64 (z : Z) : Prop := - 2 ^ 63 <= z < 2 ^ 63.

(** [base ** a] on an int64 array of non-negative exponents. *)
Definition power (base : Z) (a : ndarray) : ndarray :=
  mk_ndarray (shape a) (map (fun e => int64_wrap (base ^ e)) (data a)).

(** Element [i, j] of a two-dimensional array. *)
Definition get2 (a : ndarray) (i j : nat) : Z :=
  match shape a with
  | [_; m] => nth (i * m + j) (data a) 0
  | _ => 0
  end.

(** Broadcasting of one pair of dimensions. *)
Definition bcast_dim (a b : nat) : option nat :=
  if Nat.eqb a b then Some a
  else if Nat.eqb a 1 then Some b
  else if Nat.eqb b 1 then Some a
  else None.

(** An elementwise binary operation on two two-dimensional arrays, with
    NumPy's broadcasting of the dimensions of length 1. *)
Definition broadcast2 (f : Z -> Z -> Z) (a b : ndarray) : option ndarray :=
  match shape a, shape b with
  | [n1; m1], [n2; m2] =>
      n ← bcast_dim n1 n2;
      m ← bcast_dim m1 m2;
      Some (mk_ndarray [n; m]
              (flat_map
                 (fun i =>
                    map (fun j =>
                           f (get2 a (if Nat.eqb n1 1 then 0 else i)
                                     (if Nat.eqb m1 1 then 0 else j))
                             (get2 b (if Nat.eqb n2 1 then 0 else i)
                                     (if Nat.eqb m2 1 then 0 else j)))
                        (seq 0 m))
                 (seq 0 n)))
  | _, _ => None
  end.

(** [a & b] *)
Definition bitwise_and : ndarray -> ndarray -> option ndarray :=
  broadcast2 Z.land.

(** [a.astype(bool)]: zero is False, anything else True. *)
Definition astype_bool (a : ndarray) : ndarray :=
  mk_ndarray (shape a) (map (fun v => if v =? 0 then 0 else 1) (data a)).

(** [a.astype(int)] on a boolean array: False is 0, True is 1. *)
Definition astype_int (a : ndarray) : ndarray := a.

(** [np.diff(a, axis=0)], that is [a[1:] - a[:-1]] along the first
    axis.  A zero-dimensional input raises. *)
Definition diff0 (a : ndarray) : option ndarray :=
  match shape a with
  | [] => None
  | n :: rest =>
      let stride := prod_shape rest in
      Some (mk_ndarray ((n - 1)%nat :: rest)
              (zip_with Z.sub
                 (drop stride (data a))
                 (take ((n - 1) * stride) (data a))))
  end.

(** [k * a], [a > k] and [a < k] for a scalar [k]. *)
Definition multiply (k : Z) (a : ndarray) : ndarray :=
  mk_ndarray (shape a) (map (Z.mul k) (data a)).

Definition greater (a : ndarray) (k : Z) : ndarray :=
  mk_ndarray (shape a) (map (fun v => if k <? v then 1 else 0) (data a)).

Definition less (a : ndarray) (k : Z) : ndarray :=
  mk_ndarray (shape a) (map (fun v => if v <? k then 1 else 0) (data a)).

(** [np.where(c)] with the condition alone is [np.nonzero(c)]: for a
    two-dimensional [c], the row indices and the column indices of the
    true entries, enumerated in row-major order. *)
Definition nonzero (c : ndarray) : option (list nat * list nat) :=
  match shape c with
  | [n; m] =>
      let idx :=
        flat_map
          (fun i =>
             flat_map (fun j => if get2 c i j =? 0 then [] else [(i, j)])
                      (seq 0 m))
          (seq 0 n) in
      Some (map fst idx, map snd idx)
  | _ => None
  end.

(** [np.unique(v)] on an index vector: its distinct values, ascending. *)
Fixpoint insert_unique (x : nat) (l : list nat) : list nat :=
  match l with
  | [] => [x]
  | y :: l' =>
      if Nat.ltb x y then x :: l
      else if Nat.eqb x y then l
      else y :: insert_unique x l'
  end.

Definition unique (v : list nat) : list nat := foldr insert_unique [] v.

(** [v == k] and boolean-mask indexing [v[mask]] on index vectors. *)
Definition equal (v : list nat) (k : nat) : list bool :=
  map (fun x => Nat.eqb x k) v.

Definition select (v : list nat) (mask : list bool) : list nat :=
  map fst (List.filter snd (zip v mask)).

(** [np.frombuffer(buf, dtype=np.uint8)] *)
Definition frombuffer_uint8 (buf : list byte) : ndarray :=
  mk_ndarray [length buf] (map (fun b => Z.of_N (Byte.to_N b)) buf).

(** [np.unpackbits(a)] on a uint8 array: the flattened bits of every
    element, most significant bit first. *)
Definition unpackbits (a : ndarray) : ndarray :=
  mk_ndarray [(8 * length (data a))%nat]
    (flat_map
       (fun v => map (fun k => (v / 2 ^ (7 - Z.of_nat k)) mod 2) (seq 0 8))
       (data a)).

(** [a.transpose([1, 0])]; the axes must match a two-dimensional array. *)
Definition transpose (a : ndarray) : option ndarray :=
  match shape a with
  | [n; m] =>
      Some (mk_ndarray [m; n]
              (flat_map (fun j => map (fun i => get2 a i j) (seq 0 n))
                        (seq 0 m)))
  | _ => None
  end.

End np.

(** ** [unpackbits] (io.py, lines 217-224) *)

Definition unpackbits (x : ndarray) (num_bits : nat) : option ndarray :=
  let xshape := shape x in
  x ← np.reshape x [-1; 1];
  ar ← np.reshape (np.arange num_bits) [1; Z.of_nat num_bits];
  let to_and := np.power 2 ar in
  xa ← np.bitwise_and x to_and;
  np.reshape (np.astype_int (np.astype_bool xa))
             (map Z.of_nat xshape ++ [Z.of_nat num_bits]).

(** What one entry of the result holds: whether [x & 2**b] is non-zero,
    the power being taken in 64-bit arithmetic. *)
Definition mask_bit (x : Z) (b : nat) : Z :=
  if Z.land x (np.int64_wrap (2 ^ Z.of_nat b)) =? 0 then 0 else 1.

Definition unpacked_data (xs : list Z) (num_bits : nat) : list Z :=
  flat_map (fun x => map (mask_bit x) (seq 0 num_bits)) xs.

(** Row [i] of a flattened two-dimensional array with [m] columns. *)
Definition row (m : nat) (l : list Z) (i : nat) : list Z :=
  take m (drop (i * m) l).

(** The weighted sum [bit[0]*2^0 + bit[1]*2^1 + ...]. *)
Definition recombine (bits : list Z) : Z :=
  foldr Z.add 0 (imap (fun b bit => bit * 2 ^ Z.of_nat b) bits).

(** ** [unpack_npix_sync] (io.py, lines 276-311)

    The sample indices are divided by [srate] with NumPy's true division;
    the quotient type and the division are left abstract, so that what is
    proved holds for floating-point division as well as for any exact
    reading of it. *)

Section UnpackSync.

Context {srate_t time : Type} (true_divide : nat -> srate_t -> time).

(** Either the unpacked trace, or the pair of dictionaries
    channel -> event times. *)
Inductive sync_result : Type :=
| Binary (dd : ndarray)
| Events (onsets offsets : gmap nat (list time)).

(** [idx[cols == ichan] / srate] *)
Definition channel_times (idx : list nat * list nat) (ichan : nat)
           (srate : srate_t) : list time :=
  map (fun i => true_divide i srate)
      (np.select idx.1 (np.equal idx.2 ichan)).

(** The loop [for ichan in np.unique(idx[1]): d[ichan] = ...]. *)
Definition collect_events (idx : list nat * list nat) (srate : srate_t)
  : gmap nat (list time) :=
  foldl (fun d ichan => <[ichan := channel_times idx ichan srate]> d)
        ∅ (np.unique idx.2).

Definition unpack_npix_sync (syncdat : ndarray) (srate : srate_t)
           (output_binary : bool) : option sync_result :=
  dd ← unpackbits (np.flatten syncdat) 16;
  let mult := 1 in
  if output_binary then Some (Binary dd)
  else
    d_on ← np.diff0 dd;
    sync_idx_onset ← np.nonzero (np.greater (np.multiply mult d_on) 0);
    d_off ← np.diff0 dd;
    sync_idx_offset ← np.nonzero (np.less (np.multiply mult d_off) 0);
    let onsets := collect_events sync_idx_onset srate in
    let offsets := collect_events sync_idx_offset srate in
    Some (Events onsets offsets).

(** The edge detector in the words of its description: the indices, in
    ascending order, at which the first difference of a channel of the
    trace is positive (resp. negative), and the entry of a dictionary
    for a channel with these edges: absent when there is none. *)
Definition rising (dd : ndarray) (c i : nat) : bool :=
  0 <? np.get2 dd (i + 1) c - np.get2 dd i c.

Definition falling (dd : ndarray) (c i : nat) : bool :=
  np.get2 dd (i + 1) c - np.get2 dd i c <? 0.

Definition edge_indices (edge : nat -> bool) (nsamples : nat) : list nat :=
  List.filter edge (seq 0 (nsamples - 1)).

Definition event_times (srate : srate_t) (edges : list nat)
  : option (list time) :=
  match edges with
  | [] => None
  | _ => Some (map (fun i => true_divide i srate) edges)
  end.

End UnpackSync.

Arguments Binary {time} dd.
Arguments Events {time} onsets offsets.

(** Bit [c] of sample [i] of the input: the state of sync line [c] at
    time step [i]. *)
Definition line (xs : list Z) (c i : nat) : bool :=
  Z.testbit (nth i xs 0) (Z.of_nat c).

(** The trace [unpack_npix_sync] works on. *)
Definition trace (syncdat : ndarray) : ndarray :=
  mk_ndarray [length (data syncdat); 16%nat] (unpacked_data (data syncdat) 16).

(** A step on sync line 2: low at samples 0 and 1, high from sample 2. *)
Definition step_signal : ndarray := mk_ndarray [4%nat] [0; 0; 4; 4].

(** An exact reading of the division, used in the examples: sample index
    over sampling rate as a rational number of seconds. *)
Definition seconds (i : nat) (srate : positive) : Q := Z.of_nat i # srate.

(** The index pairs [(i, j)], in row-major order, at which [P] holds. *)
Definition pairs_where (P : nat -> nat -> bool) (n m : nat) : list (nat * nat) :=
  flat_map
    (fun i => flat_map (fun j => if P i j then [(i, j)] else []) (seq 0 m))
    (seq 0 n).


(** ** Exceptions, files and memory maps *)

Inductive exn : Type :=
| ValueError | AssertionError | ZeroDivisionError | IndexError
| FileNotFoundError | OSError | OverflowError.

(** The outcome of a call: a returned value or a raised exception. *)
Inductive result (A : Type) : Type :=
| Ok (a : A)
| Raise (e : exn).

Arguments Ok {A} a.
Arguments Raise {A} e.

#[global] Instance result_bind : MBind result :=
  fun A B f r => match r with Ok a => f a | Raise e => Raise e end.

#[global] Instance result_ret : MRet result := fun A a => Ok a.

(** A NumPy call that fails raises [ValueError]. *)
Definition np_call {A} (o : option A) : result A :=
  match o with Some a => Ok a | None => Raise ValueError end.

(** [assert c] *)
Definition py_assert (c : bool) : result unit :=
  if c then Ok tt else Raise AssertionError.

(** The file system: path -> content. *)
Abbreviation filesystem := (gmap string (list byte)).

(** Dtypes of fixed width, little-endian as on the machines the code
    runs on. *)
Record dtype : Type := mk_dtype { itemsize : nat; signed : bool }.

Definition np_int16 : dtype := mk_dtype 2 true.
Definition np_uint8 : dtype := mk_dtype 1 false.

Fixpoint le_combine (bs : list byte) : Z :=
  match bs with
  | [] => 0
  | b :: r => Z.of_N (Byte.to_N b) + 256 * le_combine r
  end.

Definition decode (dt : dtype) (bs : list byte) : Z :=
  let u := le_combine bs in
  let w := 8 * Z.of_nat (itemsize dt) in
  if signed dt && (2 ^ (w - 1) <=? u) then u - 2 ^ w else u.

(** Item [k] of a buffer read with dtype [dt]. *)
Definition buffer_item (dt : dtype) (buf : list byte) (k : nat) : Z :=
  decode dt (take (itemsize dt) (drop (k * itemsize dt) buf)).

Definition buffer_items (dt : dtype) (buf : list byte) (count : nat) : list Z :=
  map (buffer_item dt buf) (seq 0 count).

Definition valid_filemodes : list string := ["r"; "c"; "r+"; "w+"]%string.

Definition mode_equivalent (mode : string) : string :=
  if String.eqb mode "readonly" then "r"
  else if String.eqb mode "copyonwrite" then "c"
  else if String.eqb mode "readwrite" then "r+"
  else if String.eqb mode "write" then "w+"
  else mode.

(** [np.memmap(fname, mode=mode, dtype=dt, shape=(n, m))], as far as the
    returned array goes: [file] is the content of [fname] if it exists.
    Reading modes map the leading [n*m] items of the file; ["w+"]
    starts from a zero-filled file, ["r+"] pads a file that is too
    short.  An unknown mode, a missing file, a file that is too short or
    an empty mapping raise. *)
Definition memmap (file : option (list byte)) (mode : string) (dt : dtype)
           (n m : nat) : result ndarray :=
  let mode := mode_equivalent mode in
  if negb (existsb (String.eqb mode) valid_filemodes) then Raise ValueError
  else
    let nbytes := (n * m * itemsize dt)%nat in
    if String.eqb mode "w+" then
      if Nat.eqb nbytes 0 then Raise ValueError
      else Ok (mk_ndarray [n; m] (repeat 0 (n * m)))
    else
      match file with
      | None => Raise FileNotFoundError
      | Some content =>
          let content :=
            if String.eqb mode "r+"
            then content ++ repeat Byte.x00 (nbytes - length content)
            else content in
          if Nat.ltb (length content) nbytes then Raise ValueError
          else if Nat.eqb (length content) 0 then Raise ValueError
          else Ok (mk_ndarray [n; m] (buffer_items dt content (n * m)))
      end.

(** [np.memmap] on a path that names a directory: once the mode is
    accepted, opening the path fails. *)
Definition memmap_directory (mode : string) : result ndarray :=
  if negb (existsb (String.eqb (mode_equivalent mode)) valid_filemodes)
  then Raise ValueError
  else Raise OSError.

(** ** Directories

    Beside the files, the directories of the file system: [dir_exists]
    tells which paths name an existing directory, and [dir_create] what
    the operating system answers when [os.makedirs] is asked for a path
    that is not one, success or its error.  The empty path names no
    directory and cannot be created. *)
Record directories : Type :=
  mk_directories { dir_exists : string -> bool;
                   dir_create : string -> result unit }.

(** [os.path.isdir(p)] *)
Definition os_path_isdir (ds : directories) (p : string) : bool :=
  negb (String.eqb p "") && dir_exists ds p.

(** [os.makedirs(p)] *)
Definition os_makedirs (ds : directories) (p : string) : result unit :=
  if String.eqb p "" then Raise FileNotFoundError else dir_create ds p.

(** [p[:p.rfind('/')+1]]: the path up to its last separator, included. *)
Fixpoint path_head (p : string) : string :=
  match p with
  | EmptyString => EmptyString
  | String c r =>
      match path_head r with
      | EmptyString =>
          if Ascii.eqb c "/"%char then String c EmptyString else EmptyString
      | h => String c h
      end
  end.

(** [s.rstrip('/')] *)
Fixpoint rstrip_sep (s : string) : string :=
  match s with
  | EmptyString => EmptyString
  | String c r =>
      match rstrip_sep r with
      | EmptyString =>
          if Ascii.eqb c "/"%char then EmptyString else String c EmptyString
      | r' => String c r'
      end
  end.

(** [os.path.dirname(p)]: the head of the path without its trailing
    separators, unless it is made of separators only. *)
Definition os_path_dirname (p : string) : string :=
  let head := path_head p in
  match rstrip_sep head with
  | EmptyString => head
  | stripped => stripped
  end.

(** ** [map_binary] (io.py, lines 226-274)

    [offset] is accepted and not used by the source.  A path exists when
    it names a file or a directory; the size of a directory is never
    used, since mapping it fails before.  On the ["w"] path of a missing
    file the message printed does not bear on the outcome, the creation
    of the directory of the file does. *)
Definition map_binary (fs : filesystem) (ds : directories) (fname : string)
           (nchannels : nat) (dt : dtype) (offset : Z) (mode : string)
           (nsamples : option nat) (transpose : bool) : result ndarray :=
  let file := fs !! fname in
  let exists_ := bool_decide (is_Some file) || os_path_isdir ds fname in
  _ ← (if negb exists_
       then if negb (String.eqb mode "w") then Raise ValueError
            else if negb (os_path_isdir ds (os_path_dirname fname))
                 then os_makedirs ds (os_path_dirname fname)
                 else Ok tt
       else Ok tt);
  nsamples ←
    match nsamples with
    | None =>
        if negb exists_ then Raise ValueError
        else if Nat.eqb (nchannels * itemsize dt) 0 then Raise ZeroDivisionError
        else Ok (length (default [] file) / (nchannels * itemsize dt))%nat
    | Some n => Ok n
    end;
  ret ← (if bool_decide (is_Some file) || negb (os_path_isdir ds fname)
         then memmap file mode dt nsamples nchannels
         else memmap_directory mode);
  if transpose then np_call (np.transpose ret) else Ok ret.

(** The sample the file holds for channel [c] at time step [t], when
    [nchannels] 16-bit channels are interleaved. *)
Definition stored_sample (content : list byte) (nchannels c t : nat) : Z :=
  buffer_item np_int16 content (t * nchannels + c).

(** A file system without directories, in which every directory asked
    for can be created. *)
Definition sample_dirs : directories :=
  mk_directories (fun _ => false) (fun _ => Ok tt).

(** A recording of three time steps of two channels: channel 0 holds 1, 3,
    5 and channel 1 holds 2, 4, -1. *)
Definition two_channel_file : list byte :=
  [Byte.x01; Byte.x00; Byte.x02; Byte.x00;
   Byte.x03; Byte.x00; Byte.x04; Byte.x00;
   Byte.x05; Byte.x00; Byte.xff; Byte.xff].


(** ** Paths *)

(** [s[-n:]] *)
Definition py_suffix (n : nat) (s : string) : string :=
  substring (String.length s - n) n s.

(** [s[:-n]] for a positive [n] *)
Definition py_drop_last (n : nat) (s : string) : string :=
  substring 0 (String.length s - n) s.

(** [s.split('/')[-1]], with [cur] the component read so far. *)
Fixpoint last_component (s cur : string) : string :=
  match s with
  | EmptyString => cur
  | String c r =>
      if Ascii.eqb c "/"%char then last_component r ""%string
      else last_component r (cur +:+ String c ""%string)
  end.

(** ** Python numbers

    The numbers the source computes with are Python's: [int]s of any
    size and [float]s, the IEEE 754 binary64 values, which are the
    primitive floats of Rocq and round as the processor does.  An
    operation on an [int] and a [float] converts the [int] first. *)

Module py.
Import PrimFloat.

Inductive num : Type :=
| Int (z : Z)
| Float (f : float).

(** The magnitudes from [2^1024 - 2^970] on, half a unit in the last
    place above the largest float, would round to infinity. *)
Definition float_limit : Z := 2 ^ 1024 - 2 ^ 970.

(** [float(z)]: the nearest float, ties to even. *)
Definition float_of_int (z : Z) : result float :=
  if float_limit <=? Z.abs z then Raise OverflowError
  else Ok (FloatOps.SF2Prim
             (SpecFloat.binary_normalize FloatOps.prec FloatOps.emax z 0 false)).

Definition to_float (x : num) : result float :=
  match x with Int z => float_of_int z | Float f => Ok f end.

(** An arithmetic operator that is exact on two [int]s and a float
    operation otherwise; the float operation itself never raises. *)
Definition arith (iop : Z -> Z -> Z) (fop : float -> float -> float)
           (x y : num) : result num :=
  match x, y with
  | Int a, Int b => Ok (Int (iop a b))
  | _, _ => a ← to_float x; b ← to_float y; Ok (Float (fop a b))
  end.

(** [x * y] and [x - y] *)
Definition mul : num -> num -> result num := arith Z.mul PrimFloat.mul.
Definition sub : num -> num -> result num := arith Z.sub PrimFloat.sub.

(** [a / b] on two [int]s: the exact quotient correctly rounded, here
    from a quotient of at least 56 bits and a sticky bit. *)
Definition int_truediv (a b : Z) : result float :=
  if b =? 0 then Raise ZeroDivisionError
  else if float_limit * Z.abs b <=? Z.abs a then Raise OverflowError
  else
    let k := Z.max 0 (56 + Z.log2 (Z.abs b) - Z.log2 (Z.abs a)) in
    let n := Z.abs a * 2 ^ k in
    let sticky := if n mod Z.abs b =? 0 then 0 else 1 in
    let m := 2 * (n / Z.abs b) + sticky in
    let negative := xorb (a <? 0) (b <? 0) in
    Ok (FloatOps.SF2Prim
          (SpecFloat.binary_normalize FloatOps.prec FloatOps.emax
             (if negative then - m else m) (- k - 1) negative)).

(** [x / y] *)
Definition truediv (x y : num) : result num :=
  match x, y with
  | Int a, Int b => f ← int_truediv a b; Ok (Float f)
  | _, _ =>
      a ← to_float x; b ← to_float y;
      if PrimFloat.eqb b 0%float then Raise ZeroDivisionError
      else Ok (Float (PrimFloat.div a b))
  end.

(** [a > f] and [f > b] for an [int] and a [float]: Python compares the
    exact values. *)
Definition int_gt_float (a : Z) (f : float) : bool :=
  match FloatOps.Prim2SF f with
  | SpecFloat.S754_nan => false
  | SpecFloat.S754_infinity negative => negative
  | SpecFloat.S754_zero _ => 0 <? a
  | SpecFloat.S754_finite negative m e =>
      let v := if negative then Z.neg m else Z.pos m in
      if 0 <=? e then v * 2 ^ e <? a else v <? a * 2 ^ (- e)
  end.

Definition float_gt_int (f : float) (b : Z) : bool :=
  match FloatOps.Prim2SF f with
  | SpecFloat.S754_nan => false
  | SpecFloat.S754_infinity negative => negb negative
  | SpecFloat.S754_zero _ => b <? 0
  | SpecFloat.S754_finite negative m e =>
      let v := if negative then Z.neg m else Z.pos m in
      if 0 <=? e then b <? v * 2 ^ e else b * 2 ^ (- e) <? v
  end.

(** [x > y] *)
Definition gt (x y : num) : bool :=
  match x, y with
  | Int a, Int b => b <? a
  | Int a, Float g => int_gt_float a g
  | Float f, Int b => float_gt_int f b
  | Float f, Float g => PrimFloat.ltb g f
  end.

(** The literal [0.9] *)
Definition nine_tenths : float := 0x1.ccccccccccccdp-1.

(** The literals [94.87], [115.9] and [485793000.0], for the examples *)
Definition f94_87 : float := 0x1.7b7ae147ae148p+6.
Definition f115_9 : float := 0x1.cf9999999999ap+6.
Definition f485793000 : float := 0x1.cf49ce8p+28.

End py.

(** ** [extract_rawChunk] (io.py, lines 23-94)

    [psutil.virtual_memory()] is the record [mem], of [int]s.  The
    window, the sampling rate and the gain are Python numbers, and the
    chunk size and the memory guard are computed on them as the source
    does, in binary64 as soon as a [float] is involved.  What the source
    does once the guard is passed (lines 62-94: slicing the file, scaling
    to microvolts, centring, saving) is the parameter [load_chunk].  So
    are the parser of a saved chunk and the formatting of the numbers in
    its file name. *)

Record vmem : Type := mk_vmem { vm_total : Z; vm_available : Z; vm_used : Z }.

Definition int16_wrap (z : Z) : Z := (z + 2 ^ 15) mod 2 ^ 16 - 2 ^ 15.

(** [v[0]] and [v[-1]] *)
Definition py_first (v : list Z) : result Z :=
  match v with [] => Raise IndexError | c :: _ => Ok c end.

Definition py_last (v : list Z) : result Z :=
  match last v with None => Raise IndexError | Some c => Ok c end.

(** [fs*385*2*(times[1]-times[0])] *)
Definition chunk_size (fs t1 t2 : py.num) : result py.num :=
  a ← py.mul fs (py.Int 385);
  b ← py.mul a (py.Int 2);
  d ← py.sub t2 t1;
  py.mul b d.

(** [x/1024/1024] *)
Definition megabytes (x : py.num) : result py.num :=
  k ← py.truediv x (py.Int 1024);
  py.truediv k (py.Int 1024).

(** The two messages printed before the guard (lines 55-56): their
    arguments are evaluated, in the order of the source, and what is
    printed is not kept. *)
Definition memory_messages (chunkSize : py.num) (mem : vmem) : result unit :=
  used ← py.mul (py.Int (vm_used mem)) (py.Int 100);
  _ ← py.truediv used (py.Int (vm_total mem));
  total ← megabytes (py.Int (vm_total mem));
  _ ← py.truediv total (py.Int 1024);
  _ ← megabytes chunkSize;
  _ ← megabytes (py.Int (vm_available mem));
  Ok tt.

(** [chunkSize > 0.9*vmem['available']] *)
Definition exceeds_memory (chunkSize : py.num) (mem : vmem) : result bool :=
  threshold ← py.mul (py.Float py.nine_tenths) (py.Int (vm_available mem));
  Ok (py.gt chunkSize threshold).

Section RawChunk.

Context {chunk : Type}.
Context (np_load : list byte -> chunk).
Context (chunk_name : string -> py.num -> py.num -> Z -> Z -> string).
Context (load_chunk :
           list byte -> py.num -> py.num -> list Z -> py.num -> py.num ->
           Z -> Z -> bool -> bool -> result (option chunk)).

Definition extract_rawChunk (files : filesystem) (mem : vmem) (bp : string)
           (times : list py.num) (channels : list Z) (fs ampFactor : py.num)
           (Nchans syncChan : Z) (save ret : bool) : result (option chunk) :=
  _ ← py_assert (Nat.eqb (length times) 2);
  let channels := map int16_wrap channels in
  _ ← py_assert (forallb (fun c => c <=? Nchans - 1) channels);
  _ ← py_assert (String.eqb (py_suffix 4 bp) ".bin"%string);
  let bn := last_component bp ""%string in
  let dp := py_drop_last (String.length bn + 1)%nat bp in
  match times with
  | [t1; t2] =>
      c_first ← py_first channels;
      c_last ← py_last channels;
      let rcn := chunk_name bn t1 t2 c_first c_last in
      let rcp := dp +:+ "/"%string +:+ rcn in
      match files !! rcp with
      | Some saved => Ok (Some (np_load saved))
      | None =>
          chunkSize ← chunk_size fs t1 t2;
          _ ← memory_messages chunkSize mem;
          exceeds ← exceeds_memory chunkSize mem;
          if (exceeds : bool)
          then (* warning printed, from the numbers of the second message *)
            Ok None
          else
            match files !! bp with
            | None => Raise FileNotFoundError
            | Some content =>
                load_chunk content t1 t2 channels fs ampFactor Nchans
                           syncChan save ret
            end
      end
  | _ => Raise AssertionError
  end.

End RawChunk.

(** ** [extract_syncChan] (io.py, lines 96-145) *)

(** [f.seek(off); f.read(n)] on a file opened for reading. *)
Definition read_at (content : list byte) (off : Z) (n : nat) : list byte :=
  take n (drop (Z.to_nat off) content).

(** One run of the reading loop: the offsets sought, in order, and the
    bytes gathered or the exception raised. *)
Record loop_run : Type :=
  mk_loop_run { seeks : list Z; gathered : result (list byte) }.

(** [while i<60000: ...] from the state [(i, sc)].  The message printed
    first divides by the number of samples of the file.  [None] stands
    for a loop that has not finished within [fuel] iterations. *)
Fixpoint sync_loop (fuel : nat) (content : list byte) (Nchans syncChan : Z)
         (i : Z) (sc : list byte) (sought : list Z) : option loop_run :=
  if i <? 60000 then
    match fuel with
    | O => None
    | S fuel' =>
        if (Nchans * 2 =? 0) || Nat.eqb (length content) 0
        then Some (mk_loop_run sought (Raise ZeroDivisionError))
        else
          let off := (i * Nchans + syncChan) * 2 in
          if off <? 0 then Some (mk_loop_run sought (Raise OSError))
          else
            let b := read_at content off 2 in
            match b with
            | [] => Some (mk_loop_run (sought ++ [off]) (Ok sc))
            | _ =>
                sync_loop fuel' content Nchans syncChan (i + 1) (sc ++ b)
                          (sought ++ [off])
            end
    end
  else Some (mk_loop_run sought (Ok sc)).

(** A call: the offsets sought in the binary file, the file system
    afterwards, and what the call returns or raises. *)
Record syncChan_run : Type :=
  mk_syncChan_run {
      offsets_sought : list Z;
      files_after : filesystem;
      outcome : result ndarray }.

Section SyncChan.

Context (np_load : list byte -> ndarray) (np_save : ndarray -> list byte).

Definition extract_syncChan (files : filesystem) (bp : string)
           (syncChan : Z) (fs : Z) (ampFactor : Q) (Nchans : Z)
           (save : bool) : option syncChan_run :=
  if negb (String.eqb (py_suffix 4 bp) ".bin"%string)
  then Some (mk_syncChan_run [] files (Raise AssertionError))
  else
    let bn := last_component bp ""%string in
    let dp := py_drop_last (String.length bn + 1)%nat bp in
    let rcn := bn +:+ "_sync.npy"%string in
    let rcp := dp +:+ "/"%string +:+ rcn in
    match files !! rcp with
    | Some saved => Some (mk_syncChan_run [] files (Ok (np_load saved)))
    | None =>
        match files !! bp with
        | None => Some (mk_syncChan_run [] files (Raise FileNotFoundError))
        | Some content =>
            run ← sync_loop (Z.to_nat 30000) content Nchans syncChan
                            30000 [] [];
            match gathered run with
            | Raise e => Some (mk_syncChan_run (seeks run) files (Raise e))
            | Ok sc =>
                let sc := np.frombuffer_uint8 sc in
                let sc := np.unpackbits sc in
                let Nsamples := (length (data sc) / 16)%nat in
                let shaped :=
                  sc ← np.reshape sc [Z.of_nat Nsamples; 16];
                  np.transpose sc in
                match shaped with
                | None => Some (mk_syncChan_run (seeks run) files
                                                (Raise ValueError))
                | Some sc =>
                    Some (mk_syncChan_run (seeks run)
                            (if save then <[rcp := np_save sc]> files
                             else files)
                            (Ok sc))
                end
            end
        end
    end.

End SyncChan.

(** The offset the loop seeks for sample [i]. *)
Definition sample_offset (Nchans syncChan i : Z) : Z :=
  (i * Nchans + syncChan) * 2.

(** A recording of one channel: 30000 silent samples, then the three
    samples the loop can reach. *)
Definition sync_recording : list byte :=
  repeat Byte.x00 (Z.to_nat 60000)
  ++ [Byte.x01; Byte.x80; Byte.xff; Byte.x00; Byte.x05; Byte.x05].

(** The number of complete samples a recording of [Nchans] 16-bit channels
    holds. *)
Definition recording_samples (content : list byte) (Nchans : Z) : Z :=
  Z.of_nat (length content) / (Nchans * 2).

(** ** Text files, Python strings and more exceptions *)

(** The exceptions of the functions below: those above, and two more. *)
Inductive pyexn : Type :=
| Builtin (e : exn)
| KeyError (key : string)
| TypeError.

Inductive checked (A : Type) : Type :=
| Done (a : A)
| Fail (e : pyexn).

Arguments Done {A} a.
Arguments Fail {A} e.

#[global] Instance checked_bind : MBind checked :=
  fun A B f r => match r with Done a => f a | Fail e => Fail e end.

(** Text files: path -> the lines [f.readlines()] returns, each with its
    terminator, the last one possibly without.  Characters are the code
    points below 256. *)
Abbreviation textfiles := (gmap string (list string)).

(** [str.isspace()] on one character *)
Definition py_isspace (c : ascii) : bool :=
  let n := nat_of_ascii c in
  (Nat.leb 9 n && Nat.leb n 13) || (Nat.leb 28 n && Nat.leb n 32)
  || Nat.eqb n 133 || Nat.eqb n 160.

Definition is_newline (c : ascii) : bool :=
  Ascii.eqb c "010"%char || Ascii.eqb c "013"%char.

(** [s.split(sep)] for a one-character separator *)
Fixpoint py_split (sep : ascii) (s : string) : list string :=
  match s with
  | EmptyString => [EmptyString]
  | String c r =>
      if Ascii.eqb c sep then EmptyString :: py_split sep r
      else match py_split sep r with
           | h :: t => String c h :: t
           | [] => [String c EmptyString]
           end
  end.

(** [s.split(sep)] for the two-character separator [a b] *)
Fixpoint py_split2 (a b : ascii) (s : string) : list string :=
  match s with
  | EmptyString => [EmptyString]
  | String c r =>
      match r with
      | String c2 r2 =>
          if Ascii.eqb c a && Ascii.eqb c2 b
          then EmptyString :: py_split2 a b r2
          else match py_split2 a b r with
               | h :: t => String c h :: t
               | [] => [String c EmptyString]
               end
      | EmptyString => [String c EmptyString]
      end
  end.

(** [s.lstrip(chars)], [s.rstrip(chars)] and [s.strip(chars)], the set of
    characters given by its test *)
Fixpoint py_lstrip (p : ascii -> bool) (s : string) : string :=
  match s with
  | EmptyString => EmptyString
  | String c r => if p c then py_lstrip p r else s
  end.

Fixpoint py_rstrip (p : ascii -> bool) (s : string) : string :=
  match s with
  | EmptyString => EmptyString
  | String c r =>
      match py_rstrip p r with
      | EmptyString => if p c then EmptyString else String c EmptyString
      | r' => String c r'
      end
  end.

Definition py_strip (p : ascii -> bool) (s : string) : string :=
  py_rstrip p (py_lstrip p s).

(** [c in s] *)
Fixpoint py_in (c : ascii) (s : string) : bool :=
  match s with
  | EmptyString => false
  | String x r => Ascii.eqb x c || py_in c r
  end.

(** The number of occurrences of [c] in [s]. *)
Fixpoint count_char (c : ascii) (s : string) : nat :=
  match s with
  | EmptyString => 0%nat
  | String x r => ((if Ascii.eqb x c then 1 else 0) + count_char c r)%nat
  end.

(** ** [read_spikeglx_meta] (io.py, lines 313-339)

    [float] is a parameter: the parser of Python's float literals, which
    answers [None] where Python raises. *)

Section SpikeglxMeta.

Context {float : Type} (py_float : string -> option float).

(** The values of the dictionary: floats, strings and lists of strings. *)
Inductive meta_value : Type :=
| MFloat (x : float)
| MStr (s : string)
| MList (l : list string).

(** The body of the loop for one line: the key and the value it binds. *)
Definition meta_line (ln : string) : checked (string * meta_value) :=
  let tmp := py_split "="%char ln in
  match tmp with
  | [k; val] =>
      let k := py_strip py_isspace k in
      let val := py_strip is_newline val in
      if py_in "~"%char k
      then Done (k, MList (py_split2 ")"%char "("%char
                             (py_strip (Ascii.eqb ")"%char)
                                (py_strip (Ascii.eqb "("%char) val))))
      else match py_float val with
           | Some x => Done (k, MFloat x)
           | None => Done (k, MStr val)
           end
  | _ => Fail (Builtin ValueError)
  end.

(** [for ln in f.readlines(): ...] from the dictionary [meta] *)
Fixpoint meta_lines (lines : list string) (meta : gmap string meta_value)
  : checked (gmap string meta_value) :=
  match lines with
  | [] => Done meta
  | ln :: rest =>
      kv ← meta_line ln;
      meta_lines rest (<[kv.1 := kv.2]> meta)
  end.

(** [meta[key]] *)
Definition meta_get (meta : gmap string meta_value) (key : string)
  : checked meta_value :=
  match meta !! key with
  | Some v => Done v
  | None => Fail (KeyError key)
  end.

(** [v[:2] + 'SampRate'] *)
Definition samp_rate_key (v : meta_value) : checked string :=
  match v with
  | MStr s => Done (substring 0 2 s +:+ "SampRate")
  | MFloat _ => Fail TypeError
  | MList _ => Fail TypeError
  end.

(** [v == 'imec'] *)
Definition is_str (v : meta_value) (s : string) : bool :=
  match v with
  | MStr s' => String.eqb s' s
  | _ => false
  end.

Definition read_spikeglx_meta (text : textfiles) (metafile : string)
  : checked (gmap string meta_value) :=
  match text !! metafile with
  | None => Fail (Builtin FileNotFoundError)
  | Some lines =>
      meta ← meta_lines lines ∅;
      typeThis ← meta_get meta "typeThis";
      key ← samp_rate_key typeThis;
      rate ← meta_get meta key;
      let meta := <["sRateHz"%string := rate]> meta in
      typeThis ← meta_get meta "typeThis";
      if is_str typeThis "imec"
      then
        rate ← meta_get meta "imSampRate";
        Done (<["sRateHz"%string := rate]> meta)
      else Done meta
  end.

End SpikeglxMeta.

Arguments MFloat {float} x.
Arguments MStr {float} s.
Arguments MList {float} l.

(** ** [load_units_qualities] (gl.py, lines 32-46)

    [Path(dp, name)], [os.path.isfile] and [pd.read_csv] are parameters;
    the latter takes the path, the delimiter and the index column. *)

Section UnitsQualities.

Context {table : Type}.
Context (Path : string -> string -> string).
Context (isfile : string -> bool).
Context (read_csv : string -> string -> option string -> table).

Definition load_units_qualities (dp : string) : option table :=
  let f1 := "cluster_group.tsv"%string in
  let f2 := "cluster_groups.csv"%string in
  if isfile (Path dp f1)
  then Some (read_csv (Path dp f1) (String "009"%char "") None)
  else if isfile (Path dp ("merged_" +:+ f1))
  then Some (read_csv (Path dp ("merged_" +:+ f1)) (String "009"%char "")
                      (Some "dataset_i"%string))
  else if isfile f2
  then Some (read_csv (Path dp f2) "," None)
  else if isfile f2
  then Some (read_csv (Path dp ("merged_" +:+ f2)) ","
                      (Some "dataset_i"%string))
  else None.

End UnitsQualities.

(** A float parser for the examples: it knows two literals. *)
Definition sample_float (s : string) : option Z :=
  if String.eqb s "385" then Some 385
  else if String.eqb s "30000" then Some 30000
  else None.

Definition newline : string := String "010"%char EmptyString.

(** A metadata file of four lines, the rate given twice. *)
Definition sample_meta : list string :=
  [ "typeThis=imec" +:+ newline;
    "imSampRate=385" +:+ newline;
    "imSampRate=30000" +:+ newline;
    "nSavedChans=385" +:+ newline ].

Definition sample_text : textfiles := {[ "rec.meta"%string := sample_meta ]}.

(** Small file systems for the examples. *)
Definition tiny_files : filesystem := {[ "d/f.bin"%string := two_channel_file ]}.

Definition sync_files : filesystem := {[ "d/f.bin"%string := sync_recording ]}.

(** ** Notions used to state further properties *)

(** The range of the 16-bit signed dtype. *)
Definition is_int16 (v : Z) : Prop := -32768 <= v <= 32767.

(** Whether a path has a directory separator. *)
Fixpoint has_slash (s : string) : bool :=
  match s with
  | EmptyString => false
  | String c r => Ascii.eqb c "/"%char || has_slash r
  end.

(** The bytes the loop of [extract_syncChan] reads for the [k] samples
    from sample [i] on. *)
Definition sync_reads (content : list byte) (Nchans syncChan i : Z)
           (k : nat) : list byte :=
  flat_map
    (fun j => read_at content (sample_offset Nchans syncChan (i + Z.of_nat j)) 2)
    (seq 0 k).

(** The position in the 16-bit sync word of the bit that row [r] of the
    array of [extract_syncChan] holds: bytes in file order, each most
    significant bit first. *)
Definition syncChan_row_bit (r : nat) : Z :=
  if Nat.ltb r 8 then 7 - Z.of_nat r else 23 - Z.of_nat r.

(** * Properties *)

(** ** Sample runs *)

Example unpackbits_two_samples :
  unpackbits (mk_ndarray [2%nat] [5; -2]) 4
  = Some (mk_ndarray [2%nat; 4%nat] [1; 0; 1; 0; 0; 1; 1; 1]).
Proof. vm_compute. reflexivity. Qed.

Example unpackbits_scalar :
  unpackbits (mk_ndarray [] [6]) 3 = Some (mk_ndarray [3%nat] [0; 1; 1]).
Proof. vm_compute. reflexivity. Qed.

Example unpackbits_sign_mask :
  (mask_bit (-1) 62, mask_bit (-1) 63, mask_bit (-1) 64, mask_bit 1 63)
  = (1, 1, 0, 0).
Proof. vm_compute. reflexivity. Qed.

Example unpack_npix_sync_binary_run :
  unpack_npix_sync seconds (mk_ndarray [2%nat] [1; 2]) 30000%positive true
  = Some (Binary (mk_ndarray [2%nat; 16%nat]
                    [1; 0; 0; 0; 0; 0; 0; 0; 0; 0; 0; 0; 0; 0; 0; 0;
                     0; 1; 0; 0; 0; 0; 0; 0; 0; 0; 0; 0; 0; 0; 0; 0])).
Proof. vm_compute. reflexivity. Qed.

Example map_binary_transposed :
  map_binary {[ "rec.bin"%string := two_channel_file ]} sample_dirs "rec.bin" 2
             np_int16 0 "r" None true
  = Ok (mk_ndarray [2; 3]%nat [1; 3; 5; 2; 4; -1]).
Proof. vm_compute. reflexivity. Qed.

Example map_binary_missing_file :
  map_binary ∅ sample_dirs "rec.bin" 2 np_int16 0 "r" None false = Raise ValueError.
Proof. vm_compute. reflexivity. Qed.

(** ** Reshaping *)

Section Reshape.

Lemma filter_unknown_of_nat (s : list nat) :
  List.filter (fun d => d =? -1) (map Z.of_nat s) = [].
Proof.
  induction s as [|n s IH]; simpl; [reflexivity|].
  destruct (Z.eqb_spec (Z.of_nat n) (-1)); [lia | exact IH].
Qed.

Lemma filter_known_of_nat (s : list nat) :
  List.filter (fun d => negb (d =? -1)) (map Z.of_nat s) = map Z.of_nat s.
Proof.
  induction s as [|n s IH]; simpl; [reflexivity|].
  destruct (Z.eqb_spec (Z.of_nat n) (-1)); [lia | simpl; now rewrite IH].
Qed.

Lemma no_negative_of_nat (s : list nat) :
  existsb (fun d => d <? 0) (map Z.of_nat s) = false.
Proof.
  induction s as [|n s IH]; simpl; [reflexivity|].
  rewrite IH. destruct (Z.ltb_spec (Z.of_nat n) 0); [lia | reflexivity].
Qed.

Lemma prod_of_nat (s : list nat) :
  foldr Z.mul 1 (map Z.of_nat s) = Z.of_nat (np.prod_shape s).
Proof.
  induction s as [|n s IH]; simpl; [reflexivity|].
  rewrite IH. unfold np.prod_shape. simpl. lia.
Qed.

Lemma to_nat_of_nat (s : list nat) : map Z.to_nat (map Z.of_nat s) = s.
Proof.
  induction s as [|n s IH]; simpl; [reflexivity|].
  now rewrite IH, Nat2Z.id.
Qed.

Lemma prod_shape_app (s t : list nat) :
  np.prod_shape (s ++ t) = (np.prod_shape s * np.prod_shape t)%nat.
Proof.
  unfold np.prod_shape. induction s as [|n s IH]; simpl; [lia|].
  rewrite IH. lia.
Qed.

(** Reshaping to a shape of the right size succeeds and keeps the data. *)
Lemma reshape_exact (a : ndarray) (s : list nat) :
  np.prod_shape s = length (data a) ->
  np.reshape a (map Z.of_nat s) = Some (mk_ndarray s (data a)).
Proof.
  intros Hs. unfold np.reshape.
  rewrite filter_unknown_of_nat, filter_known_of_nat, no_negative_of_nat.
  rewrite prod_of_nat, Hs, Z.eqb_refl, to_nat_of_nat. reflexivity.
Qed.

(** [a.reshape([-1, 1])] always succeeds: one column, as many rows as
    elements. *)
Lemma reshape_column (a : ndarray) :
  np.reshape a [-1; 1] = Some (mk_ndarray [length (data a); 1%nat] (data a)).
Proof.
  unfold np.reshape. simpl.
  rewrite Z.mod_1_r. simpl. rewrite Z.div_1_r, Nat2Z.id. reflexivity.
Qed.

End Reshape.

(** ** The data of [unpackbits] *)

Section UnpackBits.

Lemma flat_map_ext_in {A B} (f g : A -> list B) (l : list A) :
  (forall x, In x l -> f x = g x) -> flat_map f l = flat_map g l.
Proof.
  induction l as [|x l IH]; simpl; intros H; [reflexivity|].
  rewrite (H x) by now left. rewrite IH; [reflexivity|].
  intros y Hy. apply H. now right.
Qed.

Lemma flat_map_nth_seq {B} (g : Z -> list B) (l : list Z) :
  flat_map (fun i => g (nth i l 0)) (seq 0 (length l)) = flat_map g l.
Proof.
  induction l as [|x l IH]; simpl; [reflexivity|].
  f_equal. rewrite <- seq_shift, <- IH.
  rewrite !flat_map_concat_map, List.map_map. reflexivity.
Qed.

Lemma length_unpacked_data (xs : list Z) (nb : nat) :
  length (unpacked_data xs nb) = (length xs * nb)%nat.
Proof.
  unfold unpacked_data. induction xs as [|x xs IH]; simpl; [reflexivity|].
  rewrite length_app, length_map, length_seq, IH. reflexivity.
Qed.

(** [unpackbits] never fails on an array, and this is what it returns. *)
Lemma unpackbits_eq (x : ndarray) (nb : nat) :
  np.wf x ->
  unpackbits x nb
  = Some (mk_ndarray (shape x ++ [nb]) (unpacked_data (data x) nb)).
Proof.
  intros Hwf. unfold unpackbits.
  rewrite reshape_column. simpl.
  change [1; Z.of_nat nb] with (map Z.of_nat [1%nat; nb]).
  rewrite reshape_exact
    by (simpl; rewrite length_map, length_seq; unfold np.prod_shape; simpl; lia).
  simpl. unfold np.bitwise_and, np.broadcast2. simpl.
  set (N := length (data x)).
  assert (HN : np.bcast_dim N 1 = Some N).
  { unfold np.bcast_dim. destruct (Nat.eqb_spec N 1) as [->|]; reflexivity. }
  assert (Hnb : np.bcast_dim 1 nb = Some nb).
  { unfold np.bcast_dim. destruct (Nat.eqb_spec 1 nb) as [<-|]; reflexivity. }
  rewrite HN, Hnb. simpl.
  unfold np.astype_int, np.astype_bool, np.power. simpl.
  replace (map Z.of_nat (shape x) ++ [Z.of_nat nb])
    with (map Z.of_nat (shape x ++ [nb])) by now rewrite map_app.
  assert (Hdata :
    map (fun v => if v =? 0 then 0 else 1)
      (flat_map
         (fun i =>
            map (fun j =>
                   Z.land
                     (np.get2 (mk_ndarray [N; 1%nat] (data x))
                              (if Nat.eqb N 1 then 0%nat else i) 0)
                     (np.get2
                        (mk_ndarray [1%nat; nb]
                           (map (fun e => np.int64_wrap (2 ^ e))
                                (map Z.of_nat (seq 0 nb))))
                        0 (if Nat.eqb nb 1 then 0%nat else j)))
                (seq 0 nb))
         (seq 0 N))
    = unpacked_data (data x) nb).
  { unfold unpacked_data. rewrite <- flat_map_nth_seq. fold N.
    rewrite flat_map_concat_map, concat_map, List.map_map.
    rewrite <- flat_map_concat_map.
    apply flat_map_ext_in. intros i Hi. apply in_seq in Hi.
    rewrite List.map_map. apply map_ext_in. intros j Hj. apply in_seq in Hj.
    unfold np.get2, mask_bit. simpl.
    assert (Hi' : (if Nat.eqb N 1 then 0%nat else i) = i).
    { destruct (Nat.eqb_spec N 1); [lia | reflexivity]. }
    assert (Hj' : (if Nat.eqb nb 1 then 0%nat else j) = j).
    { destruct (Nat.eqb_spec nb 1); [lia | reflexivity]. }
    rewrite Hi', Hj'. rewrite Nat.mul_1_r, Nat.add_0_r.
    rewrite List.map_map.
    rewrite (nth_indep (map _ (seq 0 nb)) 0 (np.int64_wrap (2 ^ Z.of_nat 0)))
      by (rewrite length_map, length_seq; lia).
    rewrite (map_nth (fun e => np.int64_wrap (2 ^ Z.of_nat e))).
    rewrite seq_nth by lia. reflexivity. }
  rewrite Hdata.
  apply (reshape_exact (mk_ndarray [N; nb] (unpacked_data (data x) nb))).
  simpl. rewrite length_unpacked_data, prod_shape_app.
  unfold np.wf in Hwf. rewrite <- Hwf. unfold np.prod_shape. simpl. lia.
Qed.

End UnpackBits.

(** ** Bits and masks *)

Section Bits.

Lemma int64_wrap_pow2_low (b : nat) :
  (b < 63)%nat -> np.int64_wrap (2 ^ Z.of_nat b) = 2 ^ Z.of_nat b.
Proof.
  intros Hb. unfold np.int64_wrap.
  assert (0 < 2 ^ Z.of_nat b < 2 ^ 63).
  { split; [apply Z.pow_pos_nonneg; lia | apply Z.pow_lt_mono_r; lia]. }
  rewrite Z.mod_small; lia.
Qed.

Lemma int64_wrap_pow2_high (b : nat) :
  (64 <= b)%nat -> np.int64_wrap (2 ^ Z.of_nat b) = 0.
Proof.
  intros Hb. unfold np.int64_wrap.
  replace (Z.of_nat b) with (Z.of_nat b - 64 + 64) by lia.
  rewrite Z.pow_add_r by lia.
  rewrite Z.add_comm, Z_mod_plus_full. reflexivity.
Qed.

Lemma land_pow2 (x n : Z) :
  0 <= n -> Z.land x (2 ^ n) = if Z.testbit x n then 2 ^ n else 0.
Proof.
  intros Hn. apply Z.bits_inj'. intros k Hk.
  rewrite Z.land_spec, Z.pow2_bits_eqb by lia.
  destruct (Z.eqb_spec n k) as [->|Hne].
  - destruct (Z.testbit x k) eqn:E; simpl.
    + rewrite Z.pow2_bits_true by lia. reflexivity.
    + rewrite Z.bits_0. reflexivity.
  - rewrite andb_false_r.
    destruct (Z.testbit x n).
    + rewrite Z.pow2_bits_false by lia. reflexivity.
    + rewrite Z.bits_0. reflexivity.
Qed.

(** Below the sign bit the mask is a true power of two, whatever the
    sample. *)
Lemma mask_bit_low (x : Z) (b : nat) :
  (b < 63)%nat -> mask_bit x b = Z.b2z (Z.testbit x (Z.of_nat b)).
Proof.
  intros Hb. unfold mask_bit.
  rewrite int64_wrap_pow2_low, land_pow2 by lia.
  assert (0 < 2 ^ Z.of_nat b) by (apply Z.pow_pos_nonneg; lia).
  destruct (Z.testbit x (Z.of_nat b)); simpl.
  - destruct (Z.eqb_spec (2 ^ Z.of_nat b) 0); [lia | reflexivity].
  - reflexivity.
Qed.

Lemma testbit_sign (x : Z) :
  np.is_int64 x -> Z.testbit x 63 = (x <? 0).
Proof.
  intros [Hlo Hhi].
  pose proof (Z.testbit_spec' x 63 ltac:(lia)) as Hspec.
  destruct (Z.ltb_spec x 0) as [Hneg|Hpos].
  - assert (Hq : x / 2 ^ 63 = -1)
      by (symmetry; apply Z.div_unique with (x + 2 ^ 63); lia).
    rewrite Hq in Hspec. destruct (Z.testbit x 63); [reflexivity | discriminate].
  - rewrite Z.div_small in Hspec by lia.
    destruct (Z.testbit x 63); [discriminate | reflexivity].
Qed.

Lemma testbit_above_int64 (x n : Z) :
  0 <= x < 2 ^ 63 -> 63 <= n -> Z.testbit x n = false.
Proof.
  intros Hx Hn.
  pose proof (Z.testbit_spec' x n ltac:(lia)) as Hspec.
  assert (2 ^ 63 <= 2 ^ n) by (apply Z.pow_le_mono_r; lia).
  rewrite Z.div_small in Hspec by lia.
  destruct (Z.testbit x n); [discriminate | reflexivity].
Qed.

(** At position 63 the power has wrapped to the most negative integer,
    which masks the sign bit of a 64-bit sample. *)
Lemma mask_bit_sign (x : Z) :
  np.is_int64 x -> mask_bit x 63 = Z.b2z (Z.testbit x 63).
Proof.
  intros Hx. rewrite (testbit_sign x Hx). unfold mask_bit.
  change (np.int64_wrap (2 ^ Z.of_nat 63)) with (Z.shiftl (-1) 63).
  destruct (Z.ltb_spec x 0) as [Hneg|Hpos]; simpl Z.b2z.
  - assert (Hb : Z.testbit (Z.land x (Z.shiftl (-1) 63)) 63 = true).
    { rewrite Z.land_spec, Z.shiftl_spec by lia.
      rewrite (testbit_sign x Hx). simpl.
      destruct (Z.ltb_spec x 0); [reflexivity | lia]. }
    destruct (Z.eqb_spec (Z.land x (Z.shiftl (-1) 63)) 0) as [E|]; [|reflexivity].
    rewrite E, Z.bits_0 in Hb. discriminate.
  - assert (E : Z.land x (Z.shiftl (-1) 63) = 0).
    { apply Z.bits_inj'. intros n Hn.
      rewrite Z.land_spec, Z.bits_0.
      destruct (Z.lt_ge_cases n 63).
      - rewrite Z.shiftl_spec_low by lia. apply andb_false_r.
      - rewrite testbit_above_int64; [reflexivity | unfold np.is_int64 in Hx; lia | lia]. }
    rewrite E. reflexivity.
Qed.

(** From position 64 on the power has wrapped to zero. *)
Lemma mask_bit_high (x : Z) (b : nat) : (64 <= b)%nat -> mask_bit x b = 0.
Proof.
  intros Hb. unfold mask_bit.
  rewrite int64_wrap_pow2_high, Z.land_0_r by lia. reflexivity.
Qed.

Lemma mask_bit_int64 (x : Z) (b : nat) :
  np.is_int64 x -> (b < 64)%nat ->
  mask_bit x b = Z.b2z (Z.testbit x (Z.of_nat b)).
Proof.
  intros Hx Hb. destruct (Nat.eq_dec b 63%nat) as [->|].
  - apply mask_bit_sign, Hx.
  - apply mask_bit_low. lia.
Qed.

Lemma mask_bit_01 (x : Z) (b : nat) : mask_bit x b = 0 \/ mask_bit x b = 1.
Proof. unfold mask_bit. destruct (_ =? 0); auto. Qed.

Lemma foldr_add_snoc (l : list Z) (v : Z) :
  foldr Z.add 0 (l ++ [v]) = foldr Z.add 0 l + v.
Proof. induction l as [|a l IH]; simpl; [lia | rewrite IH; lia]. Qed.

Lemma recombine_snoc (l : list Z) (v : Z) :
  recombine (l ++ [v]) = recombine l + v * 2 ^ Z.of_nat (length l).
Proof.
  unfold recombine. rewrite imap_app. simpl.
  rewrite foldr_add_snoc, Nat.add_0_r. reflexivity.
Qed.

Lemma recombine_mask_bits (x : Z) (n : nat) :
  np.is_int64 x ->
  recombine (map (mask_bit x) (seq 0 n))
  = x mod 2 ^ Z.min (Z.of_nat n) 64.
Proof.
  intros Hx. induction n as [|n IH].
  - simpl. rewrite Z.mod_1_r. reflexivity.
  - rewrite seq_S, map_app. simpl map.
    rewrite recombine_snoc, IH, length_map, length_seq.
    destruct (Nat.lt_ge_cases n 64) as [Hlt|Hge].
    + rewrite mask_bit_int64 by assumption.
      rewrite !Z.min_l by lia.
      rewrite Z.testbit_spec' by lia.
      replace (Z.of_nat (S n)) with (Z.of_nat n + 1) by lia.
      rewrite Z.pow_add_r, Z.pow_1_r by lia.
      assert (0 < 2 ^ Z.of_nat n) by (apply Z.pow_pos_nonneg; lia).
      rewrite Z.rem_mul_r by lia. lia.
    + rewrite mask_bit_high by lia.
      rewrite !Z.min_r by lia. lia.
Qed.

(** Rows and entries of the unpacked data. *)
Lemma row_unpacked_data (xs : list Z) (nb i : nat) :
  (i < length xs)%nat ->
  row nb (unpacked_data xs nb) i = map (mask_bit (nth i xs 0)) (seq 0 nb).
Proof.
  unfold row, unpacked_data. revert i.
  induction xs as [|x xs IH]; intros i Hi; simpl in Hi; [lia|].
  simpl flat_map. destruct i as [|i].
  - rewrite drop_0, take_app_length'; [reflexivity|].
    now rewrite length_map, length_seq.
  - replace (S i * nb)%nat with (nb + i * nb)%nat by lia.
    rewrite <- drop_drop, drop_app_length'
      by now rewrite length_map, length_seq.
    simpl nth. apply IH. lia.
Qed.

Lemma nth_unpacked_data (xs : list Z) (nb i b : nat) :
  (i < length xs)%nat -> (b < nb)%nat ->
  nth (i * nb + b) (unpacked_data xs nb) 0 = mask_bit (nth i xs 0) b.
Proof.
  unfold unpacked_data. revert i.
  induction xs as [|x xs IH]; intros i Hi Hb; simpl in Hi; [lia|].
  simpl flat_map. destruct i as [|i].
  - simpl. rewrite app_nth1 by now rewrite length_map, length_seq.
    rewrite (nth_indep _ 0 (mask_bit x 0))
      by now rewrite length_map, length_seq.
    rewrite map_nth, seq_nth by lia. reflexivity.
  - rewrite app_nth2 by (rewrite length_map, length_seq; lia).
    rewrite length_map, length_seq.
    replace (S i * nb + b - nb)%nat with (i * nb + b)%nat by lia.
    simpl nth. apply IH; lia.
Qed.

End Bits.

(** ** Statements about [unpackbits] *)

Section UnpackBitsClaims.

Lemma wf_vector (xs : list Z) : np.wf (mk_ndarray [length xs] xs).
Proof. unfold np.wf, np.prod_shape. simpl. lia. Qed.

Lemma Forall_nth_int64 (xs : list Z) (i : nat) :
  Forall np.is_int64 xs -> np.is_int64 (nth i xs 0).
Proof.
  intros H. destruct (Nat.lt_ge_cases i (length xs)) as [Hi|Hi].
  - rewrite List.Forall_forall in H. apply H, nth_In, Hi.
  - rewrite nth_overflow by lia. unfold np.is_int64. lia.
Qed.

Lemma unpacked_data_01 (xs : list Z) (nb : nat) :
  Forall (fun v => v = 0 \/ v = 1) (unpacked_data xs nb).
Proof.
  unfold unpacked_data. rewrite List.Forall_forall. intros v Hv.
  apply in_flat_map in Hv as (x & _ & Hv).
  apply in_map_iff in Hv as (b & <- & _). apply mask_bit_01.
Qed.

(** C10: on an integer array of any shape, of any number of dimensions,
    and for every bit width, [unpackbits] succeeds, and the shape of
    what it returns is the shape of the input with the bit width
    appended as the last axis. *)
Theorem unpackbits_any_shape (x : ndarray) (num_bits : nat) :
  np.wf x ->
  exists r, unpackbits x num_bits = Some r
            /\ shape r = shape x ++ [num_bits]
            /\ np.wf r.
Proof.
  intros Hwf. eexists. split; [apply unpackbits_eq, Hwf|]. split; [reflexivity|].
  unfold np.wf in *. simpl.
  rewrite length_unpacked_data, prod_shape_app, Hwf.
  unfold np.prod_shape. simpl. lia.
Qed.

Lemma unpackbits_any_shape_witness :
  np.wf (mk_ndarray [2; 1; 3]%nat [5; -2; 7; 0; 1; 9])
  /\ exists r, unpackbits (mk_ndarray [2; 1; 3]%nat [5; -2; 7; 0; 1; 9]) 4
               = Some r
               /\ shape r = [2; 1; 3]%nat ++ [4%nat]
               /\ np.wf r.
Proof.
  split; [reflexivity|].
  apply (unpackbits_any_shape (mk_ndarray [2; 1; 3]%nat [5; -2; 7; 0; 1; 9]) 4).
  reflexivity.
Defined.

(** C6, as stated, fails beyond the 64 bits of the integer type: column
    64 of the sample -1 is 0, while bit 64 of -1 is 1. *)
Lemma unpackbits_entries_counterexample :
  exists r, unpackbits (mk_ndarray [1%nat] [-1]) 65 = Some r
            /\ np.get2 r 0 64 <> Z.b2z (Z.testbit (-1) 64).
Proof.
  eexists. split; [vm_compute; reflexivity|]. vm_compute. discriminate.
Qed.

(** C6 (amended): for a one-dimensional sequence of N 64-bit samples and
    a bit width [num_bits], [unpackbits] returns an array of shape
    (N, num_bits) whose entries are all 0 or 1; entry [i, b] is bit b
    of sample i, least significant bit first, for the columns b < 64,
    and 0 for the columns from 64 on. *)
Theorem unpackbits_entries (xs : list Z) (num_bits : nat) :
  Forall np.is_int64 xs ->
  exists r, unpackbits (mk_ndarray [length xs] xs) num_bits = Some r
            /\ shape r = [length xs; num_bits]
            /\ Forall (fun v => v = 0 \/ v = 1) (data r)
            /\ forall i b, (i < length xs)%nat -> (b < num_bits)%nat ->
                 np.get2 r i b
                 = if Nat.ltb b 64
                   then Z.b2z (Z.testbit (nth i xs 0) (Z.of_nat b))
                   else 0.
Proof.
  intros Hxs. eexists. split; [apply unpackbits_eq, wf_vector|].
  split; [reflexivity|]. split; [apply unpacked_data_01|].
  intros i b Hi Hb. unfold np.get2. simpl.
  rewrite nth_unpacked_data by assumption.
  destruct (Nat.ltb_spec b 64).
  - apply mask_bit_int64; [apply Forall_nth_int64, Hxs | assumption].
  - apply mask_bit_high. assumption.
Qed.

Lemma unpackbits_entries_witness :
  Forall np.is_int64 [5; -2]%Z
  /\ exists r, unpackbits (mk_ndarray [length [5; -2]%Z] [5; -2]%Z) 66 = Some r
            /\ shape r = [length [5; -2]%Z; 66%nat]
            /\ Forall (fun v => v = 0 \/ v = 1) (data r)
            /\ forall i b, (i < length [5; -2]%Z)%nat -> (b < 66)%nat ->
                 np.get2 r i b
                 = if Nat.ltb b 64
                   then Z.b2z (Z.testbit (nth i [5; -2]%Z 0) (Z.of_nat b))
                   else 0.
Proof.
  assert (H : Forall np.is_int64 [5; -2]%Z)
    by (repeat constructor; unfold np.is_int64; lia).
  split; [exact H|]. exact (unpackbits_entries [5; -2]%Z 66 H).
Defined.

(** C2, as stated, fails for a bit width above 64: the 65 bits unpacked
    from -1 recombine to 2^64 - 1, while -1 modulo 2^65 is 2^65 - 1. *)
Lemma unpackbits_recombine_counterexample :
  exists r, unpackbits (mk_ndarray [1%nat] [-1]) 65 = Some r
            /\ recombine (row 65 (data r) 0) = 2 ^ 64 - 1
            /\ recombine (row 65 (data r) 0) <> (-1) mod 2 ^ 65.
Proof.
  eexists. split; [vm_compute; reflexivity|].
  split; [vm_compute; reflexivity | vm_compute; discriminate].
Qed.

(** C2 (amended): for every 64-bit sample x of the input and every bit
    width [num_bits], the weighted sum of bit[b]*2^b over the bits
    unpacked from x is x modulo 2^min(num_bits, 64); up to a width of
    64 this is x modulo 2^num_bits. *)
Theorem unpackbits_recombine (x : ndarray) (num_bits : nat) :
  np.wf x ->
  Forall np.is_int64 (data x) ->
  exists r, unpackbits x num_bits = Some r
            /\ forall i, (i < length (data x))%nat ->
                 recombine (row num_bits (data r) i)
                 = nth i (data x) 0 mod 2 ^ Z.min (Z.of_nat num_bits) 64.
Proof.
  intros Hwf Hxs. eexists. split; [apply unpackbits_eq, Hwf|].
  intros i Hi. simpl. rewrite row_unpacked_data by assumption.
  apply recombine_mask_bits, Forall_nth_int64, Hxs.
Qed.

Lemma unpackbits_recombine_witness :
  np.wf (mk_ndarray [3%nat] [5; -2; 40000]%Z)
  /\ Forall np.is_int64 (data (mk_ndarray [3%nat] [5; -2; 40000]%Z))
  /\ exists r, unpackbits (mk_ndarray [3%nat] [5; -2; 40000]%Z) 16 = Some r
            /\ forall i, (i < length (data (mk_ndarray [3%nat] [5; -2; 40000]%Z)))%nat ->
                 recombine (row 16 (data r) i)
                 = nth i (data (mk_ndarray [3%nat] [5; -2; 40000]%Z)) 0
                   mod 2 ^ Z.min (Z.of_nat 16) 64.
Proof.
  assert (H : Forall np.is_int64 (data (mk_ndarray [3%nat] [5; -2; 40000]%Z)))
    by (repeat constructor; unfold np.is_int64; lia).
  split; [reflexivity|]. split; [exact H|].
  exact (unpackbits_recombine (mk_ndarray [3%nat] [5; -2; 40000]%Z) 16
           eq_refl H).
Defined.

End UnpackBitsClaims.

(** ** Index vectors and dictionaries *)

Section IndexVectors.

Lemma in_insert_unique (c x : nat) (l : list nat) :
  In c (np.insert_unique x l) <-> c = x \/ In c l.
Proof.
  induction l as [|y l IH]; simpl.
  - intuition.
  - destruct (Nat.ltb_spec x y); [simpl; intuition|].
    destruct (Nat.eqb_spec x y) as [->|Hne]; simpl; [intuition|].
    rewrite IH. intuition.
Qed.

Lemma in_unique (c : nat) (v : list nat) : In c (np.unique v) <-> In c v.
Proof.
  unfold np.unique. induction v as [|x v IH]; simpl; [reflexivity|].
  rewrite in_insert_unique, IH. intuition.
Qed.

(** [np.unique] returns its values in strictly ascending order. *)
Lemma insert_unique_sorted (x : nat) (l : list nat) :
  StronglySorted lt l -> StronglySorted lt (np.insert_unique x l).
Proof.
  induction l as [|y l IH]; intros Hs; simpl.
  - repeat constructor.
  - apply StronglySorted_inv in Hs as [Hl Hy].
    destruct (Nat.ltb_spec x y).
    + constructor; [constructor; assumption|].
      constructor; [assumption|].
      eapply List.Forall_impl; [|exact Hy]. simpl. intros; lia.
    + destruct (Nat.eqb_spec x y); [constructor; assumption|].
      constructor; [apply IH, Hl|].
      rewrite List.Forall_forall. intros z Hz.
      apply in_insert_unique in Hz as [->|Hz]; [lia|].
      rewrite List.Forall_forall in Hy. apply Hy, Hz.
Qed.

Lemma unique_sorted (v : list nat) : StronglySorted lt (np.unique v).
Proof.
  unfold np.unique. induction v as [|x v IH]; simpl; [constructor|].
  apply insert_unique_sorted, IH.
Qed.

Lemma select_map {A} (f : A -> nat) (g : A -> bool) (l : list A) :
  np.select (map f l) (map g l) = map f (List.filter g l).
Proof.
  unfold np.select. induction l as [|a l IH]; simpl; [reflexivity|].
  destruct (g a); simpl; now rewrite IH.
Qed.

Lemma in_pairs_where (P : nat -> nat -> bool) (n m i j : nat) :
  In (i, j) (pairs_where P n m) <-> (i < n)%nat /\ (j < m)%nat /\ P i j = true.
Proof.
  unfold pairs_where. rewrite in_flat_map. split.
  - intros (i' & Hi' & Hin). apply in_seq in Hi'.
    apply in_flat_map in Hin as (j' & Hj' & Hin). apply in_seq in Hj'.
    destruct (P i' j') eqn:E; simpl in Hin; [|contradiction].
    destruct Hin as [Heq|[]]. inversion Heq; subst. repeat split; [lia|lia|exact E].
  - intros (Hi & Hj & HP). exists i. split; [apply in_seq; lia|].
    apply in_flat_map. exists j. split; [apply in_seq; lia|].
    rewrite HP. now left.
Qed.

Lemma pairs_where_ext (P Q : nat -> nat -> bool) (n m : nat) :
  (forall i j, (i < n)%nat -> (j < m)%nat -> P i j = Q i j) ->
  pairs_where P n m = pairs_where Q n m.
Proof.
  intros H. unfold pairs_where.
  apply flat_map_ext_in. intros i Hi. apply in_seq in Hi.
  apply flat_map_ext_in. intros j Hj. apply in_seq in Hj.
  rewrite H by lia. reflexivity.
Qed.

(** The rows selected for column [c] within one row of the scan. *)
Lemma row_scan (P : nat -> nat -> bool) (i c m s : nat) :
  map fst
    (List.filter (fun p : nat * nat => Nat.eqb p.2 c)
       (flat_map (fun j => if P i j then [(i, j)] else []) (seq s m)))
  = if P i c && Nat.leb s c && Nat.ltb c (s + m) then [i] else [].
Proof.
  revert s. induction m as [|m IH]; intros s.
  - simpl. destruct (P i c); simpl; [|reflexivity].
    destruct (Nat.leb_spec s c); simpl; [|reflexivity].
    destruct (Nat.ltb_spec c (s + 0)); [lia | reflexivity].
  - cbn [seq flat_map]. rewrite List.filter_app, map_app, IH.
    destruct (Nat.eq_dec s c) as [->|Hne].
    + assert (E1 : Nat.leb (S c) c = false) by (apply Nat.leb_gt; lia).
      assert (E2 : Nat.leb c c = true) by apply Nat.leb_refl.
      assert (E3 : Nat.ltb c (c + S m) = true) by (apply Nat.ltb_lt; lia).
      rewrite E1, E2, E3, andb_false_r.
      destruct (P i c); simpl; rewrite ?Nat.eqb_refl; reflexivity.
    + assert (Hnil :
        map fst (List.filter (fun p : nat * nat => Nat.eqb p.2 c)
                   (if P i s then [(i, s)] else [])) = []).
      { destruct (P i s); simpl; [|reflexivity].
        destruct (Nat.eqb_spec s c); [contradiction | reflexivity]. }
      rewrite Hnil.
      replace (S s + m)%nat with (s + S m)%nat by lia.
      assert (E : Nat.leb (S s) c = Nat.leb s c).
      { destruct (Nat.leb_spec (S s) c), (Nat.leb_spec s c);
          try reflexivity; lia. }
      rewrite E. reflexivity.
Qed.

(** Masking the row indices by one column of a row-major scan gives the
    rows at which the column satisfies the test, in ascending order. *)
Lemma select_column (P : nat -> nat -> bool) (n m c : nat) :
  (c < m)%nat ->
  np.select (map fst (pairs_where P n m))
            (np.equal (map snd (pairs_where P n m)) c)
  = List.filter (fun i => P i c) (seq 0 n).
Proof.
  intros Hc. unfold np.equal. rewrite List.map_map.
  rewrite (select_map fst (fun p : nat * nat => Nat.eqb p.2 c)).
  unfold pairs_where. generalize (seq 0 n) as rows.
  induction rows as [|i rows IH]; simpl; [reflexivity|].
  rewrite List.filter_app, map_app, IH, row_scan.
  destruct (Nat.ltb_spec c (0 + m)); [|lia].
  rewrite andb_true_r. simpl. rewrite andb_true_r.
  destruct (P i c); reflexivity.
Qed.

Lemma in_columns (P : nat -> nat -> bool) (n m c : nat) :
  In c (map snd (pairs_where P n m))
  <-> (c < m)%nat /\ List.filter (fun i => P i c) (seq 0 n) <> [].
Proof.
  rewrite in_map_iff. split.
  - intros ([i j] & Hj & Hin). simpl in Hj. subst j.
    apply in_pairs_where in Hin as (Hi & Hc & HP).
    split; [exact Hc|]. intros Hnil.
    assert (Hf : In i (List.filter (fun i => P i c) (seq 0 n)))
      by (apply filter_In; split; [apply in_seq; lia | exact HP]).
    rewrite Hnil in Hf. exact Hf.
  - intros (Hc & Hne).
    destruct (List.filter (fun i => P i c) (seq 0 n)) as [|i l] eqn:E;
      [contradiction|].
    assert (Hf : In i (List.filter (fun i => P i c) (seq 0 n)))
      by (rewrite E; now left).
    apply filter_In in Hf as [Hi HP]. apply in_seq in Hi.
    exists (i, c). split; [reflexivity|].
    apply in_pairs_where. repeat split; [lia | exact Hc | exact HP].
Qed.

End IndexVectors.

(** ** The array primitives of the edge detector *)

Section EdgePrimitives.

Lemma nth_map0 (f : Z -> Z) (l : list Z) (n : nat) :
  f 0 = 0 -> nth n (map f l) 0 = f (nth n l 0).
Proof. intros H. rewrite <- H at 1. apply map_nth. Qed.

Lemma diff0_2d (N m : nat) (D : list Z) :
  np.diff0 (mk_ndarray [N; m] D)
  = Some (mk_ndarray [(N - 1)%nat; m]
            (zip_with Z.sub (drop m D) (take ((N - 1) * m) D))).
Proof.
  unfold np.diff0, np.prod_shape. cbn [shape data foldr].
  rewrite Nat.mul_1_r. reflexivity.
Qed.

Lemma nth_diff (N m : nat) (D : list Z) (i j : nat) :
  length D = (N * m)%nat -> (i < N - 1)%nat -> (j < m)%nat ->
  nth (i * m + j) (zip_with Z.sub (drop m D) (take ((N - 1) * m) D)) 0
  = nth ((i + 1) * m + j) D 0 - nth (i * m + j) D 0.
Proof.
  intros HD Hi Hj.
  assert (Hlt : (i * m + j < (N - 1) * m)%nat) by nia.
  assert (Hlen : ((i + 1) * m + j < length D)%nat) by nia.
  rewrite !nth_lookup, lookup_zip_with, lookup_drop, lookup_take_lt by exact Hlt.
  replace (m + (i * m + j))%nat with ((i + 1) * m + j)%nat by lia.
  destruct (lookup_lt_is_Some_2 D ((i + 1) * m + j)%nat Hlen) as [a Ha].
  destruct (lookup_lt_is_Some_2 D (i * m + j)%nat ltac:(lia)) as [b Hb].
  rewrite Ha, Hb. reflexivity.
Qed.

Lemma nonzero_2d (n m : nat) (L : list Z) :
  np.nonzero (mk_ndarray [n; m] L)
  = Some (map fst (pairs_where (fun i j => negb (nth (i * m + j) L 0 =? 0)) n m),
          map snd (pairs_where (fun i j => negb (nth (i * m + j) L 0 =? 0)) n m)).
Proof.
  unfold np.nonzero, pairs_where, np.get2. cbn [shape data].
  assert (E :
    flat_map
      (fun i =>
         flat_map
           (fun j => if nth (i * m + j) L 0 =? 0 then [] else [(i, j)])
           (seq 0 m)) (seq 0 n)
    = flat_map
        (fun i =>
           flat_map
             (fun j => if negb (nth (i * m + j) L 0 =? 0) then [(i, j)] else [])
             (seq 0 m)) (seq 0 n)).
  { apply flat_map_ext_in. intros i _. apply flat_map_ext_in. intros j _.
    destruct (nth (i * m + j) L 0 =? 0); reflexivity. }
  rewrite E. reflexivity.
Qed.

(** The index vectors of [np.where(mult*np.diff(dd, axis=0) > 0)] and of
    its [< 0] twin, for a trace [dd] with [m] columns. *)
Lemma where_diff (N m : nat) (D : list Z) :
  length D = (N * m)%nat ->
  exists dif,
    np.diff0 (mk_ndarray [N; m] D) = Some dif
    /\ np.nonzero (np.greater (np.multiply 1 dif) 0)
       = Some (map fst (pairs_where (fun i j => rising (mk_ndarray [N; m] D) j i)
                                    (N - 1) m),
               map snd (pairs_where (fun i j => rising (mk_ndarray [N; m] D) j i)
                                    (N - 1) m))
    /\ np.nonzero (np.less (np.multiply 1 dif) 0)
       = Some (map fst (pairs_where (fun i j => falling (mk_ndarray [N; m] D) j i)
                                    (N - 1) m),
               map snd (pairs_where (fun i j => falling (mk_ndarray [N; m] D) j i)
                                    (N - 1) m)).
Proof.
  intros HD. eexists. split; [apply diff0_2d|].
  unfold np.greater, np.less, np.multiply. cbn [shape data].
  rewrite !nonzero_2d. split.
  - rewrite (pairs_where_ext _ (fun i j => rising (mk_ndarray [N; m] D) j i));
      [reflexivity|].
    intros i j Hi Hj.
    rewrite (nth_map0 (fun v => if 0 <? v then 1 else 0)) by reflexivity.
    rewrite (nth_map0 (Z.mul 1)) by reflexivity.
    rewrite nth_diff by assumption.
    unfold rising, np.get2. cbn [shape data].
    rewrite Z.mul_1_l.
    destruct (0 <? _); reflexivity.
  - rewrite (pairs_where_ext _ (fun i j => falling (mk_ndarray [N; m] D) j i));
      [reflexivity|].
    intros i j Hi Hj.
    rewrite (nth_map0 (fun v => if v <? 0 then 1 else 0)) by reflexivity.
    rewrite (nth_map0 (Z.mul 1)) by reflexivity.
    rewrite nth_diff by assumption.
    unfold falling, np.get2. cbn [shape data].
    rewrite Z.mul_1_l.
    destruct (_ <? 0); reflexivity.
Qed.

Lemma edge_indices_sorted (edge : nat -> bool) (n : nat) :
  StronglySorted lt (edge_indices edge n).
Proof.
  unfold edge_indices. generalize (n - 1)%nat as k. generalize 0%nat as s.
  intros s k. revert s.
  induction k as [|k IH]; intros s; simpl; [constructor|].
  assert (Hall : Forall (lt s) (List.filter edge (seq (S s) k))).
  { rewrite List.Forall_forall. intros x Hx.
    apply filter_In in Hx as [Hx _]. apply in_seq in Hx. lia. }
  destruct (edge s); [constructor; [apply IH | exact Hall] | apply IH].
Qed.

Lemma in_edge_indices (edge : nat -> bool) (n i : nat) :
  In i (edge_indices edge n) <-> (i + 1 < n)%nat /\ edge i = true.
Proof.
  unfold edge_indices. rewrite filter_In, in_seq. intuition lia.
Qed.

Lemma edge_indices_nil (edge : nat -> bool) (n : nat) :
  (forall i, (i + 1 < n)%nat -> edge i = false) -> edge_indices edge n = [].
Proof.
  intros H. destruct (edge_indices edge n) as [|i l] eqn:E; [reflexivity|].
  assert (Hin : In i (edge_indices edge n)) by (rewrite E; now left).
  apply in_edge_indices in Hin as [Hi He]. rewrite H in He by exact Hi.
  discriminate.
Qed.

Lemma filter_seq_single (edge : nat -> bool) (s n k : nat) :
  (s <= k < s + n)%nat ->
  (forall i, (s <= i < s + n)%nat -> edge i = true <-> i = k) ->
  List.filter edge (seq s n) = [k].
Proof.
  revert s. induction n as [|n IH]; intros s Hk H; [lia|].
  simpl. destruct (Nat.eq_dec s k) as [->|Hne].
  - rewrite (proj2 (H k ltac:(lia)) eq_refl). f_equal.
    destruct (List.filter edge (seq (S k) n)) as [|i l] eqn:E; [reflexivity|].
    assert (Hin : In i (List.filter edge (seq (S k) n))) by (rewrite E; now left).
    apply filter_In in Hin as [Hi He]. apply in_seq in Hi.
    apply H in He; lia.
  - destruct (edge s) eqn:E.
    + apply H in E; lia.
    + apply IH; [lia|]. intros i Hi. apply H. lia.
Qed.

Lemma edge_indices_single (edge : nat -> bool) (n k : nat) :
  (k + 1 < n)%nat ->
  (forall i, (i + 1 < n)%nat -> edge i = true <-> i = k) ->
  edge_indices edge n = [k].
Proof.
  intros Hk H. unfold edge_indices.
  apply filter_seq_single; [lia|]. intros i Hi. apply H. lia.
Qed.

End EdgePrimitives.

(** ** [unpack_npix_sync] *)

Section SyncEvents.

Context {srate_t time : Type} (true_divide : nat -> srate_t -> time).

Lemma unpackbits_flatten (syncdat : ndarray) :
  unpackbits (np.flatten syncdat) 16 = Some (trace syncdat).
Proof. unfold np.flatten. rewrite unpackbits_eq by apply wf_vector. reflexivity. Qed.

Lemma foldl_insert_lookup {V} (g : nat -> V) (ks : list nat)
      (m : gmap nat V) (c : nat) :
  (In c ks -> foldl (fun d k => <[k := g k]> d) m ks !! c = Some (g c))
  /\ (~ In c ks -> foldl (fun d k => <[k := g k]> d) m ks !! c = m !! c).
Proof.
  revert m. induction ks as [|k ks IH]; intros m; simpl.
  - split; [contradiction | reflexivity].
  - destruct (IH (<[k := g k]> m)) as [IHin IHout]. split.
    + intros [->|Hin].
      * destruct (in_dec Nat.eq_dec c ks) as [Hc|Hc]; [apply IHin, Hc|].
        rewrite IHout by exact Hc. apply lookup_insert_eq.
      * apply IHin, Hin.
    + intros Hn. rewrite IHout by tauto. apply lookup_insert_ne. tauto.
Qed.

(** The entry of one channel in a dictionary built from a scan. *)
Lemma collect_events_lookup (P : nat -> nat -> bool) (n m : nat)
      (srate : srate_t) (c : nat) :
  collect_events true_divide
    (map fst (pairs_where P n m), map snd (pairs_where P n m)) srate !! c
  = if Nat.ltb c m
    then event_times true_divide srate
           (List.filter (fun i => P i c) (seq 0 n))
    else None.
Proof.
  unfold collect_events. cbn [fst snd].
  match goal with
  | |- foldl ?f ∅ ?ks !! c = _ =>
      destruct (foldl_insert_lookup
                  (fun ichan =>
                     channel_times true_divide
                       (map fst (pairs_where P n m),
                        map snd (pairs_where P n m)) ichan srate)
                  ks ∅ c) as [Hin Hout]
  end.
  destruct (Nat.ltb_spec c m) as [Hc|Hc].
  - destruct (List.filter (fun i => P i c) (seq 0 n)) as [|i l] eqn:E.
    + rewrite Hout; [apply lookup_empty|].
      rewrite in_unique, in_columns, E. tauto.
    + rewrite Hin by (rewrite in_unique, in_columns, E; split; [lia | discriminate]).
      unfold channel_times. cbn [fst snd].
      rewrite select_column, E by lia. reflexivity.
  - rewrite Hout; [apply lookup_empty|].
    rewrite in_unique, in_columns. lia.
Qed.

(** What the edge detector returns, channel by channel. *)
Lemma unpack_npix_sync_events (syncdat : ndarray) (srate : srate_t) :
  exists onsets offsets,
    unpack_npix_sync true_divide syncdat srate false
    = Some (Events onsets offsets)
    /\ forall c,
        onsets !! c
        = (if Nat.ltb c 16
           then event_times true_divide srate
                  (edge_indices (rising (trace syncdat) c)
                                (length (data syncdat)))
           else None)
        /\ offsets !! c
           = (if Nat.ltb c 16
              then event_times true_divide srate
                     (edge_indices (falling (trace syncdat) c)
                                   (length (data syncdat)))
              else None).
Proof.
  unfold unpack_npix_sync. rewrite unpackbits_flatten. cbn [mbind option_bind].
  destruct (where_diff (length (data syncdat)) 16
              (unpacked_data (data syncdat) 16)
              (length_unpacked_data _ _)) as (dif & Hdif & Hon & Hoff).
  fold (trace syncdat) in Hdif, Hon, Hoff.
  rewrite Hdif. cbn [mbind option_bind]. rewrite Hon, Hoff.
  cbn [mbind option_bind].
  eexists _, _. split; [reflexivity|].
  intros c. rewrite !collect_events_lookup. split; reflexivity.
Qed.

(** The trace holds the bits of the samples: no 64-bit proviso is needed
    for the sixteen lowest bits. *)
Lemma trace_entry (syncdat : ndarray) (i c : nat) :
  (i < length (data syncdat))%nat -> (c < 16)%nat ->
  np.get2 (trace syncdat) i c = Z.b2z (line (data syncdat) c i).
Proof.
  intros Hi Hc. unfold np.get2, trace, line. cbn [shape data].
  rewrite nth_unpacked_data by assumption. apply mask_bit_low. lia.
Qed.

Lemma rising_line (syncdat : ndarray) (c i : nat) :
  (i + 1 < length (data syncdat))%nat -> (c < 16)%nat ->
  rising (trace syncdat) c i = true
  <-> line (data syncdat) c i = false /\ line (data syncdat) c (i + 1) = true.
Proof.
  intros Hi Hc. unfold rising. rewrite !trace_entry by lia.
  destruct (line (data syncdat) c i), (line (data syncdat) c (i + 1));
    simpl; intuition discriminate.
Qed.

Lemma falling_line (syncdat : ndarray) (c i : nat) :
  (i + 1 < length (data syncdat))%nat -> (c < 16)%nat ->
  falling (trace syncdat) c i = true
  <-> line (data syncdat) c i = true /\ line (data syncdat) c (i + 1) = false.
Proof.
  intros Hi Hc. unfold falling. rewrite !trace_entry by lia.
  destruct (line (data syncdat) c i), (line (data syncdat) c (i + 1));
    simpl; intuition discriminate.
Qed.

Lemma event_times_nonempty (srate : srate_t) (edges : list nat) :
  event_times true_divide srate edges <> Some [].
Proof. destruct edges; simpl; discriminate. Qed.

(** C1: with [output_binary] false, [unpack_npix_sync] takes the first
    difference of the unpacked trace along the time axis, channel by
    channel; a positive difference at (sample i, channel c) is a rising
    edge, a negative one a falling edge; [onsets] and [offsets] map each
    of the sixteen channels that has such edges to their sample indices,
    in ascending order, each divided by [srate]. *)
Theorem unpack_npix_sync_edges (syncdat : ndarray) (srate : srate_t) :
  exists dd onsets offsets,
    unpackbits (np.flatten syncdat) 16 = Some dd
    /\ unpack_npix_sync true_divide syncdat srate false
       = Some (Events onsets offsets)
    /\ (forall c, (c < 16)%nat ->
          onsets !! c
          = event_times true_divide srate
              (edge_indices (rising dd c) (length (data syncdat)))
          /\ offsets !! c
             = event_times true_divide srate
                 (edge_indices (falling dd c) (length (data syncdat))))
    /\ (forall c, (16 <= c)%nat -> onsets !! c = None /\ offsets !! c = None)
    /\ (forall c i,
          (In i (edge_indices (rising dd c) (length (data syncdat)))
           <-> (i + 1 < length (data syncdat))%nat
               /\ 0 < np.get2 dd (i + 1) c - np.get2 dd i c)
          /\ (In i (edge_indices (falling dd c) (length (data syncdat)))
              <-> (i + 1 < length (data syncdat))%nat
                  /\ np.get2 dd (i + 1) c - np.get2 dd i c < 0))
    /\ (forall c,
          StronglySorted lt (edge_indices (rising dd c) (length (data syncdat)))
          /\ StronglySorted lt
               (edge_indices (falling dd c) (length (data syncdat)))).
Proof.
  destruct (unpack_npix_sync_events syncdat srate)
    as (onsets & offsets & Hrun & Hlook).
  exists (trace syncdat), onsets, offsets.
  split; [apply unpackbits_flatten|]. split; [exact Hrun|].
  split; [|split; [|split]].
  - intros c Hc. destruct (Hlook c) as [Hon Hoff].
    destruct (Nat.ltb_spec c 16); [split; assumption | lia].
  - intros c Hc. destruct (Hlook c) as [Hon Hoff].
    destruct (Nat.ltb_spec c 16); [lia | split; assumption].
  - intros c i. rewrite !in_edge_indices. unfold rising, falling.
    rewrite !Z.ltb_lt. tauto.
  - intros c. split; apply edge_indices_sorted.
Qed.

(** C5: with [output_binary] true, [unpack_npix_sync] returns the
    unpacked trace itself, that is [unpackbits] of the flattened input
    with a bit width of 16, and no dictionaries of events. *)
Theorem unpack_npix_sync_binary (syncdat : ndarray) (srate : srate_t) :
  exists dd,
    unpackbits (np.flatten syncdat) 16 = Some dd
    /\ unpack_npix_sync true_divide syncdat srate true = Some (Binary dd).
Proof.
  exists (trace syncdat). split; [apply unpackbits_flatten|].
  unfold unpack_npix_sync. rewrite unpackbits_flatten. reflexivity.
Qed.

(** C3: if, over the sixteen sync lines of the input, the only rising
    transition is the one of line c between samples k and k+1 (a
    positive difference at sample index k) and there is no falling
    transition, then [onsets] holds the single key c with the single
    time k divided by [srate], and [offsets] is empty. *)
Theorem unpack_npix_sync_step (syncdat : ndarray) (srate : srate_t)
        (c k : nat) :
  (c < 16)%nat ->
  (k + 1 < length (data syncdat))%nat ->
  (forall i b, (i + 1 < length (data syncdat))%nat -> (b < 16)%nat ->
     (line (data syncdat) b i = false /\ line (data syncdat) b (i + 1) = true)
     <-> (i = k /\ b = c)) ->
  (forall i b, (i + 1 < length (data syncdat))%nat -> (b < 16)%nat ->
     ~ (line (data syncdat) b i = true /\ line (data syncdat) b (i + 1) = false)) ->
  unpack_npix_sync true_divide syncdat srate false
  = Some (Events {[ c := [true_divide k srate] ]} ∅).
Proof.
  intros Hc Hk Hrise Hfall.
  destruct (unpack_npix_sync_events syncdat srate)
    as (onsets & offsets & Hrun & Hlook).
  rewrite Hrun. f_equal. f_equal.
  - apply map_eq. intros b. destruct (Hlook b) as [Hon _]. rewrite Hon.
    destruct (Nat.ltb_spec b 16) as [Hb|Hb].
    + destruct (Nat.eq_dec b c) as [->|Hne].
      * rewrite lookup_singleton_eq.
        rewrite (edge_indices_single _ _ k); [reflexivity | exact Hk|].
        intros i Hi. rewrite rising_line by assumption.
        rewrite Hrise by assumption. tauto.
      * rewrite lookup_singleton_ne by congruence.
        rewrite edge_indices_nil; [reflexivity|].
        intros i Hi. apply not_true_is_false.
        rewrite rising_line by assumption. rewrite Hrise by assumption. tauto.
    + rewrite lookup_singleton_ne by lia. reflexivity.
  - apply map_eq. intros b. destruct (Hlook b) as [_ Hoff]. rewrite Hoff.
    rewrite lookup_empty.
    destruct (Nat.ltb_spec b 16) as [Hb|Hb]; [|reflexivity].
    rewrite edge_indices_nil; [reflexivity|].
    intros i Hi. apply not_true_is_false.
    rewrite falling_line by assumption. apply Hfall; assumption.
Qed.

(** C4: a channel without a rising transition is not a key of [onsets],
    a channel without a falling transition is not a key of [offsets],
    and no key is ever bound to an empty sequence; when every sync line
    of the input is all-zero or all-one, both dictionaries are empty. *)
Theorem unpack_npix_sync_sparse (syncdat : ndarray) (srate : srate_t) :
  exists onsets offsets,
    unpack_npix_sync true_divide syncdat srate false
    = Some (Events onsets offsets)
    /\ (forall c,
          (forall i, (i + 1 < length (data syncdat))%nat ->
             ~ (line (data syncdat) c i = false
                /\ line (data syncdat) c (i + 1) = true)) ->
          onsets !! c = None)
    /\ (forall c,
          (forall i, (i + 1 < length (data syncdat))%nat ->
             ~ (line (data syncdat) c i = true
                /\ line (data syncdat) c (i + 1) = false)) ->
          offsets !! c = None)
    /\ (forall c, onsets !! c <> Some [] /\ offsets !! c <> Some [])
    /\ ((forall c, (c < 16)%nat ->
           (forall i, (i < length (data syncdat))%nat ->
              line (data syncdat) c i = false)
           \/ (forall i, (i < length (data syncdat))%nat ->
                 line (data syncdat) c i = true)) ->
        onsets = ∅ /\ offsets = ∅).
Proof.
  destruct (unpack_npix_sync_events syncdat srate)
    as (onsets & offsets & Hrun & Hlook).
  exists onsets, offsets. split; [exact Hrun|].
  assert (Hon : forall c,
    (forall i, (i + 1 < length (data syncdat))%nat ->
       ~ (line (data syncdat) c i = false
          /\ line (data syncdat) c (i + 1) = true)) ->
    onsets !! c = None).
  { intros c Hnone. destruct (Hlook c) as [-> _].
    destruct (Nat.ltb_spec c 16) as [Hc|Hc]; [|reflexivity].
    rewrite edge_indices_nil; [reflexivity|].
    intros i Hi. apply not_true_is_false.
    rewrite rising_line by assumption. apply Hnone, Hi. }
  assert (Hoff : forall c,
    (forall i, (i + 1 < length (data syncdat))%nat ->
       ~ (line (data syncdat) c i = true
          /\ line (data syncdat) c (i + 1) = false)) ->
    offsets !! c = None).
  { intros c Hnone. destruct (Hlook c) as [_ ->].
    destruct (Nat.ltb_spec c 16) as [Hc|Hc]; [|reflexivity].
    rewrite edge_indices_nil; [reflexivity|].
    intros i Hi. apply not_true_is_false.
    rewrite falling_line by assumption. apply Hnone, Hi. }
  split; [exact Hon|]. split; [exact Hoff|]. split.
  - intros c. destruct (Hlook c) as [-> ->].
    destruct (Nat.ltb c 16);
      [split; apply event_times_nonempty | split; discriminate].
  - intros Hconst. split; apply map_eq; intros c; rewrite lookup_empty.
    + destruct (Nat.lt_ge_cases c 16) as [Hc|Hc].
      * apply Hon. intros i Hi [H0 H1].
        destruct (Hconst c Hc) as [Hz|Ho].
        -- rewrite Hz in H1 by lia. discriminate.
        -- rewrite Ho in H0 by lia. discriminate.
      * destruct (Hlook c) as [-> _].
        destruct (Nat.ltb_spec c 16); [lia | reflexivity].
    + destruct (Nat.lt_ge_cases c 16) as [Hc|Hc].
      * apply Hoff. intros i Hi [H1 H0].
        destruct (Hconst c Hc) as [Hz|Ho].
        -- rewrite Hz in H1 by lia. discriminate.
        -- rewrite Ho in H0 by lia. discriminate.
      * destruct (Hlook c) as [_ ->].
        destruct (Nat.ltb_spec c 16); [lia | reflexivity].
Qed.

End SyncEvents.

(** Examples of the edge detector at 30 kHz. *)

Lemma unpack_npix_sync_edges_witness :
  exists onsets offsets,
    unpack_npix_sync seconds (mk_ndarray [5%nat] [0; 0; 1; 3; 2]) 30000%positive
                     false
    = Some (Events onsets offsets)
    /\ onsets !! 0%nat = Some [seconds 1 30000]
    /\ onsets !! 1%nat = Some [seconds 2 30000]
    /\ offsets !! 0%nat = Some [seconds 3 30000]
    /\ offsets !! 1%nat = None.
Proof.
  destruct (unpack_npix_sync_edges seconds
              (mk_ndarray [5%nat] [0; 0; 1; 3; 2]) 30000%positive)
    as (dd & onsets & offsets & Hdd & Hrun & Hlook & _).
  exists onsets, offsets. split; [exact Hrun|].
  vm_compute in Hdd. injection Hdd as <-.
  destruct (Hlook 0%nat ltac:(lia)) as [-> ->].
  destruct (Hlook 1%nat ltac:(lia)) as [-> ->].
  repeat split; reflexivity.
Defined.

Ltac below_16 b tac :=
  do 16 (destruct b as [|b]; [tac|]); lia.

Lemma unpack_npix_sync_step_witness :
  (2 < 16)%nat
  /\ (1 + 1 < length (data step_signal))%nat
  /\ unpack_npix_sync seconds step_signal 30000%positive false
     = Some (Events {[ 2%nat := [seconds 1 30000] ]} ∅).
Proof.
  split; [lia|]. split; [simpl; lia|].
  apply (unpack_npix_sync_step seconds step_signal 30000%positive 2 1).
  - lia.
  - simpl; lia.
  - intros i b Hi Hb. cbn in Hi.
    do 3 (destruct i as [|i];
          [below_16 b ltac:(vm_compute; intuition congruence)|]).
    lia.
  - intros i b Hi Hb. cbn in Hi.
    do 3 (destruct i as [|i];
          [below_16 b ltac:(vm_compute; intuition congruence)|]).
    lia.
Defined.

Lemma unpack_npix_sync_sparse_witness :
  unpack_npix_sync seconds (mk_ndarray [3%nat] [65535; 65535; 65535])
                   30000%positive false
  = Some (Events ∅ ∅).
Proof.
  destruct (unpack_npix_sync_sparse seconds
              (mk_ndarray [3%nat] [65535; 65535; 65535]) 30000%positive)
    as (onsets & offsets & Hrun & _ & _ & _ & Hconst).
  rewrite Hrun. destruct Hconst as [-> ->]; [|reflexivity].
  intros c Hc. right. intros i Hi. cbn in Hi.
  do 3 (destruct i as [|i]; [below_16 c ltac:(reflexivity)|]). lia.
Defined.

(** ** [map_binary] *)

Section MapBinary.

Lemma nth_buffer_items (dt : dtype) (buf : list byte) (count k : nat) :
  (k < count)%nat ->
  nth k (buffer_items dt buf count) 0 = buffer_item dt buf k.
Proof.
  intros Hk. unfold buffer_items.
  rewrite (nth_indep _ 0 (buffer_item dt buf 0)) by now rewrite length_map, length_seq.
  rewrite map_nth, seq_nth by exact Hk. reflexivity.
Qed.

(** Entry [(i, j)] of a row-major enumeration of [n] rows of [m] items. *)
Lemma nth_rows (g : nat -> nat -> Z) (n m s i j : nat) :
  (i < n)%nat -> (j < m)%nat ->
  nth (i * m + j)
      (flat_map (fun r => map (fun q => g r q) (seq 0 m)) (seq s n)) 0
  = g (s + i)%nat j.
Proof.
  revert s i. induction n as [|n IH]; intros s i Hi Hj; [lia|].
  simpl. destruct i as [|i].
  - rewrite app_nth1 by now rewrite length_map, length_seq.
    rewrite (nth_indep _ 0 (g s 0%nat)) by now rewrite length_map, length_seq.
    rewrite (map_nth (fun q => g s q)), seq_nth, Nat.add_0_r by lia.
    reflexivity.
  - rewrite app_nth2 by (rewrite length_map, length_seq; lia).
    rewrite length_map, length_seq.
    replace (S i * m + j - m)%nat with (i * m + j)%nat by lia.
    rewrite IH by lia. f_equal. lia.
Qed.

Lemma memmap_read (content : list byte) (n m : nat) :
  content <> [] ->
  (n * m * 2 <= length content)%nat ->
  memmap (Some content) "r" np_int16 n m
  = Ok (mk_ndarray [n; m] (buffer_items np_int16 content (n * m))).
Proof.
  intros Hne Hfit. unfold memmap.
  change (mode_equivalent "r") with "r"%string.
  change (existsb (String.eqb "r") valid_filemodes) with true.
  change (String.eqb "r" "w+") with false.
  change (String.eqb "r" "r+") with false.
  cbn [negb itemsize np_int16].
  destruct (Nat.ltb_spec (length content) (n * m * 2)); [lia|].
  destruct (Nat.eqb_spec (length content) 0) as [E|_]; [|reflexivity].
  destruct content; [contradiction | discriminate].
Qed.

(** The map of an existing, non-empty file opened read-only with the
    number of samples taken from its size. *)
Lemma map_binary_read (fs : filesystem) (ds : directories)
        (fname : string)
      (content : list byte) (nchannels : nat) (offset : Z)
      (transpose : bool) :
  fs !! fname = Some content ->
  content <> [] ->
  nchannels <> 0%nat ->
  map_binary fs ds fname nchannels np_int16 offset "r" None transpose
  = let ret :=
      mk_ndarray [(length content / (nchannels * 2))%nat; nchannels]
        (buffer_items np_int16 content
           (length content / (nchannels * 2) * nchannels)) in
    if transpose then np_call (np.transpose ret) else Ok ret.
Proof.
  intros Hfile Hne Hnch. unfold map_binary. rewrite Hfile.
  rewrite bool_decide_eq_true_2 by eauto. unfold default.
  cbn [negb orb mbind result_bind from_option itemsize np_int16 id].
  destruct (Nat.eqb_spec (nchannels * 2) 0) as [|_]; [lia|].
  cbn [mbind result_bind].
  rewrite memmap_read; [reflexivity | exact Hne |].
  rewrite <- Nat.mul_assoc, Nat.mul_comm. apply Nat.Div0.mul_div_le.
Qed.

(** C7: the call with its default arguments does not return the
    channels x samples matrix that the claim and the docstring of
    [map_binary] ("nchannels x nsamples array") state.  On a file of
    three time steps of two channels the matrix has shape (3, 2), not
    (2, 3), and probing (channel 1, sample 0) yields 3, the value of
    channel 0 at time step 1, while the file holds 2 for channel 1 at
    time step 0. *)
Lemma map_binary_default_orientation :
  exists m,
    map_binary {[ "rec.bin"%string := two_channel_file ]} sample_dirs "rec.bin" 2
               np_int16 0 "r" None false
    = Ok m
    /\ shape m = [3; 2]%nat
    /\ np.get2 m 1 0 = 3
    /\ stored_sample two_channel_file 2 1 0 = 2.
Proof.
  eexists. split; [vm_compute; reflexivity|].
  repeat split.
Qed.

(** What the code returns, for every existing binary file of
    interleaved 16-bit signed samples over [nchannels] channels and
    every coordinate (channel c, time step t) of the recording: a matrix
    of samples x channels, whose entry [t, c] is the sample the file
    holds for channel c at time step t; the channels x samples matrix of
    the docstring, with that sample at [c, t], is returned only when
    [transpose] is set. *)
Lemma map_binary_layout (fs : filesystem) (ds : directories)
        (fname : string)
        (content : list byte) (nchannels : nat) (offset : Z)
        (transpose : bool) (c t : nat) :
  fs !! fname = Some content ->
  (c < nchannels)%nat ->
  (t < length content / (nchannels * 2))%nat ->
  exists m,
    map_binary fs ds fname nchannels np_int16 offset "r" None transpose = Ok m
    /\ shape m
       = (if transpose
          then [nchannels; (length content / (nchannels * 2))%nat]
          else [(length content / (nchannels * 2))%nat; nchannels])
    /\ (if transpose then np.get2 m c t else np.get2 m t c)
       = stored_sample content nchannels c t.
Proof.
  intros Hfile Hc Ht.
  assert (Hne : content <> []).
  { intros ->. simpl in Ht. rewrite Nat.Div0.div_0_l in Ht. lia. }
  pose proof (map_binary_read fs ds fname content nchannels offset transpose
                Hfile Hne ltac:(lia)) as Hread.
  cbv zeta in Hread.
  set (ns := (length content / (nchannels * 2))%nat) in *.
  assert (Hentry :
    np.get2 (mk_ndarray [ns; nchannels]
               (buffer_items np_int16 content (ns * nchannels))) t c
    = stored_sample content nchannels c t).
  { unfold np.get2. cbn [shape data].
    rewrite nth_buffer_items by nia. reflexivity. }
  destruct transpose.
  - cbn [np.transpose shape data np_call] in Hread.
    eexists. split; [exact Hread|]. split; [reflexivity|].
    unfold np.get2 at 1. cbn [shape data].
    rewrite (nth_rows (fun j i => np.get2 _ i j)) by assumption.
    exact Hentry.
  - eexists. split; [exact Hread|]. split; [reflexivity | exact Hentry].
Qed.

Lemma map_binary_layout_witness :
  ({[ "rec.bin"%string := two_channel_file ]} : filesystem) !! "rec.bin"%string
  = Some two_channel_file
  /\ (1 < 2)%nat
  /\ (2 < length two_channel_file / (2 * 2))%nat
  /\ exists m,
      map_binary {[ "rec.bin"%string := two_channel_file ]} sample_dirs "rec.bin" 2
                 np_int16 0 "r" None false = Ok m
      /\ shape m = [(length two_channel_file / (2 * 2))%nat; 2%nat]
      /\ np.get2 m 2 1 = stored_sample two_channel_file 2 1 2.
Proof.
  split; [reflexivity|]. split; [lia|]. split; [vm_compute; lia|].
  apply (map_binary_layout {[ "rec.bin"%string := two_channel_file ]}
           sample_dirs "rec.bin" two_channel_file 2 0 false 1 2).
  - reflexivity.
  - lia.
  - vm_compute; lia.
Defined.

End MapBinary.

(** ** [extract_rawChunk]: the memory guard *)

(** Half a unit in the last place below the largest float leaves room
    for every memory figure. *)
Lemma float_limit_large : 2 ^ 1010 < py.float_limit.
Proof. vm_compute. reflexivity. Qed.

Lemma int_truediv_ok (a b : Z) :
  b <> 0 -> Z.abs a < py.float_limit * Z.abs b ->
  exists f, py.int_truediv a b = Ok f.
Proof.
  intros Hb Ha. unfold py.int_truediv.
  destruct (Z.eqb_spec b 0) as [|_]; [contradiction|].
  destruct (Z.leb_spec (py.float_limit * Z.abs b) (Z.abs a)); [lia|].
  eauto.
Qed.

Lemma float_truediv_1024 (f : PrimFloat.float) :
  exists g, py.truediv (py.Float f) (py.Int 1024) = Ok (py.Float g).
Proof.
  unfold py.truediv. cbn [py.to_float mbind result_bind].
  destruct (py.float_of_int 1024) as [k|e] eqn:E;
    [|vm_compute in E; discriminate].
  cbn [mbind result_bind].
  destruct (PrimFloat.eqb k _) eqn:Hk; [|eauto].
  vm_compute in E. injection E as <-. vm_compute in Hk. discriminate.
Qed.

Lemma megabytes_float (f : PrimFloat.float) :
  exists g, megabytes (py.Float f) = Ok (py.Float g).
Proof.
  unfold megabytes. destruct (float_truediv_1024 f) as [g ->].
  cbn [mbind result_bind]. apply float_truediv_1024.
Qed.

Lemma megabytes_int (z : Z) :
  Z.abs z < 2 ^ 1010 -> exists g, megabytes (py.Int z) = Ok (py.Float g).
Proof.
  intros Hz. unfold megabytes.
  change (py.truediv (py.Int z) (py.Int 1024))
    with (f ← py.int_truediv z 1024; Ok (py.Float f)).
  destruct (int_truediv_ok z 1024) as [f ->];
    [lia | pose proof float_limit_large; lia |].
  cbn [mbind result_bind]. apply float_truediv_1024.
Qed.

(** On a machine whose memory figures are those of a 64-bit system, the
    two messages are printed for every float estimate, and for every
    integer estimate below 2^1010. *)
Lemma memory_messages_printed (chunkSize : py.num) (mem : vmem) :
  0 < vm_total mem < 2 ^ 64 ->
  0 <= vm_used mem < 2 ^ 64 ->
  0 <= vm_available mem < 2 ^ 64 ->
  match chunkSize with
  | py.Int z => Z.abs z < 2 ^ 1010
  | py.Float _ => True
  end ->
  memory_messages chunkSize mem = Ok tt.
Proof.
  intros Htotal Hused Havail Hsize. unfold memory_messages.
  pose proof float_limit_large as Hlimit.
  assert (H64 : 2 ^ 64 * 100 < 2 ^ 1010) by (vm_compute; reflexivity).
  cbn [py.mul py.arith mbind result_bind].
  change (py.truediv (py.Int (vm_used mem * 100)) (py.Int (vm_total mem)))
    with (f ← py.int_truediv (vm_used mem * 100) (vm_total mem);
          Ok (py.Float f)).
  destruct (int_truediv_ok (vm_used mem * 100) (vm_total mem)) as [f ->];
    [lia | nia |].
  cbn [mbind result_bind].
  destruct (megabytes_int (vm_total mem)) as [g ->]; [lia|].
  cbn [mbind result_bind].
  destruct (float_truediv_1024 g) as [g' ->]. cbn [mbind result_bind].
  assert (Hmb : exists g, megabytes chunkSize = Ok (py.Float g)).
  { destruct chunkSize as [z|c];
      [apply megabytes_int, Hsize | apply megabytes_float]. }
  destruct Hmb as [c ->]. cbn [mbind result_bind].
  destruct (megabytes_int (vm_available mem)) as [a ->]; [lia|].
  reflexivity.
Qed.

Section RawChunkGuard.

Context {chunk : Type}.
Context (np_load : list byte -> chunk).
Context (chunk_name : string -> py.num -> py.num -> Z -> Z -> string).
Context (load_chunk :
           list byte -> py.num -> py.num -> list Z -> py.num -> py.num ->
           Z -> Z -> bool -> bool -> result (option chunk)).

(** C8 (amended): when the estimated chunk size exceeds nine tenths of
    the available memory, in the comparison the source itself makes on
    Python numbers, [extract_rawChunk] raises no error: provided its
    assertions hold, no saved chunk exists and the estimate and the two
    messages before the guard have been evaluated, it warns and returns
    [None], normally, whatever loading the file would have given. *)
Theorem extract_rawChunk_memory_guard
        (files : filesystem) (mem : vmem) (bp : string) (t1 t2 : py.num)
        (channels : list Z) (fs ampFactor : py.num) (Nchans syncChan : Z)
        (save ret : bool) (c_first c_last : Z) (chunkSize : py.num) :
  forallb (fun c => c <=? Nchans - 1) (map int16_wrap channels) = true ->
  String.eqb (py_suffix 4 bp) ".bin" = true ->
  py_first (map int16_wrap channels) = Ok c_first ->
  py_last (map int16_wrap channels) = Ok c_last ->
  files !! (py_drop_last (String.length (last_component bp "") + 1) bp
            +:+ "/"
            +:+ chunk_name (last_component bp "") t1 t2 c_first c_last)
  = None ->
  chunk_size fs t1 t2 = Ok chunkSize ->
  memory_messages chunkSize mem = Ok tt ->
  exceeds_memory chunkSize mem = Ok true ->
  extract_rawChunk np_load chunk_name load_chunk files mem bp [t1; t2]
                   channels fs ampFactor Nchans syncChan save ret
  = Ok None.
Proof.
  intros Hchans Hbin Hfirst Hlast Hsaved Hsize Hmsg Hexceeds.
  unfold extract_rawChunk.
  cbn [length Nat.eqb py_assert mbind result_bind].
  rewrite Hchans, Hbin. cbn [py_assert mbind result_bind].
  rewrite Hfirst, Hlast. cbn [mbind result_bind].
  rewrite Hsaved, Hsize. cbn [mbind result_bind].
  rewrite Hmsg. cbn [mbind result_bind].
  rewrite Hexceeds. reflexivity.
Qed.

End RawChunkGuard.

(** C8, as stated, fails: one second of recording at 30 kHz is estimated
    at 23.1 MB; with 1000 bytes available the guard holds, and the call
    returns [None] and raises nothing. *)
Lemma extract_rawChunk_counterexample :
  chunk_size (py.Int 30000) (py.Int 0) (py.Int 1) = Ok (py.Int 23100000)
  /\ exceeds_memory (py.Int 23100000) (mk_vmem 8000 1000 7000) = Ok true
  /\ extract_rawChunk (fun _ => tt) (fun _ _ _ _ _ => "chunk.npy"%string)
       (fun _ _ _ _ _ _ _ _ _ _ => Ok (Some tt))
       {[ "rec/ap.bin"%string := two_channel_file ]}
       (mk_vmem 8000 1000 7000) "rec/ap.bin" [py.Int 0; py.Int 1] [0; 1]
       (py.Int 30000) (py.Int 500) 385 384 false true
     = Ok None.
Proof. repeat split; vm_compute; reflexivity. Qed.

Lemma extract_rawChunk_memory_guard_witness :
  forallb (fun c => c <=? 385 - 1) (map int16_wrap [0; 1]) = true
  /\ String.eqb (py_suffix 4 "rec/ap.bin") ".bin" = true
  /\ chunk_size (py.Int 30000) (py.Float py.f94_87) (py.Float py.f115_9)
     = Ok (py.Float py.f485793000)
  /\ memory_messages (py.Float py.f485793000) (mk_vmem 8000 1000 7000) = Ok tt
  /\ exceeds_memory (py.Float py.f485793000) (mk_vmem 8000 1000 7000) = Ok true
  /\ extract_rawChunk (fun _ => tt) (fun _ _ _ _ _ => "chunk.npy"%string)
       (fun _ _ _ _ _ _ _ _ _ _ => Ok (Some tt))
       {[ "rec/ap.bin"%string := two_channel_file ]}
       (mk_vmem 8000 1000 7000) "rec/ap.bin"
       [py.Float py.f94_87; py.Float py.f115_9] [0; 1]
       (py.Int 30000) (py.Int 500) 385 384 false true
     = Ok None.
Proof.
  split; [reflexivity|]. split; [reflexivity|].
  split; [vm_compute; reflexivity|]. split; [vm_compute; reflexivity|].
  split; [vm_compute; reflexivity|].
  apply (extract_rawChunk_memory_guard (fun _ => tt)
           (fun _ _ _ _ _ => "chunk.npy"%string)
           (fun _ _ _ _ _ _ _ _ _ _ => Ok (Some tt))
           {[ "rec/ap.bin"%string := two_channel_file ]}
           (mk_vmem 8000 1000 7000) "rec/ap.bin"
           (py.Float py.f94_87) (py.Float py.f115_9) [0; 1]
           (py.Int 30000) (py.Int 500) 385 384 false true 0 1
           (py.Float py.f485793000)).
  - reflexivity.
  - reflexivity.
  - reflexivity.
  - reflexivity.
  - vm_compute. reflexivity.
  - vm_compute. reflexivity.
  - vm_compute. reflexivity.
  - vm_compute. reflexivity.
Defined.

(** The guard is the comparison of the source, in binary64.  At 30 kHz
    the window from 94.87 s to 115.9 s is estimated at 485793000.0
    bytes, and nine tenths of 539770000 available bytes is 485793000.0
    as well: the estimate does not exceed it, and the chunk is loaded. *)
Example extract_rawChunk_binary64 :
  chunk_size (py.Int 30000) (py.Float py.f94_87) (py.Float py.f115_9)
  = Ok (py.Float py.f485793000)
  /\ py.mul (py.Float py.nine_tenths) (py.Int 539770000)
     = Ok (py.Float py.f485793000)
  /\ exceeds_memory (py.Float py.f485793000)
       (mk_vmem 1000000000 539770000 460230000) = Ok false
  /\ extract_rawChunk (fun _ => tt) (fun _ _ _ _ _ => "chunk.npy"%string)
       (fun _ _ _ _ _ _ _ _ _ _ => Ok (Some tt))
       {[ "rec/ap.bin"%string := two_channel_file ]}
       (mk_vmem 1000000000 539770000 460230000) "rec/ap.bin"
       [py.Float py.f94_87; py.Float py.f115_9] [0; 1]
       (py.Int 30000) (py.Int 500) 385 384 false true
     = Ok (Some tt).
Proof. repeat split; vm_compute; reflexivity. Qed.

(** ** [extract_syncChan]: the reading loop *)

Section SyncLoop.

Variables (content : list byte) (Nchans syncChan : Z).

Local Abbreviation sample_offset := (sample_offset Nchans syncChan).

(** One turn of the loop, case by case. *)
Lemma sync_loop_step (fuel : nat) (i : Z) (sc : list byte)
      (sought : list Z) (run : loop_run) :
  sync_loop fuel content Nchans syncChan i sc sought = Some run ->
  (60000 <= i /\ run = mk_loop_run sought (Ok sc))
  \/ (i < 60000
      /\ exists fuel', fuel = S fuel'
         /\ (((Nchans * 2 = 0 \/ content = [])
              /\ run = mk_loop_run sought (Raise ZeroDivisionError))
             \/ (Nchans * 2 <> 0 /\ content <> []
                 /\ sample_offset i < 0
                 /\ run = mk_loop_run sought (Raise OSError))
             \/ (Nchans * 2 <> 0 /\ content <> []
                 /\ 0 <= sample_offset i
                 /\ read_at content (sample_offset i) 2 = []
                 /\ run = mk_loop_run (sought ++ [sample_offset i]) (Ok sc))
             \/ (Nchans * 2 <> 0 /\ content <> []
                 /\ 0 <= sample_offset i
                 /\ read_at content (sample_offset i) 2 <> []
                 /\ sync_loop fuel' content Nchans syncChan (i + 1)
                      (sc ++ read_at content (sample_offset i) 2)
                      (sought ++ [sample_offset i])
                    = Some run))).
Proof.
  unfold sample_offset. destruct fuel as [|fuel']; cbn [sync_loop].
  - destruct (Z.ltb_spec i 60000); [discriminate|].
    intros [= <-]. left. auto.
  - destruct (Z.ltb_spec i 60000) as [Hi|Hi];
      [|intros [= <-]; left; auto].
    intros H. right. split; [exact Hi|]. exists fuel'. split; [reflexivity|].
    destruct (Z.eqb_spec (Nchans * 2) 0) as [Hn|Hn]; cbn [orb] in H.
    { injection H as <-. left. auto. }
    destruct (Nat.eqb_spec (length content) 0) as [Hl|Hl].
    { injection H as <-. left. split; [right|reflexivity].
      destruct content; [reflexivity | discriminate]. }
    assert (Hne : content <> []) by (intros E; rewrite E in Hl; apply Hl; reflexivity).
    right.
    destruct (Z.ltb_spec ((i * Nchans + syncChan) * 2) 0) as [Hoff|Hoff].
    { injection H as <-. left. auto. }
    right.
    destruct (read_at content ((i * Nchans + syncChan) * 2) 2) as [|b0 bs] eqn:E.
    + injection H as <-. left. auto.
    + right. repeat split; try assumption. discriminate.
Qed.

(** The loop is a counting loop: 60000 - i turns of fuel are enough. *)
Lemma sync_loop_terminates (fuel : nat) (i : Z) (sc : list byte)
      (sought : list Z) :
  60000 - i <= Z.of_nat fuel ->
  exists run, sync_loop fuel content Nchans syncChan i sc sought = Some run.
Proof.
  revert i sc sought. induction fuel as [|fuel IH]; intros i sc sought Hfuel;
    cbn [sync_loop].
  - destruct (Z.ltb_spec i 60000); [lia | eauto].
  - destruct (Z.ltb_spec i 60000); [|eauto].
    destruct (_ || _); [eauto|].
    destruct (_ <? 0); [eauto|].
    destruct (read_at _ _ _); [eauto|].
    apply IH. lia.
Qed.

(** Only samples from [i] to 59999 are sought. *)
Lemma sync_loop_seeks (fuel : nat) (i : Z) (sc : list byte)
      (sought : list Z) (run : loop_run) :
  sync_loop fuel content Nchans syncChan i sc sought = Some run ->
  exists new,
    seeks run = sought ++ new
    /\ forall off, In off new ->
         exists j, i <= j <= 59999 /\ off = sample_offset j.
Proof.
  revert i sc sought. induction fuel as [|fuel IH]; intros i sc sought Hrun;
    apply sync_loop_step in Hrun
      as [[_ ->]|(Hi & fuel' & Hfuel & [[_ ->]|[(_ & _ & _ & ->)|
           [(_ & _ & _ & _ & ->)|(_ & _ & _ & _ & Hrec)]]])];
    try discriminate;
    try (exists []; rewrite app_nil_r; split; [reflexivity | intros ? []]).
  - exists [sample_offset i]. split; [reflexivity|].
    intros off [<-|[]]. exists i. split; [lia | reflexivity].
  - injection Hfuel as <-. apply IH in Hrec as (new & Hnew & Hwin).
    exists (sample_offset i :: new). split.
    + rewrite Hnew, <- app_assoc. reflexivity.
    + intros off [<-|Hin].
      * exists i. split; [lia | reflexivity].
      * destruct (Hwin off Hin) as (j & Hj & ->). exists j. split; [lia | reflexivity].
Qed.

Lemma read_at_length (off : Z) (n : nat) :
  (length (read_at content off n) <= n)%nat.
Proof. unfold read_at. rewrite length_take. lia. Qed.

Lemma read_at_nonempty (off : Z) (n : nat) :
  0 <= off -> read_at content off n <> [] -> off < Z.of_nat (length content).
Proof.
  intros Hoff Hne. unfold read_at in Hne.
  destruct (Z.lt_ge_cases off (Z.of_nat (length content))) as [|Hge];
    [assumption|].
  rewrite drop_ge in Hne by lia. rewrite take_nil in Hne. contradiction.
Qed.

(** The bytes gathered: at most two for each of the [k] samples read,
    the last of which lies within the file. *)
Lemma sync_loop_gathered (fuel : nat) (i : Z) (sc : list byte)
      (sought : list Z) (run : loop_run) (sc' : list byte) :
  i <= 60000 ->
  sync_loop fuel content Nchans syncChan i sc sought = Some run ->
  gathered run = Ok sc' ->
  exists k,
    0 <= k <= 60000 - i
    /\ Z.of_nat (length sc') <= Z.of_nat (length sc) + 2 * k
    /\ (1 <= k -> sample_offset (i + k - 1) < Z.of_nat (length content)).
Proof.
  revert i sc sought. induction fuel as [|fuel IH];
    intros i sc sought Hle Hrun Hok;
    apply sync_loop_step in Hrun
      as [[Hi ->]|(Hi & fuel' & Hfuel & [[_ ->]|[(_ & _ & _ & ->)|
           [(_ & _ & _ & _ & ->)|(_ & _ & Hoff & Hread & Hrec)]]])];
    try discriminate;
    try (injection Hok as <-; exists 0; repeat split; lia).
  injection Hfuel as <-.
  destruct (IH (i + 1) _ _ ltac:(lia) Hrec Hok) as (k & Hk & Hlen & Hlast).
  exists (k + 1). split; [lia|]. split.
  - rewrite length_app in Hlen.
    pose proof (read_at_length (sample_offset i) 2). lia.
  - intros _. destruct (Z.eq_dec k 0) as [->|Hk0].
    + replace (i + (0 + 1) - 1) with i by lia.
      apply (read_at_nonempty _ 2); assumption.
    + replace (i + (k + 1) - 1) with (i + 1 + k - 1) by lia.
      apply Hlast. lia.
Qed.

(** On a file of even length every read returns a whole sample. *)
Lemma read_at_even (off : Z) :
  Nat.Even (length content) -> 0 <= off -> Z.even off = true ->
  length (read_at content off 2) = 0%nat
  \/ length (read_at content off 2) = 2%nat.
Proof.
  intros [h Hh] Hoff Heven. unfold read_at.
  rewrite length_take, length_drop.
  apply Z.even_spec in Heven as [q Hq].
  assert (Z.to_nat off = (2 * Z.to_nat q)%nat) by lia.
  lia.
Qed.

Lemma sync_loop_even (fuel : nat) (i : Z) (sc : list byte)
      (sought : list Z) (run : loop_run) (sc' : list byte) :
  Nat.Even (length content) ->
  Nat.Even (length sc) ->
  sync_loop fuel content Nchans syncChan i sc sought = Some run ->
  gathered run = Ok sc' ->
  Nat.Even (length sc').
Proof.
  intros Hcontent. revert i sc sought. induction fuel as [|fuel IH];
    intros i sc sought Hsc Hrun Hok;
    apply sync_loop_step in Hrun
      as [[Hi ->]|(Hi & fuel' & Hfuel & [[_ ->]|[(_ & _ & _ & ->)|
           [(_ & _ & _ & _ & ->)|(_ & _ & Hoff & Hread & Hrec)]]])];
    try discriminate;
    try (injection Hok as <-; exact Hsc).
  injection Hfuel as <-.
  refine (IH _ _ _ _ Hrec Hok).
  rewrite length_app.
  destruct (read_at_even (sample_offset i) Hcontent Hoff) as [E|E].
  - unfold sample_offset. rewrite Z.even_mul. apply orb_true_r.
  - rewrite E, Nat.add_0_r. exact Hsc.
  - rewrite E. destruct Hsc as [h Hh]. exists (h + 1)%nat. lia.
Qed.

(** With a positive channel count, a channel index that is not negative
    and a file that is not empty, the loop raises nothing. *)
Lemma sync_loop_ok (fuel : nat) (i : Z) (sc : list byte)
      (sought : list Z) (run : loop_run) :
  0 < Nchans -> 0 <= syncChan -> 0 <= i -> content <> [] ->
  sync_loop fuel content Nchans syncChan i sc sought = Some run ->
  exists sc', gathered run = Ok sc'.
Proof.
  intros HN HS. revert i sc sought. induction fuel as [|fuel IH];
    intros i sc sought Hi0 Hne Hrun;
    apply sync_loop_step in Hrun
      as [[Hi ->]|(Hi & fuel' & Hfuel & [[Hzero ->]|[(_ & _ & Hneg & ->)|
           [(_ & _ & _ & _ & ->)|(_ & _ & Hoff & Hread & Hrec)]]])];
    try discriminate; try (eexists; reflexivity);
    try (exfalso; destruct Hzero; [lia | contradiction]);
    try (exfalso; unfold sample_offset in Hneg; nia).
  injection Hfuel as <-. apply (IH (i + 1) _ _ ltac:(lia) Hne Hrec).
Qed.

End SyncLoop.

(** ** [extract_syncChan] *)

Section SyncChanWindow.

Context (np_load : list byte -> ndarray) (np_save : ndarray -> list byte).

Lemma reshape_of_nat_shape (a r : ndarray) (s : list nat) :
  np.reshape a (map Z.of_nat s) = Some r -> shape r = s.
Proof.
  unfold np.reshape.
  rewrite filter_unknown_of_nat, filter_known_of_nat, no_negative_of_nat.
  destruct (_ =? _); [|discriminate].
  intros [= <-]. apply to_nat_of_nat.
Qed.

Lemma length_np_unpackbits (a : ndarray) :
  length (data (np.unpackbits a)) = (8 * length (data a))%nat.
Proof.
  unfold np.unpackbits. cbn [data].
  induction (data a) as [|v l IH]; [reflexivity|].
  cbn [flat_map]. rewrite length_app, IH, length_map, length_seq.
  cbn [length]. lia.
Qed.

Lemma div_nonpos_divisor (a b : Z) : 0 <= a -> b <= 0 -> a / b <= 0.
Proof.
  intros Ha Hb. destruct (Z.eq_dec b 0) as [->|Hb0].
  - rewrite Z.div_0_r. lia.
  - pose proof (Z.div_mod a b Hb0) as Hdm.
    pose proof (Z.mod_neg_bound a b ltac:(lia)) as Hr. nia.
Qed.

(** C9: when no saved '_sync.npy' result exists, [extract_syncChan]
    seeks only the samples with indices 30000 to 59999 of the binary
    file; the array it returns has shape 16 x Nsamples with Nsamples
    at most 30000, fewer than the samples of any non-empty recording,
    however long the file is.  The call does return on a non-empty file
    of whole 16-bit words. *)
Theorem extract_syncChan_window
        (files : filesystem) (bp : string) (syncChan fs : Z)
        (ampFactor : Q) (Nchans : Z) (save : bool) (content : list byte) :
  String.eqb (py_suffix 4 bp) ".bin" = true ->
  files !! (py_drop_last (String.length (last_component bp "") + 1) bp
            +:+ "/" +:+ last_component bp "" +:+ "_sync.npy")
  = None ->
  files !! bp = Some content ->
  exists run,
    extract_syncChan np_load np_save files bp syncChan fs ampFactor Nchans save
    = Some run
    /\ (forall off, In off (offsets_sought run) ->
          exists i, 30000 <= i <= 59999
                    /\ off = sample_offset Nchans syncChan i)
    /\ (forall sc, outcome run = Ok sc ->
          exists n,
            shape sc = [16%nat; n]
            /\ Z.of_nat n <= 30000
            /\ (0 <= syncChan -> 0 < recording_samples content Nchans ->
                Z.of_nat n < recording_samples content Nchans))
    /\ (0 < Nchans -> 0 <= syncChan -> content <> [] ->
        Nat.Even (length content) ->
        exists sc, outcome run = Ok sc).
Proof.
  intros Hbin Hsaved Hfile. unfold extract_syncChan.
  rewrite Hbin, Hsaved, Hfile. cbn [negb].
  destruct (sync_loop_terminates content Nchans syncChan
              (Z.to_nat 30000) 30000 [] [] ltac:(lia)) as [lr Hlr].
  rewrite Hlr. cbn [mbind option_bind].
  pose proof (sync_loop_seeks _ _ _ _ _ _ _ _ Hlr) as (new & Hnew & Hwin).
  assert (Hseeks : forall off, In off (seeks lr) ->
            exists i, 30000 <= i <= 59999
                      /\ off = sample_offset Nchans syncChan i).
  { intros off Hin. rewrite Hnew in Hin. apply Hwin, Hin. }
  destruct (gathered lr) as [sc|e] eqn:Hg.
  - set (bits := np.unpackbits (np.frombuffer_uint8 sc)).
    assert (Hbits : length (data bits) = (8 * length sc)%nat).
    { unfold bits. rewrite length_np_unpackbits. cbn [np.frombuffer_uint8 data].
      now rewrite length_map. }
    set (Nsamples := (length (data bits) / 16)%nat).
    change [Z.of_nat Nsamples; 16] with (map Z.of_nat [Nsamples; 16%nat]).
    destruct (np.reshape bits (map Z.of_nat [Nsamples; 16%nat]))
      as [shaped|] eqn:Hshaped; cbn [mbind option_bind].
    + pose proof (reshape_of_nat_shape _ _ _ Hshaped) as Hshape.
      unfold np.transpose. rewrite Hshape.
      eexists. split; [reflexivity|]. cbn [offsets_sought outcome].
      split; [exact Hseeks|]. split; [|eauto].
      intros sc0 [= <-]. exists Nsamples. cbn [shape].
      split; [reflexivity|].
      destruct (sync_loop_gathered content Nchans syncChan (Z.to_nat 30000)
                  30000 [] [] lr sc ltac:(lia) Hlr Hg)
        as (k & Hk & Hlen & Hlast).
      cbn [length] in Hlen.
      assert (Hn : Z.of_nat Nsamples <= k).
      { unfold Nsamples. rewrite Hbits.
        pose proof (Nat.Div0.mul_div_le (8 * length sc) 16). lia. }
      split; [lia|]. intros HS HT.
      assert (HN : 0 < Nchans).
      { destruct (Z.lt_ge_cases 0 Nchans) as [|Hle]; [assumption|].
        unfold recording_samples in HT.
        pose proof (div_nonpos_divisor (Z.of_nat (length content))
                      (Nchans * 2) ltac:(lia) ltac:(lia)). lia. }
      destruct (Z.eq_dec k 0) as [->|Hk0]; [lia|].
      specialize (Hlast ltac:(lia)). unfold sample_offset in Hlast.
      assert (30000 + k - 1 <= recording_samples content Nchans).
      { unfold recording_samples. apply Z.div_le_lower_bound; [lia | nia]. }
      lia.
    + eexists. split; [reflexivity|]. cbn [offsets_sought outcome].
      split; [exact Hseeks|]. split; [intros sc0 [=]|].
      intros HN HS Hne Heven. exfalso.
      assert (Hnil : Nat.Even (length (@nil byte)))
        by (exists 0%nat; reflexivity).
      pose proof (sync_loop_even _ _ _ _ _ _ _ _ _ Heven Hnil Hlr Hg)
        as [h Hh].
      assert (Hexact :
        np.reshape bits (map Z.of_nat [Nsamples; 16%nat])
        = Some (mk_ndarray [Nsamples; 16%nat] (data bits))).
      { apply reshape_exact. unfold np.prod_shape. cbn [foldr].
        unfold Nsamples. rewrite Hbits, Hh.
        replace (8 * (2 * h))%nat with (h * 16)%nat by lia.
        rewrite Nat.div_mul by lia. lia. }
      rewrite Hexact in Hshaped. discriminate.
  - eexists. split; [reflexivity|]. cbn [offsets_sought outcome].
    split; [exact Hseeks|]. split; [intros sc0 [=]|].
    intros HN HS Hne _.
    destruct (sync_loop_ok content Nchans syncChan (Z.to_nat 30000) 30000
                [] [] lr HN HS ltac:(lia) Hne Hlr) as [sc' Hsc'].
    rewrite Hg in Hsc'. discriminate.
Qed.

End SyncChanWindow.

Lemma sync_recording_length : Z.of_nat (length sync_recording) = 60006.
Proof.
  unfold sync_recording. rewrite length_app, repeat_length.
  cbn [length]. lia.
Qed.

Lemma extract_syncChan_window_witness :
  String.eqb (py_suffix 4 "d/f.bin") ".bin" = true
  /\ exists run,
      extract_syncChan (fun _ => mk_ndarray [] []) (fun _ => [])
        {[ "d/f.bin"%string := sync_recording ]} "d/f.bin" 0 30000 500%Q 1 false
      = Some run
      /\ (forall off, In off (offsets_sought run) ->
            exists i, 30000 <= i <= 59999 /\ off = sample_offset 1 0 i)
      /\ exists sc, outcome run = Ok sc.
Proof.
  split; [reflexivity|].
  destruct (extract_syncChan_window (fun _ => mk_ndarray [] []) (fun _ => [])
              {[ "d/f.bin"%string := sync_recording ]} "d/f.bin" 0 30000
              500%Q 1 false sync_recording)
    as (run & Hrun & Hseeks & _ & Hok).
  - reflexivity.
  - apply lookup_singleton_ne. discriminate.
  - apply lookup_singleton_eq.
  - exists run. split; [exact Hrun|]. split; [exact Hseeks|].
    apply Hok.
    + lia.
    + lia.
    + intros H. pose proof sync_recording_length as L.
      rewrite H in L. cbn [length] in L. lia.
    + exists (Z.to_nat 30003). pose proof sync_recording_length. lia.
Defined.


(** * Further properties of the sync decoder *)

Section SyncFurther.

Context {srate_t time : Type} (true_divide : nat -> srate_t -> time).

Lemma rising_line_eq (syncdat : ndarray) (c i : nat) :
  (i + 1 < length (data syncdat))%nat -> (c < 16)%nat ->
  rising (trace syncdat) c i
  = negb (line (data syncdat) c i) && line (data syncdat) c (i + 1).
Proof.
  intros Hi Hc. unfold rising. rewrite !trace_entry by lia.
  destruct (line (data syncdat) c i), (line (data syncdat) c (i + 1));
    reflexivity.
Qed.

Lemma falling_line_eq (syncdat : ndarray) (c i : nat) :
  (i + 1 < length (data syncdat))%nat -> (c < 16)%nat ->
  falling (trace syncdat) c i
  = line (data syncdat) c i && negb (line (data syncdat) c (i + 1)).
Proof.
  intros Hi Hc. unfold falling. rewrite !trace_entry by lia.
  destruct (line (data syncdat) c i), (line (data syncdat) c (i + 1));
    reflexivity.
Qed.

Lemma edge_indices_ext (e1 e2 : nat -> bool) (n : nat) :
  (forall i, (i + 1 < n)%nat -> e1 i = e2 i) ->
  edge_indices e1 n = edge_indices e2 n.
Proof.
  intros H. unfold edge_indices. apply List.filter_ext_in.
  intros i Hi. apply in_seq in Hi. apply H. lia.
Qed.

Lemma event_times_length (srate : srate_t) (edges : list nat) :
  length (default [] (event_times true_divide srate edges)) = length edges.
Proof. destruct edges; simpl; [reflexivity|]. now rewrite length_map. Qed.

(** Rises minus falls of a binary sequence telescope to its end values. *)
Lemma edge_balance (g : nat -> bool) (n : nat) :
  Z.of_nat (length (List.filter (fun i => negb (g i) && g (i + 1)%nat) (seq 0 n)))
  - Z.of_nat (length (List.filter (fun i => g i && negb (g (i + 1)%nat)) (seq 0 n)))
  = Z.b2z (g n) - Z.b2z (g 0%nat).
Proof.
  induction n as [|n IH]; [simpl; lia|].
  rewrite seq_S, !List.filter_app, !length_app. cbn [List.filter Nat.add].
  replace (n + 1)%nat with (S n) by lia.
  destruct (g n), (g (S n)); cbn [negb andb length Z.b2z] in *; lia.
Qed.

(** Fewer than two samples leave nothing to difference: both
    dictionaries are empty, for the empty input as well. *)
Theorem unpack_npix_sync_short (syncdat : ndarray) (srate : srate_t) :
  (length (data syncdat) <= 1)%nat ->
  unpack_npix_sync true_divide syncdat srate false = Some (Events ∅ ∅).
Proof.
  intros Hlen.
  destruct (unpack_npix_sync_events true_divide syncdat srate)
    as (onsets & offsets & Hrun & Hlook).
  rewrite Hrun. f_equal. f_equal; apply map_eq; intros c;
    rewrite lookup_empty; destruct (Hlook c) as [Hon Hoff].
  - rewrite Hon. destruct (Nat.ltb c 16); [|reflexivity].
    rewrite edge_indices_nil; [reflexivity | intros; lia].
  - rewrite Hoff. destruct (Nat.ltb c 16); [|reflexivity].
    rewrite edge_indices_nil; [reflexivity | intros; lia].
Qed.

(** On every channel the onsets and the offsets balance: their numbers
    differ by the last state of the line minus its first state, hence by
    at most one. *)
Theorem unpack_npix_sync_balance (syncdat : ndarray) (srate : srate_t)
        (c : nat) :
  (c < 16)%nat ->
  (1 <= length (data syncdat))%nat ->
  exists onsets offsets,
    unpack_npix_sync true_divide syncdat srate false
    = Some (Events onsets offsets)
    /\ Z.of_nat (length (default [] (onsets !! c)))
       - Z.of_nat (length (default [] (offsets !! c)))
       = Z.b2z (line (data syncdat) c (length (data syncdat) - 1))
         - Z.b2z (line (data syncdat) c 0).
Proof.
  intros Hc Hlen.
  destruct (unpack_npix_sync_events true_divide syncdat srate)
    as (onsets & offsets & Hrun & Hlook).
  exists onsets, offsets. split; [exact Hrun|].
  destruct (Hlook c) as [-> ->].
  destruct (Nat.ltb_spec c 16); [|lia].
  rewrite !event_times_length.
  rewrite (edge_indices_ext _
             (fun i => negb (line (data syncdat) c i)
                       && line (data syncdat) c (i + 1)))
    by (intros i Hi; apply rising_line_eq; assumption).
  rewrite (edge_indices_ext (falling _ _)
             (fun i => line (data syncdat) c i
                       && negb (line (data syncdat) c (i + 1))))
    by (intros i Hi; apply falling_line_eq; assumption).
  unfold edge_indices. apply (edge_balance (line (data syncdat) c)).
Qed.

Lemma line_lnot (xs : list Z) (c i : nat) :
  (i < length xs)%nat ->
  line (map Z.lnot xs) c i = negb (line xs c i).
Proof.
  intros Hi. unfold line.
  rewrite (nth_indep _ 0 (Z.lnot 0)) by now rewrite length_map.
  rewrite map_nth. apply Z.lnot_spec. lia.
Qed.

(** Inverting every line swaps the two dictionaries: the onsets of the
    complemented signal are the offsets of the signal, and conversely. *)
Theorem unpack_npix_sync_complement (syncdat : ndarray) (srate : srate_t) :
  exists onsets offsets,
    unpack_npix_sync true_divide syncdat srate false
    = Some (Events onsets offsets)
    /\ unpack_npix_sync true_divide
         (mk_ndarray (shape syncdat) (map Z.lnot (data syncdat))) srate false
       = Some (Events offsets onsets).
Proof.
  destruct (unpack_npix_sync_events true_divide syncdat srate)
    as (onsets & offsets & Hrun & Hlook).
  exists onsets, offsets. split; [exact Hrun|].
  set (inv := mk_ndarray (shape syncdat) (map Z.lnot (data syncdat))).
  destruct (unpack_npix_sync_events true_divide inv srate)
    as (on' & off' & Hrun' & Hlook').
  rewrite Hrun'.
  assert (Hlen : length (data inv) = length (data syncdat))
    by (unfold inv; cbn [data]; now rewrite length_map).
  f_equal. f_equal; apply map_eq; intros c;
    destruct (Hlook c) as [Hon Hoff]; destruct (Hlook' c) as [Hon' Hoff'].
  - rewrite Hon', Hoff. destruct (Nat.ltb_spec c 16) as [Hc|]; [|reflexivity].
    rewrite Hlen. f_equal. apply edge_indices_ext. intros i Hi.
    rewrite rising_line_eq, falling_line_eq by (rewrite ?Hlen; assumption).
    unfold inv. cbn [data]. rewrite !line_lnot by lia.
    rewrite negb_involutive. reflexivity.
  - rewrite Hoff', Hon. destruct (Nat.ltb_spec c 16) as [Hc|]; [|reflexivity].
    rewrite Hlen. f_equal. apply edge_indices_ext. intros i Hi.
    rewrite rising_line_eq, falling_line_eq by (rewrite ?Hlen; assumption).
    unfold inv. cbn [data]. rewrite !line_lnot by lia.
    rewrite negb_involutive. reflexivity.
Qed.

Lemma unpacked_data_low16 (xs : list Z) :
  unpacked_data (map (fun x => x mod 65536) xs) 16 = unpacked_data xs 16.
Proof.
  unfold unpacked_data. induction xs as [|x xs IH]; [reflexivity|].
  cbn [map flat_map]. rewrite IH. f_equal.
  apply map_ext_in. intros b Hb. apply in_seq in Hb.
  rewrite !mask_bit_low by lia. f_equal.
  change 65536 with (2 ^ 16). apply Z.mod_pow2_bits_low. lia.
Qed.

(** Only the sixteen low bits of a sample count: reducing every sample
    modulo 2^16 (reading the words as unsigned) changes neither the
    events nor the unpacked trace. *)
Theorem unpack_npix_sync_low16 (syncdat : ndarray) (srate : srate_t)
        (output_binary : bool) :
  unpack_npix_sync true_divide
    (mk_ndarray (shape syncdat) (map (fun x => x mod 65536) (data syncdat)))
    srate output_binary
  = unpack_npix_sync true_divide syncdat srate output_binary.
Proof.
  unfold unpack_npix_sync. rewrite !unpackbits_flatten.
  unfold trace. cbn [data]. rewrite unpacked_data_low16, length_map.
  reflexivity.
Qed.

End SyncFurther.

Lemma unpack_npix_sync_short_witness :
  (length (data (mk_ndarray [1%nat] [7%Z])) <= 1)%nat
  /\ unpack_npix_sync seconds (mk_ndarray [1%nat] [7]) 30000%positive false
     = Some (Events ∅ ∅).
Proof.
  split; [simpl; lia|].
  apply (unpack_npix_sync_short seconds (mk_ndarray [1%nat] [7]) 30000%positive).
  simpl; lia.
Defined.

Lemma unpack_npix_sync_balance_witness :
  exists onsets offsets,
    unpack_npix_sync seconds (mk_ndarray [5%nat] [0; 1; 0; 1; 1])
                     30000%positive false
    = Some (Events onsets offsets)
    /\ Z.of_nat (length (default [] (onsets !! 0%nat)))
       - Z.of_nat (length (default [] (offsets !! 0%nat)))
       = 1.
Proof.
  destruct (unpack_npix_sync_balance seconds
              (mk_ndarray [5%nat] [0; 1; 0; 1; 1]) 30000%positive 0)
    as (onsets & offsets & Hrun & Hbal).
  - lia.
  - simpl; lia.
  - exists onsets, offsets. split; [exact Hrun | exact Hbal].
Defined.

(** * Further properties of [unpackbits] *)

Section UnpackBitsFurther.

(** Unpacking a concatenation of two sample vectors gives the rows of
    the first followed by the rows of the second: a recording can be
    unpacked chunk by chunk. *)
Theorem unpackbits_concat (xs ys : list Z) (num_bits : nat) :
  exists r rx ry,
    unpackbits (mk_ndarray [length (xs ++ ys)] (xs ++ ys)) num_bits = Some r
    /\ unpackbits (mk_ndarray [length xs] xs) num_bits = Some rx
    /\ unpackbits (mk_ndarray [length ys] ys) num_bits = Some ry
    /\ shape r = [(length xs + length ys)%nat; num_bits]
    /\ data r = data rx ++ data ry.
Proof.
  eexists _, _, _.
  split; [apply unpackbits_eq, wf_vector|].
  split; [apply unpackbits_eq, wf_vector|].
  split; [apply unpackbits_eq, wf_vector|].
  cbn [shape data app]. rewrite length_app. split; [reflexivity|].
  unfold unpacked_data. apply flat_map_app.
Qed.

(** Asking for fewer bits truncates every row: the [k] columns unpacked
    at width [k] are the first [k] columns unpacked at any larger width. *)
Theorem unpackbits_narrower (x : ndarray) (k n : nat) :
  np.wf x -> (k <= n)%nat ->
  exists rk rn,
    unpackbits x k = Some rk
    /\ unpackbits x n = Some rn
    /\ forall i, (i < length (data x))%nat ->
         row k (data rk) i = take k (row n (data rn) i).
Proof.
  intros Hwf Hkn. eexists _, _.
  split; [apply unpackbits_eq, Hwf|]. split; [apply unpackbits_eq, Hwf|].
  intros i Hi. cbn [data]. rewrite !row_unpacked_data by assumption.
  rewrite firstn_map, take_seq, Nat.min_l by assumption. reflexivity.
Qed.

Lemma unpackbits_narrower_witness :
  np.wf (mk_ndarray [2%nat] [5; -2]%Z)
  /\ (3 <= 16)%nat
  /\ exists rk rn,
      unpackbits (mk_ndarray [2%nat] [5; -2]%Z) 3 = Some rk
      /\ unpackbits (mk_ndarray [2%nat] [5; -2]%Z) 16 = Some rn
      /\ forall i, (i < length (data (mk_ndarray [2%nat] [5; -2]%Z)))%nat ->
           row 3 (data rk) i = take 3 (row 16 (data rn) i).
Proof.
  split; [reflexivity|]. split; [lia|].
  apply (unpackbits_narrower (mk_ndarray [2%nat] [5; -2]%Z) 3 16).
  - reflexivity.
  - lia.
Defined.

End UnpackBitsFurther.

(** * Further properties of [map_binary] *)

Section MapBinaryFurther.

Lemma le_combine_bound (bs : list byte) :
  0 <= le_combine bs < 256 ^ Z.of_nat (length bs).
Proof.
  induction bs as [|b bs IH]; [simpl; lia|].
  cbn [le_combine length]. rewrite Nat2Z.inj_succ, Z.pow_succ_r by lia.
  pose proof (Byte.to_N_bounded b). lia.
Qed.

Lemma buffer_item_int16 (buf : list byte) (k : nat) :
  is_int16 (buffer_item np_int16 buf k).
Proof.
  unfold buffer_item, decode, is_int16. cbn [itemsize signed np_int16 andb].
  set (bs := take 2 (drop (k * 2) buf)).
  pose proof (le_combine_bound bs) as Hb.
  assert (Hlen : (length bs <= 2)%nat) by (unfold bs; rewrite length_take; lia).
  assert (256 ^ Z.of_nat (length bs) <= 256 ^ 2)
    by (apply Z.pow_le_mono_r; lia).
  change (8 * Z.of_nat 2 - 1) with 15. change (8 * Z.of_nat 2) with 16.
  destruct (Z.leb_spec (2 ^ 15) (le_combine bs)); lia.
Qed.

Lemma memmap_shape (file : option (list byte)) (mode : string) (dt : dtype)
      (n m : nat) (a : ndarray) :
  memmap file mode dt n m = Ok a -> shape a = [n; m].
Proof.
  unfold memmap. destruct (negb _); [discriminate|].
  destruct (String.eqb _ "w+").
  - destruct (Nat.eqb _ 0); [discriminate|]. intros [= <-]. reflexivity.
  - destruct file as [content|]; [|discriminate].
    destruct (Nat.ltb _ _); [discriminate|].
    destruct (Nat.eqb _ 0); [discriminate|]. intros [= <-]. reflexivity.
Qed.

Lemma memmap_int16 (file : option (list byte)) (mode : string)
      (n m : nat) (a : ndarray) :
  memmap file mode np_int16 n m = Ok a -> Forall is_int16 (data a).
Proof.
  unfold memmap. destruct (negb _); [discriminate|].
  destruct (String.eqb _ "w+").
  - destruct (Nat.eqb _ 0); [discriminate|]. intros [= <-]. cbn [data].
    rewrite List.Forall_forall. intros v Hv. apply repeat_spec in Hv. subst v.
    unfold is_int16. lia.
  - destruct file as [content|]; [|discriminate].
    destruct (Nat.ltb _ _); [discriminate|].
    destruct (Nat.eqb _ 0); [discriminate|]. intros [= <-]. cbn [data].
    unfold buffer_items. rewrite List.Forall_forall. intros v Hv.
    apply in_map_iff in Hv as (k & <- & _). apply buffer_item_int16.
Qed.

(** Destructs the computation at the head of a sequence of binds. *)
Ltac bind_head :=
  match goal with
  | |- mbind _ ?x = _ -> _ => destruct x eqn:?
  | |- mbind _ ?x = _ => destruct x eqn:?
  end; cbn [mbind result_bind].

(** How the [transpose] flag enters: after the call without it. *)
Lemma map_binary_transpose_eq (fs : filesystem) (ds : directories)
      (fname : string) (nchannels : nat) (dt : dtype) (offset : Z)
      (mode : string) (nsamples : option nat) (transpose : bool) :
  map_binary fs ds fname nchannels dt offset mode nsamples transpose
  = match map_binary fs ds fname nchannels dt offset mode nsamples false with
    | Ok ret => if transpose then np_call (np.transpose ret) else Ok ret
    | Raise e => Raise e
    end.
Proof.
  unfold map_binary; cbv zeta.
  bind_head; [|reflexivity]. bind_head; [|reflexivity].
  bind_head; reflexivity.
Qed.

(** A successful call has mapped the file. *)
Lemma map_binary_inv (fs : filesystem) (ds : directories)
      (fname : string) (nchannels : nat) (dt : dtype) (offset : Z)
      (mode : string) (nsamples : option nat) (m : ndarray) :
  map_binary fs ds fname nchannels dt offset mode nsamples false = Ok m ->
  exists n, memmap (fs !! fname) mode dt n nchannels = Ok m.
Proof.
  unfold map_binary; cbv zeta.
  bind_head; [|discriminate]. bind_head; [|discriminate].
  destruct (bool_decide (is_Some (fs !! fname))
            || negb (os_path_isdir ds fname)).
  - bind_head; [|discriminate]. intros [= <-]. eauto.
  - unfold memmap_directory.
    destruct (negb (existsb _ _)); cbn [mbind result_bind]; discriminate.
Qed.

Lemma map_binary_shape (fs : filesystem) (ds : directories)
      (fname : string) (nchannels : nat) (dt : dtype) (offset : Z)
      (mode : string) (nsamples : option nat) (m : ndarray) :
  map_binary fs ds fname nchannels dt offset mode nsamples false = Ok m ->
  exists n, shape m = [n; nchannels].
Proof.
  intros H. apply map_binary_inv in H as [n H].
  eexists. apply (memmap_shape _ _ _ _ _ _ H).
Qed.





(** Whatever the mode, the number of samples and the orientation, every
    entry of a matrix mapped with the 16-bit dtype lies in the int16
    range. *)
Theorem map_binary_int16_range (fs : filesystem) (ds : directories)
        (fname : string)
        (nchannels : nat) (offset : Z) (mode : string)
        (nsamples : option nat) (transpose : bool) (m : ndarray) :
  map_binary fs ds fname nchannels np_int16 offset mode nsamples transpose = Ok m ->
  Forall is_int16 (data m).
Proof.
  assert (Hplain : forall r,
    map_binary fs ds fname nchannels np_int16 offset mode nsamples false = Ok r ->
    Forall is_int16 (data r)).
  { intros r H. apply map_binary_inv in H as [n H].
    apply (memmap_int16 _ _ _ _ _ H). }
  rewrite map_binary_transpose_eq.
  destruct (map_binary fs ds fname nchannels np_int16 offset mode nsamples false)
    as [ret|e] eqn:E; [|discriminate].
  specialize (Hplain ret eq_refl).
  destruct transpose; [|intros Heq; injection Heq as Heq; now subst m].
  destruct (map_binary_shape _ _ _ _ _ _ _ _ _ E) as [n Hshape].
  unfold np.transpose. rewrite Hshape. cbn [np_call]. intros [= <-]. cbn [data].
  rewrite List.Forall_forall. intros v Hv.
  apply in_flat_map in Hv as (j & _ & Hv).
  apply in_map_iff in Hv as (i & <- & _).
  unfold np.get2. rewrite Hshape.
  destruct (nth_in_or_default (i * nchannels + j) (data ret) 0) as [Hin | Heq].
  - rewrite List.Forall_forall in Hplain. apply Hplain, Hin.
  - rewrite Heq. unfold is_int16. lia.
Qed.

Lemma map_binary_int16_range_witness :
  exists m,
    map_binary {[ "rec.bin"%string := two_channel_file ]} sample_dirs "rec.bin" 2
               np_int16 0 "r" None true = Ok m
    /\ Forall is_int16 (data m).
Proof.
  eexists. split; [vm_compute; reflexivity|].
  apply (map_binary_int16_range {[ "rec.bin"%string := two_channel_file ]}
           sample_dirs "rec.bin" 2 0 "r" None true).
  vm_compute. reflexivity.
Defined.

(** With [transpose] set the call returns the transpose of what it
    returns without: it fails with the same exception, and otherwise
    entry [c, t] of the one is entry [t, c] of the other. *)
Theorem map_binary_transpose (fs : filesystem) (ds : directories)
        (fname : string)
        (nchannels : nat) (dt : dtype) (offset : Z) (mode : string)
        (nsamples : option nat) :
  (forall e,
     map_binary fs ds fname nchannels dt offset mode nsamples false = Raise e ->
     map_binary fs ds fname nchannels dt offset mode nsamples true = Raise e)
  /\ (forall m,
        map_binary fs ds fname nchannels dt offset mode nsamples false = Ok m ->
        exists mT n,
          shape m = [n; nchannels]
          /\ map_binary fs ds fname nchannels dt offset mode nsamples true = Ok mT
          /\ shape mT = [nchannels; n]
          /\ forall t c, (t < n)%nat -> (c < nchannels)%nat ->
               np.get2 mT c t = np.get2 m t c).
Proof.
  split.
  - intros e He. rewrite map_binary_transpose_eq, He. reflexivity.
  - intros m Hm. destruct (map_binary_shape _ _ _ _ _ _ _ _ _ Hm) as [n Hshape].
    rewrite map_binary_transpose_eq, Hm.
    unfold np.transpose. rewrite Hshape. cbn [np_call].
    eexists _, n. split; [reflexivity|]. split; [reflexivity|].
    split; [reflexivity|]. intros t c Ht Hc.
    unfold np.get2 at 1. cbn [shape data].
    rewrite (nth_rows (fun j i => np.get2 m i j)) by assumption.
    reflexivity.
Qed.

Lemma map_binary_transpose_witness :
  exists m mT,
    map_binary {[ "rec.bin"%string := two_channel_file ]} sample_dirs "rec.bin" 2
               np_int16 0 "r" None false = Ok m
    /\ map_binary {[ "rec.bin"%string := two_channel_file ]} sample_dirs "rec.bin" 2
                  np_int16 0 "r" None true = Ok mT
    /\ np.get2 mT 1 2 = np.get2 m 2 1.
Proof.
  destruct (map_binary_transpose {[ "rec.bin"%string := two_channel_file ]}
              sample_dirs "rec.bin" 2 np_int16 0 "r" None) as [_ H].
  destruct (H (mk_ndarray [3; 2]%nat [1; 2; 3; 4; 5; -1]))
    as (mT & n & Hshape & HT & _ & Hentry).
  - vm_compute. reflexivity.
  - injection Hshape as <-. eexists _, mT. split; [vm_compute; reflexivity|].
    split; [exact HT|]. apply Hentry; lia.
Defined.

End MapBinaryFurther.

Section MapBinaryBounds.

Lemma buffer_items_app (content extra : list byte) (count : nat) :
  (count * 2 <= length content)%nat ->
  buffer_items np_int16 (content ++ extra) count
  = buffer_items np_int16 content count.
Proof.
  intros Hfit. unfold buffer_items. apply map_ext_in. intros k Hk.
  apply in_seq in Hk. unfold buffer_item. cbn [itemsize np_int16]. f_equal.
  rewrite drop_app.
  replace (k * 2 - length content)%nat with 0%nat by lia. rewrite drop_0.
  rewrite take_app.
  replace (2 - length (drop (k * 2) content))%nat with 0%nat
    by (rewrite length_drop; lia).
  rewrite take_0, app_nil_r. reflexivity.
Qed.

(** Bytes after the last whole time step are ignored: a file that ends
    with an incomplete frame is mapped like the file without it. *)
Theorem map_binary_partial_frame (fs1 fs2 : filesystem)
        (ds : directories) (fname : string)
        (content extra : list byte) (nchannels ns : nat) (offset : Z)
        (transpose : bool) :
  fs1 !! fname = Some (content ++ extra) ->
  fs2 !! fname = Some content ->
  content <> [] ->
  nchannels <> 0%nat ->
  length content = (ns * (nchannels * 2))%nat ->
  (length extra < nchannels * 2)%nat ->
  map_binary fs1 ds fname nchannels np_int16 offset "r" None transpose
  = map_binary fs2 ds fname nchannels np_int16 offset "r" None transpose.
Proof.
  intros H1 H2 Hne Hnch Hlen Hextra.
  assert (Hne1 : content ++ extra <> [])
    by (destruct content; [contradiction | discriminate]).
  rewrite (map_binary_read fs1 ds fname (content ++ extra) nchannels offset
             transpose H1 Hne1 Hnch).
  rewrite (map_binary_read fs2 ds fname content nchannels offset transpose H2)
    by assumption.
  assert (Hdiv1 : (length (content ++ extra) / (nchannels * 2) = ns)%nat).
  { rewrite length_app, Hlen. symmetry.
    apply (Nat.div_unique _ _ ns (length extra)); lia. }
  assert (Hdiv2 : (length content / (nchannels * 2) = ns)%nat).
  { rewrite Hlen. apply Nat.div_mul. lia. }
  rewrite Hdiv1, Hdiv2. cbv zeta.
  rewrite buffer_items_app by (rewrite Hlen; lia). reflexivity.
Qed.

Lemma map_binary_partial_frame_witness :
  map_binary {[ "rec.bin"%string := two_channel_file ++ [Byte.x07; Byte.x00; Byte.x09] ]}
             sample_dirs "rec.bin" 2 np_int16 0 "r" None false
  = map_binary {[ "rec.bin"%string := two_channel_file ]}
               sample_dirs "rec.bin" 2 np_int16 0 "r" None false.
Proof.
  apply (map_binary_partial_frame
           {[ "rec.bin"%string := two_channel_file ++ [Byte.x07; Byte.x00; Byte.x09] ]}
           {[ "rec.bin"%string := two_channel_file ]}
           sample_dirs "rec.bin" two_channel_file [Byte.x07; Byte.x00; Byte.x09]
           2 3 0 false).
  - reflexivity.
  - reflexivity.
  - discriminate.
  - lia.
  - reflexivity.
  - simpl; lia.
Defined.

(** A read-only map of more samples than the file holds raises
    [ValueError]. *)
Theorem map_binary_too_many_samples (fs : filesystem) (ds : directories)
        (fname : string)
        (content : list byte) (nchannels nsamples : nat) (offset : Z)
        (transpose : bool) :
  fs !! fname = Some content ->
  (length content < nsamples * nchannels * 2)%nat ->
  map_binary fs ds fname nchannels np_int16 offset "r" (Some nsamples) transpose
  = Raise ValueError.
Proof.
  intros Hfile Hshort. unfold map_binary. rewrite Hfile.
  rewrite bool_decide_eq_true_2 by eauto.
  cbn [negb mbind result_bind]. unfold memmap.
  change (mode_equivalent "r") with "r"%string.
  change (existsb (String.eqb "r") valid_filemodes) with true.
  change (String.eqb "r" "w+") with false.
  change (String.eqb "r" "r+") with false.
  cbn [negb itemsize np_int16].
  destruct (Nat.ltb_spec (length content) (nsamples * nchannels * 2)); [|lia].
  reflexivity.
Qed.

Lemma map_binary_too_many_samples_witness :
  (length two_channel_file < 4 * 2 * 2)%nat
  /\ map_binary {[ "rec.bin"%string := two_channel_file ]} sample_dirs "rec.bin" 2
                np_int16 0 "r" (Some 4%nat) false
     = Raise ValueError.
Proof.
  split; [simpl; lia|].
  apply (map_binary_too_many_samples {[ "rec.bin"%string := two_channel_file ]}
           sample_dirs "rec.bin" two_channel_file 2 4 0 false).
  - reflexivity.
  - simpl; lia.
Defined.

End MapBinaryBounds.

(** * Further properties of [extract_rawChunk] *)

Section RawChunkFurther.

Context {chunk : Type}.
Context (np_load : list byte -> chunk).
Context (chunk_name : string -> py.num -> py.num -> Z -> Z -> string).
Context (load_chunk :
           list byte -> py.num -> py.num -> list Z -> py.num -> py.num ->
           Z -> Z -> bool -> bool -> result (option chunk)).

(** A saved chunk is returned as it is, before the memory is looked at
    and without the binary file: the call succeeds even when the chunk
    would not fit in memory and when the recording is gone. *)
Theorem extract_rawChunk_saved
        (files : filesystem) (mem : vmem) (bp : string) (t1 t2 : py.num)
        (channels : list Z) (fs ampFactor : py.num) (Nchans syncChan : Z)
        (save ret : bool) (c_first c_last : Z) (saved : list byte) :
  forallb (fun c => c <=? Nchans - 1) (map int16_wrap channels) = true ->
  String.eqb (py_suffix 4 bp) ".bin" = true ->
  py_first (map int16_wrap channels) = Ok c_first ->
  py_last (map int16_wrap channels) = Ok c_last ->
  files !! (py_drop_last (String.length (last_component bp "") + 1) bp
            +:+ "/"
            +:+ chunk_name (last_component bp "") t1 t2 c_first c_last)
  = Some saved ->
  extract_rawChunk np_load chunk_name load_chunk files mem bp [t1; t2]
                   channels fs ampFactor Nchans syncChan save ret
  = Ok (Some (np_load saved)).
Proof.
  intros Hchans Hbin Hfirst Hlast Hsaved. unfold extract_rawChunk.
  cbn [length Nat.eqb py_assert mbind result_bind].
  rewrite Hchans, Hbin. cbn [py_assert mbind result_bind].
  rewrite Hfirst, Hlast. cbn [mbind result_bind].
  rewrite Hsaved. reflexivity.
Qed.

(** With no channel asked for, the assertions pass and naming the chunk
    file raises [IndexError]. *)
Theorem extract_rawChunk_no_channels
        (files : filesystem) (mem : vmem) (bp : string) (t1 t2 : py.num)
        (fs ampFactor : py.num) (Nchans syncChan : Z) (save ret : bool) :
  String.eqb (py_suffix 4 bp) ".bin" = true ->
  extract_rawChunk np_load chunk_name load_chunk files mem bp [t1; t2]
                   [] fs ampFactor Nchans syncChan save ret
  = Raise IndexError.
Proof.
  intros Hbin. unfold extract_rawChunk.
  cbn [length Nat.eqb py_assert mbind result_bind map forallb].
  rewrite Hbin. reflexivity.
Qed.

(** The assertions come first, in the order of the source: a window that
    is not a pair, a channel above [Nchans - 1], or a path that does not
    end in '.bin' raise [AssertionError], whatever is saved on disk. *)
Theorem extract_rawChunk_assertions
        (files : filesystem) (mem : vmem) (bp : string) (times : list py.num)
        (channels : list Z) (fs ampFactor : py.num) (Nchans syncChan : Z)
        (save ret : bool) :
  length times <> 2%nat
  \/ Exists (fun c => Nchans - 1 < int16_wrap c) channels
  \/ String.eqb (py_suffix 4 bp) ".bin" = false ->
  extract_rawChunk np_load chunk_name load_chunk files mem bp times
                   channels fs ampFactor Nchans syncChan save ret
  = Raise AssertionError.
Proof.
  intros H. unfold extract_rawChunk.
  destruct (Nat.eqb_spec (length times) 2) as [Hlen|Hlen];
    cbn [py_assert mbind result_bind]; [|reflexivity].
  destruct (forallb (fun c => c <=? Nchans - 1) (map int16_wrap channels))
    eqn:Hall; cbn [py_assert mbind result_bind]; [|reflexivity].
  destruct (String.eqb (py_suffix 4 bp) ".bin") eqn:Hbin;
    cbn [py_assert mbind result_bind]; [|reflexivity].
  exfalso. destruct H as [H|[H|H]]; [contradiction | | discriminate].
  rewrite forallb_forall in Hall. apply List.Exists_exists in H as (c & Hc & Hgt).
  specialize (Hall (int16_wrap c) (in_map _ _ _ Hc)). lia.
Qed.

End RawChunkFurther.

Lemma extract_rawChunk_saved_witness :
  extract_rawChunk (fun saved => length saved)
    (fun _ _ _ _ _ => "chunk.npy"%string)
    (fun _ _ _ _ _ _ _ _ _ _ => Raise OSError)
    {[ "rec/chunk.npy"%string := two_channel_file ]}
    (mk_vmem 8000 1000 7000) "rec/ap.bin" [py.Int 0; py.Int 1] [0; 1]
    (py.Int 30000) (py.Int 500) 385 384 false true
  = Ok (Some 12%nat).
Proof.
  apply (extract_rawChunk_saved (fun saved => length saved)
           (fun _ _ _ _ _ => "chunk.npy"%string)
           (fun _ _ _ _ _ _ _ _ _ _ => Raise OSError)
           {[ "rec/chunk.npy"%string := two_channel_file ]}
           (mk_vmem 8000 1000 7000) "rec/ap.bin" (py.Int 0) (py.Int 1) [0; 1]
           (py.Int 30000) (py.Int 500) 385 384 false true 0 1 two_channel_file);
    reflexivity.
Defined.

Lemma extract_rawChunk_no_channels_witness :
  extract_rawChunk (fun saved => length saved)
    (fun _ _ _ _ _ => "chunk.npy"%string)
    (fun _ _ _ _ _ _ _ _ _ _ => Raise OSError)
    ∅ (mk_vmem 8000 1000 7000) "rec/ap.bin" [py.Int 0; py.Int 1] []
    (py.Int 30000) (py.Int 500) 385 384 false true
  = Raise IndexError.
Proof.
  apply (extract_rawChunk_no_channels (fun saved => length saved)
           (fun _ _ _ _ _ => "chunk.npy"%string)
           (fun _ _ _ _ _ _ _ _ _ _ => Raise OSError)
           ∅ (mk_vmem 8000 1000 7000) "rec/ap.bin" (py.Int 0) (py.Int 1)
           (py.Int 30000) (py.Int 500) 385 384 false true).
  reflexivity.
Defined.

Lemma extract_rawChunk_assertions_witness :
  extract_rawChunk (fun saved => length saved)
    (fun _ _ _ _ _ => "chunk.npy"%string)
    (fun _ _ _ _ _ _ _ _ _ _ => Raise OSError)
    ∅ (mk_vmem 8000 1000 7000) "rec/ap.bin" [py.Int 0; py.Int 1] [0; 385]
    (py.Int 30000) (py.Int 500) 385 384 false true
  = Raise AssertionError.
Proof.
  apply (extract_rawChunk_assertions (fun saved => length saved)
           (fun _ _ _ _ _ => "chunk.npy"%string)
           (fun _ _ _ _ _ _ _ _ _ _ => Raise OSError)
           ∅ (mk_vmem 8000 1000 7000) "rec/ap.bin" [py.Int 0; py.Int 1] [0; 385]
           (py.Int 30000) (py.Int 500) 385 384 false true).
  right. left. apply Exists_cons_tl, Exists_cons_hd. vm_compute. reflexivity.
Defined.

(** * Further properties of [extract_syncChan] *)

Section Paths.

Lemma str_append_cons (x : ascii) (a b : string) :
  String x a +:+ b = String x (a +:+ b).
Proof. reflexivity. Qed.

Lemma str_append_nil (b : string) : "" +:+ b = b.
Proof. reflexivity. Qed.

Lemma str_append_nil_r (a : string) : a +:+ "" = a.
Proof.
  induction a as [|x a IH]; [reflexivity|].
  now rewrite str_append_cons, IH.
Qed.

Lemma str_append_assoc (a b c : string) : (a +:+ b) +:+ c = a +:+ (b +:+ c).
Proof.
  induction a as [|x a IH]; [reflexivity|].
  now rewrite !str_append_cons, IH.
Qed.

Lemma str_length_append (a b : string) :
  String.length (a +:+ b) = (String.length a + String.length b)%nat.
Proof.
  induction a as [|x a IH]; [reflexivity|].
  rewrite str_append_cons. simpl. now rewrite IH.
Qed.

Lemma str_substring_prefix (a b : string) :
  substring 0 (String.length a) (a +:+ b) = a.
Proof.
  induction a as [|x a IH].
  - rewrite str_append_nil. destruct b; reflexivity.
  - rewrite str_append_cons. simpl. now rewrite IH.
Qed.

Lemma str_substring_all (a : string) : substring 0 0 a = ""%string.
Proof. destruct a; reflexivity. Qed.

Lemma last_component_app (a b cur : string) :
  last_component (a +:+ b) cur = last_component b (last_component a cur).
Proof.
  revert cur. induction a as [|x a IH]; intros cur; [reflexivity|].
  rewrite str_append_cons. simpl. destruct (Ascii.eqb x "/"); apply IH.
Qed.

Lemma last_component_plain (b cur : string) :
  has_slash b = false -> last_component b cur = cur +:+ b.
Proof.
  revert cur. induction b as [|x b IH]; intros cur H; simpl in *.
  - now rewrite str_append_nil_r.
  - apply orb_false_iff in H as [Hx Hb]. rewrite Hx, IH by exact Hb.
    rewrite str_append_assoc. reflexivity.
Qed.

(** Splitting a path with a directory part into directory and name. *)
Lemma split_path (pre bn : string) :
  has_slash bn = false ->
  last_component (pre +:+ "/" +:+ bn) "" = bn
  /\ py_drop_last (String.length bn + 1) (pre +:+ "/" +:+ bn) = pre.
Proof.
  intros Hbn. split.
  - rewrite !last_component_app. simpl last_component at 2.
    apply last_component_plain, Hbn.
  - unfold py_drop_last. rewrite !str_length_append. simpl String.length.
    replace (String.length pre + (1 + String.length bn)
             - (String.length bn + 1))%nat
      with (String.length pre) by lia.
    apply str_substring_prefix.
Qed.

(** A bare file name has an empty directory part. *)
Lemma split_bare_name (bn : string) :
  has_slash bn = false ->
  last_component bn "" = bn
  /\ py_drop_last (String.length bn + 1) bn = ""%string.
Proof.
  intros Hbn. split.
  - apply (last_component_plain bn ""), Hbn.
  - unfold py_drop_last.
    replace (String.length bn - (String.length bn + 1))%nat with 0%nat by lia.
    apply str_substring_all.
Qed.

End Paths.

Section SyncChanFurther.

Context (np_load : list byte -> ndarray) (np_save : ndarray -> list byte).

(** The saved result is looked up beside the recording, under the path
    of the recording with '_sync.npy' appended; when it is there it is
    what the call returns, and the recording is not opened. *)
Theorem extract_syncChan_saved
        (files : filesystem) (pre bn : string) (syncChan fs : Z)
        (ampFactor : Q) (Nchans : Z) (save : bool) (saved : list byte) :
  has_slash bn = false ->
  String.eqb (py_suffix 4 (pre +:+ "/" +:+ bn)) ".bin" = true ->
  files !! ((pre +:+ "/" +:+ bn) +:+ "_sync.npy") = Some saved ->
  extract_syncChan np_load np_save files (pre +:+ "/" +:+ bn) syncChan fs
                   ampFactor Nchans save
  = Some (mk_syncChan_run [] files (Ok (np_load saved))).
Proof.
  intros Hbn Hbin Hsaved. unfold extract_syncChan. rewrite Hbin. cbn [negb].
  destruct (split_path pre bn Hbn) as [-> ->].
  rewrite !str_append_assoc in Hsaved. rewrite Hsaved. reflexivity.
Qed.

(** For a bare file name the directory part is empty, and the saved
    result is looked up in the root directory, at '/<name>_sync.npy'. *)
Theorem extract_syncChan_saved_bare_name
        (files : filesystem) (bn : string) (syncChan fs : Z)
        (ampFactor : Q) (Nchans : Z) (save : bool) (saved : list byte) :
  has_slash bn = false ->
  String.eqb (py_suffix 4 bn) ".bin" = true ->
  files !! ("/" +:+ bn +:+ "_sync.npy") = Some saved ->
  extract_syncChan np_load np_save files bn syncChan fs ampFactor Nchans save
  = Some (mk_syncChan_run [] files (Ok (np_load saved))).
Proof.
  intros Hbn Hbin Hsaved. unfold extract_syncChan. rewrite Hbin. cbn [negb].
  destruct (split_bare_name bn Hbn) as [-> ->].
  change ("" +:+ "/" +:+ bn +:+ "_sync.npy")
    with ("/" +:+ bn +:+ "_sync.npy").
  rewrite Hsaved. reflexivity.
Qed.

(** What a call leaves on disk when it had to read the recording. *)
Lemma extract_syncChan_files_after
      (files : filesystem) (bp : string) (syncChan fs : Z)
      (ampFactor : Q) (Nchans : Z) (save : bool) (content : list byte)
      (run : syncChan_run) (sc : ndarray) :
  String.eqb (py_suffix 4 bp) ".bin" = true ->
  files !! (py_drop_last (String.length (last_component bp "") + 1) bp
            +:+ "/" +:+ last_component bp "" +:+ "_sync.npy")
  = None ->
  files !! bp = Some content ->
  extract_syncChan np_load np_save files bp syncChan fs ampFactor Nchans save
  = Some run ->
  outcome run = Ok sc ->
  files_after run
  = if save
    then <[py_drop_last (String.length (last_component bp "") + 1) bp
           +:+ "/" +:+ last_component bp "" +:+ "_sync.npy" := np_save sc]>
         files
    else files.
Proof.
  intros Hbin Hsaved Hfile. unfold extract_syncChan.
  rewrite Hbin, Hsaved, Hfile. cbn [negb].
  destruct (sync_loop _ _ _ _ _ _ _) as [lr|]; cbn [mbind option_bind];
    [|discriminate].
  destruct (gathered lr) as [bytes|e].
  - destruct (np.reshape _ _ ≫= _) as [shaped|].
    + intros [= <-]. cbn [outcome files_after]. intros [= <-]. reflexivity.
    + intros [= <-]. discriminate.
  - intros [= <-]. discriminate.
Qed.

(** Saving and reloading: after a call that has saved its result, a
    second call reads the saved file back, without opening the
    recording. *)
Theorem extract_syncChan_save_reload
        (files : filesystem) (bp : string) (syncChan fs : Z)
        (ampFactor : Q) (Nchans : Z) (save2 : bool) (content : list byte)
        (run : syncChan_run) (sc : ndarray) :
  String.eqb (py_suffix 4 bp) ".bin" = true ->
  files !! (py_drop_last (String.length (last_component bp "") + 1) bp
            +:+ "/" +:+ last_component bp "" +:+ "_sync.npy")
  = None ->
  files !! bp = Some content ->
  extract_syncChan np_load np_save files bp syncChan fs ampFactor Nchans true
  = Some run ->
  outcome run = Ok sc ->
  extract_syncChan np_load np_save (files_after run) bp syncChan fs ampFactor
                   Nchans save2
  = Some (mk_syncChan_run [] (files_after run) (Ok (np_load (np_save sc)))).
Proof.
  intros Hbin Hsaved Hfile Hrun Hok.
  rewrite (extract_syncChan_files_after _ _ _ _ _ _ _ _ _ _
             Hbin Hsaved Hfile Hrun Hok).
  unfold extract_syncChan at 1. rewrite Hbin. cbn [negb].
  rewrite lookup_insert_eq. reflexivity.
Qed.

(** An empty recording makes the first progress message divide by zero:
    the call raises [ZeroDivisionError] before any read. *)
Theorem extract_syncChan_empty_file
        (files : filesystem) (bp : string) (syncChan fs : Z)
        (ampFactor : Q) (Nchans : Z) (save : bool) :
  String.eqb (py_suffix 4 bp) ".bin" = true ->
  files !! (py_drop_last (String.length (last_component bp "") + 1) bp
            +:+ "/" +:+ last_component bp "" +:+ "_sync.npy")
  = None ->
  files !! bp = Some [] ->
  extract_syncChan np_load np_save files bp syncChan fs ampFactor Nchans save
  = Some (mk_syncChan_run [] files (Raise ZeroDivisionError)).
Proof.
  intros Hbin Hsaved Hfile. unfold extract_syncChan.
  rewrite Hbin, Hsaved, Hfile. cbn [negb].
  destruct (sync_loop_terminates [] Nchans syncChan
              (Z.to_nat 30000) 30000 [] [] ltac:(lia)) as [lr Hlr].
  rewrite Hlr. cbn [mbind option_bind].
  apply sync_loop_step in Hlr
    as [[Hi _]|(_ & fuel' & _ & [[_ ->]|[(_ & Hne & _)|
         [(_ & Hne & _)|(_ & Hne & _)]]])];
    [lia | reflexivity | contradiction..].
Qed.


End SyncChanFurther.

Lemma extract_syncChan_saved_witness :
  has_slash "f.bin" = false
  /\ extract_syncChan (fun saved => mk_ndarray [length saved] []) (fun _ => [])
       {[ "d/f.bin_sync.npy"%string := two_channel_file ]}
       ("d" +:+ "/" +:+ "f.bin") 384 30000 500%Q 385 false
     = Some (mk_syncChan_run []
               {[ "d/f.bin_sync.npy"%string := two_channel_file ]}
               (Ok (mk_ndarray [12%nat] []))).
Proof.
  split; [reflexivity|].
  apply (extract_syncChan_saved (fun saved => mk_ndarray [length saved] [])
           (fun _ => []) {[ "d/f.bin_sync.npy"%string := two_channel_file ]}
           "d" "f.bin" 384 30000 500%Q 385 false two_channel_file);
    reflexivity.
Defined.

Lemma extract_syncChan_saved_bare_name_witness :
  has_slash "f.bin" = false
  /\ extract_syncChan (fun saved => mk_ndarray [length saved] []) (fun _ => [])
       {[ "/f.bin_sync.npy"%string := two_channel_file ]}
       "f.bin" 384 30000 500%Q 385 false
     = Some (mk_syncChan_run []
               {[ "/f.bin_sync.npy"%string := two_channel_file ]}
               (Ok (mk_ndarray [12%nat] []))).
Proof.
  split; [reflexivity|].
  apply (extract_syncChan_saved_bare_name
           (fun saved => mk_ndarray [length saved] [])
           (fun _ => []) {[ "/f.bin_sync.npy"%string := two_channel_file ]}
           "f.bin" 384 30000 500%Q 385 false two_channel_file);
    reflexivity.
Defined.

Lemma extract_syncChan_empty_file_witness :
  extract_syncChan (fun saved => mk_ndarray [length saved] []) (fun _ => [])
    {[ "d/f.bin"%string := [] ]} "d/f.bin" 384 30000 500%Q 385 false
  = Some (mk_syncChan_run [] {[ "d/f.bin"%string := [] ]}
            (Raise ZeroDivisionError)).
Proof.
  apply (extract_syncChan_empty_file (fun saved => mk_ndarray [length saved] [])
           (fun _ => []) {[ "d/f.bin"%string := [] ]} "d/f.bin" 384 30000
           500%Q 385 false); reflexivity.
Defined.


Lemma extract_syncChan_save_reload_witness :
  exists run sc,
    extract_syncChan (fun saved => mk_ndarray [length saved] [])
      (fun sc => repeat Byte.x01 (length (shape sc)))
      tiny_files "d/f.bin" 384 30000 500%Q 385 true = Some run
    /\ outcome run = Ok sc
    /\ extract_syncChan (fun saved => mk_ndarray [length saved] [])
         (fun sc => repeat Byte.x01 (length (shape sc)))
         (files_after run) "d/f.bin" 384 30000 500%Q 385 false
       = Some (mk_syncChan_run [] (files_after run)
                 (Ok (mk_ndarray [2%nat] []))).
Proof.
  eexists _, _. split; [vm_compute; reflexivity|]. split; [reflexivity|].
  apply (extract_syncChan_save_reload
           (fun saved => mk_ndarray [length saved] [])
           (fun sc => repeat Byte.x01 (length (shape sc)))
           tiny_files "d/f.bin" 384 30000 500%Q 385 false two_channel_file
           _ (mk_ndarray [16%nat; 0%nat] [])).
  - reflexivity.
  - reflexivity.
  - reflexivity.
  - vm_compute. reflexivity.
  - reflexivity.
Defined.

(** * The content of the array of [extract_syncChan] *)

Section SyncLoopReads.

Variables (content : list byte) (Nchans syncChan : Z).

Lemma sync_reads_front (i : Z) (k : nat) :
  sync_reads content Nchans syncChan i (S k)
  = read_at content (sample_offset Nchans syncChan i) 2
    ++ sync_reads content Nchans syncChan (i + 1) k.
Proof.
  unfold sync_reads. cbn [seq flat_map]. rewrite Z.add_0_r. f_equal.
  rewrite <- seq_shift, flat_map_concat_map, List.map_map,
    <- flat_map_concat_map.
  apply flat_map_ext_in. intros j _. do 2 f_equal. lia.
Qed.

(** The loop gathers the reads of [k] consecutive samples, all of them
    non-empty, and stops at sample 60000 or at the first empty read. *)
Lemma sync_loop_reads (fuel : nat) (i : Z) (sc : list byte)
      (sought : list Z) (run : loop_run) (sc' : list byte) :
  i <= 60000 ->
  sync_loop fuel content Nchans syncChan i sc sought = Some run ->
  gathered run = Ok sc' ->
  exists k : nat,
    Z.of_nat k <= 60000 - i
    /\ sc' = sc ++ sync_reads content Nchans syncChan i k
    /\ (forall j, (j < k)%nat ->
          read_at content (sample_offset Nchans syncChan (i + Z.of_nat j)) 2
          <> [])
    /\ (i + Z.of_nat k < 60000 ->
        read_at content (sample_offset Nchans syncChan (i + Z.of_nat k)) 2
        = []).
Proof.
  revert i sc sought. induction fuel as [|fuel IH];
    intros i sc sought Hle Hrun Hok;
    apply sync_loop_step in Hrun
      as [[Hi ->]|(Hi & fuel' & Hfuel & [[_ ->]|[(_ & _ & _ & ->)|
           [(_ & _ & _ & Hempty & ->)|(_ & _ & Hoff & Hread & Hrec)]]])];
    try discriminate;
    try (injection Hok as <-; exists 0%nat; unfold sync_reads;
         cbn [seq flat_map]; change (Z.of_nat 0) with 0;
         rewrite app_nil_r, Z.add_0_r;
         split; [lia|]; split; [reflexivity|];
         split; [intros j Hj; lia | intros Hlt; first [assumption | lia]]).
  injection Hfuel as <-.
  destruct (IH (i + 1) _ _ ltac:(lia) Hrec Hok)
    as (k & Hk & Hsc & Hfull & Hstop).
  exists (S k). split; [lia|]. split.
  - rewrite Hsc, sync_reads_front, app_assoc. reflexivity.
  - split.
    + intros j Hj. destruct j as [|j].
      * rewrite Z.add_0_r. exact Hread.
      * replace (i + Z.of_nat (S j)) with (i + 1 + Z.of_nat j) by lia.
        apply Hfull. lia.
    + intros Hlt. replace (i + Z.of_nat (S k)) with (i + 1 + Z.of_nat k) by lia.
      apply Hstop. lia.
Qed.

(** A recording of [T] whole time steps: the sync word of sample [j] is
    there, two bytes long, exactly when [j < T]. *)
Hypothesis HN : 0 < Nchans.
Hypothesis HS : 0 <= syncChan < Nchans.
Variable T : Z.
Hypothesis Hlen : Z.of_nat (length content) = 2 * Nchans * T.

Lemma read_at_inside (j : Z) :
  0 <= j < T ->
  length (read_at content (sample_offset Nchans syncChan j) 2) = 2%nat.
Proof.
  intros Hj. unfold read_at, sample_offset.
  rewrite length_take, length_drop.
  assert ((j * Nchans + syncChan) * 2 + 2 <= 2 * Nchans * T) by nia.
  lia.
Qed.

Lemma read_at_outside (j : Z) :
  T <= j -> 0 <= j ->
  read_at content (sample_offset Nchans syncChan j) 2 = [].
Proof.
  intros Hj Hj0. unfold read_at, sample_offset.
  assert (2 * Nchans * T <= (j * Nchans + syncChan) * 2) by nia.
  rewrite drop_ge by lia. apply take_nil.
Qed.

Lemma read_at_nonempty_inside (j : Z) :
  0 <= j ->
  read_at content (sample_offset Nchans syncChan j) 2 <> [] -> j < T.
Proof.
  intros Hj0 Hne. destruct (Z.lt_ge_cases j T) as [|Hge]; [assumption|].
  rewrite read_at_outside in Hne by assumption. contradiction.
Qed.

Lemma read_at_empty_outside (j : Z) :
  0 <= j ->
  read_at content (sample_offset Nchans syncChan j) 2 = [] -> T <= j.
Proof.
  intros Hj0 He. destruct (Z.lt_ge_cases j T) as [Hlt|]; [|assumption].
  pose proof (read_at_inside j ltac:(lia)) as H2. rewrite He in H2.
  discriminate.
Qed.

Lemma length_sync_reads (i : Z) (k : nat) :
  0 <= i -> i + Z.of_nat k <= T ->
  length (sync_reads content Nchans syncChan i k) = (2 * k)%nat.
Proof.
  revert i. induction k as [|k IH]; intros i Hi Hk; [reflexivity|].
  rewrite sync_reads_front, length_app, read_at_inside, IH by lia. lia.
Qed.

(** Byte [e] of the word of the [s]-th sample gathered. *)
Lemma nth_sync_reads (i : Z) (k s e : nat) (d : byte) :
  0 <= i -> i + Z.of_nat k <= T ->
  (s < k)%nat -> (e < 2)%nat ->
  nth (s * 2 + e) (sync_reads content Nchans syncChan i k) d
  = nth e (read_at content (sample_offset Nchans syncChan (i + Z.of_nat s)) 2) d.
Proof.
  revert i s. induction k as [|k IH]; intros i s Hi Hk Hs He; [lia|].
  rewrite sync_reads_front. destruct s as [|s].
  - rewrite app_nth1 by (rewrite read_at_inside; lia).
    rewrite Z.add_0_r. reflexivity.
  - rewrite app_nth2 by (rewrite read_at_inside; lia).
    rewrite read_at_inside by lia.
    replace (S s * 2 + e - 2)%nat with (s * 2 + e)%nat by lia.
    rewrite IH by lia. do 3 f_equal. lia.
Qed.

(** The loop of a call on such a recording: it gathers the whole words
    of the samples 30000 to min(T, 60000) - 1. *)
Lemma sync_loop_recording (run : loop_run) :
  1 <= T ->
  sync_loop (Z.to_nat 30000) content Nchans syncChan 30000 [] [] = Some run ->
  exists k : nat,
    Z.of_nat k = Z.max 0 (Z.min 30000 (T - 30000))
    /\ gathered run = Ok (sync_reads content Nchans syncChan 30000 k)
    /\ length (sync_reads content Nchans syncChan 30000 k) = (2 * k)%nat.
Proof.
  intros HT Hrun.
  assert (Hne : content <> []).
  { intros E. pose proof Hlen as Hl. rewrite E in Hl. simpl in Hl. nia. }
  destruct (sync_loop_ok content Nchans syncChan (Z.to_nat 30000) 30000 [] []
              run HN ltac:(lia) ltac:(lia) Hne Hrun) as [sc' Hsc'].
  destruct (sync_loop_reads (Z.to_nat 30000) 30000 [] [] run sc'
              ltac:(lia) Hrun Hsc')
    as (k & Hk & Heq & Hfull & Hstop).
  cbn [app] in Heq. subst sc'.
  destruct k as [|k].
  - exists 0%nat. split; [|split; [exact Hsc' | reflexivity]].
    specialize (Hstop ltac:(lia)). change (Z.of_nat 0) with 0 in Hstop.
    apply read_at_empty_outside in Hstop; lia.
  - pose proof (Hfull k ltac:(lia)) as Hlast.
    apply read_at_nonempty_inside in Hlast; [|lia].
    exists (S k). split; [|split; [exact Hsc' | apply length_sync_reads; lia]].
    destruct (Z.lt_ge_cases (30000 + Z.of_nat (S k)) 60000) as [Hlt|Hge]; [|lia].
    specialize (Hstop Hlt). apply read_at_empty_outside in Hstop; lia.
Qed.

End SyncLoopReads.

Section SyncChanContent.

Context (np_load : list byte -> ndarray) (np_save : ndarray -> list byte).

Lemma nth_byte_bits (vs : list Z) (p q : nat) :
  (p < length vs)%nat -> (q < 8)%nat ->
  nth (p * 8 + q)
      (flat_map
         (fun v => map (fun k => (v / 2 ^ (7 - Z.of_nat k)) mod 2) (seq 0 8))
         vs) 0
  = (nth p vs 0 / 2 ^ (7 - Z.of_nat q)) mod 2.
Proof.
  revert p. induction vs as [|v vs IH]; intros p Hp Hq; simpl in Hp; [lia|].
  cbn [flat_map]. destruct p as [|p].
  - rewrite app_nth1 by (rewrite length_map, length_seq; lia).
    rewrite (nth_indep _ 0 ((v / 2 ^ (7 - Z.of_nat 0)) mod 2))
      by (rewrite length_map, length_seq; lia).
    rewrite (map_nth (fun k => (v / 2 ^ (7 - Z.of_nat k)) mod 2)).
    rewrite seq_nth by lia. reflexivity.
  - rewrite app_nth2 by (rewrite length_map, length_seq; lia).
    rewrite length_map, length_seq.
    replace (S p * 8 + q - 8)%nat with (p * 8 + q)%nat by lia.
    cbn [nth]. apply IH; lia.
Qed.

(** The bits of a 16-bit little-endian word, byte by byte. *)
Lemma word_bits (b0 b1 : byte) (k : Z) :
  0 <= k < 8 ->
  Z.testbit (decode np_int16 [b0; b1]) k = Z.testbit (Z.of_N (Byte.to_N b0)) k
  /\ Z.testbit (decode np_int16 [b0; b1]) (k + 8)
     = Z.testbit (Z.of_N (Byte.to_N b1)) k.
Proof.
  intros Hk. unfold decode. cbn [itemsize signed np_int16 andb le_combine].
  change (8 * Z.of_nat 2 - 1) with 15. change (8 * Z.of_nat 2) with 16.
  pose proof (Byte.to_N_bounded b0) as H0.
  pose proof (Byte.to_N_bounded b1) as H1.
  set (v0 := Z.of_N (Byte.to_N b0)) in *.
  set (v1 := Z.of_N (Byte.to_N b1)) in *.
  assert (Hv0 : 0 <= v0 < 256) by (unfold v0; lia).
  assert (Hv1 : 0 <= v1 < 256) by (unfold v1; lia).
  rewrite Z.mul_0_r, Z.add_0_r.
  set (u := v0 + 256 * v1).
  assert (Hw : forall w b, w mod 2 ^ 16 = u -> 0 <= b < 16 ->
                           Z.testbit w b = Z.testbit u b).
  { intros w b Hmod Hb. rewrite <- Hmod.
    symmetry. apply Z.mod_pow2_bits_low. lia. }
  assert (Hu0 : Z.testbit u k = Z.testbit v0 k).
  { rewrite <- (Z.mod_pow2_bits_low u 8 k) by lia.
    replace (u mod 2 ^ 8) with v0; [reflexivity|].
    unfold u. change (2 ^ 8) with 256.
    replace (v0 + 256 * v1) with (v0 + v1 * 256) by lia.
    rewrite Z_mod_plus_full. symmetry. apply Z.mod_small. lia. }
  assert (Hu1 : Z.testbit u (k + 8) = Z.testbit v1 k).
  { rewrite <- (Z.div_pow2_bits u 8 k) by lia.
    replace (u / 2 ^ 8) with v1; [reflexivity|].
    unfold u. change (2 ^ 8) with 256.
    replace (v0 + 256 * v1) with (v0 + v1 * 256) by lia.
    rewrite Z_div_plus_full by lia.
    rewrite (Z.div_small v0) by lia. lia. }
  assert (Hmod : (if 2 ^ 15 <=? u then u - 2 ^ 16 else u) mod 2 ^ 16 = u).
  { destruct (Z.leb_spec (2 ^ 15) u).
    - replace (u - 2 ^ 16) with (u + (-1) * 2 ^ 16) by lia.
      rewrite Z_mod_plus_full. apply Z.mod_small. unfold u. lia.
    - apply Z.mod_small. unfold u. lia. }
  split.
  - rewrite (Hw _ k Hmod) by lia. exact Hu0.
  - rewrite (Hw _ (k + 8) Hmod) by lia. exact Hu1.
Qed.

(** What a call returns on a recording of [T] whole time steps. *)
Lemma extract_syncChan_recording
      (files : filesystem) (bp : string) (syncChan fs : Z)
      (ampFactor : Q) (Nchans : Z) (save : bool) (content : list byte)
      (T : Z) :
  String.eqb (py_suffix 4 bp) ".bin" = true ->
  files !! (py_drop_last (String.length (last_component bp "") + 1) bp
            +:+ "/" +:+ last_component bp "" +:+ "_sync.npy")
  = None ->
  files !! bp = Some content ->
  0 < Nchans -> 0 <= syncChan < Nchans ->
  Z.of_nat (length content) = 2 * Nchans * T ->
  1 <= T ->
  exists (run : syncChan_run) (k : nat),
    extract_syncChan np_load np_save files bp syncChan fs ampFactor Nchans save
    = Some run
    /\ Z.of_nat k = Z.max 0 (Z.min 30000 (T - 30000))
    /\ length (sync_reads content Nchans syncChan 30000 k) = (2 * k)%nat
    /\ outcome run
       = Ok (mk_ndarray [16%nat; k]
               (flat_map
                  (fun j =>
                     map (fun i =>
                            np.get2
                              (mk_ndarray [k; 16%nat]
                                 (data (np.unpackbits
                                          (np.frombuffer_uint8
                                             (sync_reads content Nchans
                                                         syncChan 30000 k)))))
                              i j)
                         (seq 0 k))
                  (seq 0 16))).
Proof.
  intros Hbin Hsaved Hfile HN HS Hlen HT. unfold extract_syncChan.
  rewrite Hbin, Hsaved, Hfile. cbn [negb].
  destruct (sync_loop_terminates content Nchans syncChan
              (Z.to_nat 30000) 30000 [] [] ltac:(lia)) as [lr Hlr].
  rewrite Hlr. cbn [mbind option_bind].
  destruct (sync_loop_recording content Nchans syncChan HN HS T Hlen lr HT Hlr)
    as (k & Hk & Hg & Hlenk).
  rewrite Hg.
  set (bits := np.unpackbits (np.frombuffer_uint8
                                (sync_reads content Nchans syncChan 30000 k))).
  assert (Hbits : length (data bits) = (k * 16)%nat).
  { unfold bits. rewrite length_np_unpackbits.
    cbn [np.frombuffer_uint8 data]. rewrite length_map, Hlenk. lia. }
  rewrite Hbits, Nat.div_mul by lia.
  change [Z.of_nat k; 16] with (map Z.of_nat [k; 16%nat]).
  rewrite reshape_exact
    by (unfold np.prod_shape; cbn [foldr]; rewrite Hbits; lia).
  cbn [mbind option_bind np.transpose shape].
  eexists _, k. split; [reflexivity|]. cbn [outcome].
  split; [exact Hk|]. split; [exact Hlenk | reflexivity].
Qed.

(** On a recording of [T] whole time steps the array has one column for
    each sample from 30000 up to the end of the recording, and at most
    30000 of them: Nsamples = max(0, min(30000, T - 30000)). *)
Theorem extract_syncChan_sample_count
        (files : filesystem) (bp : string) (syncChan fs : Z)
        (ampFactor : Q) (Nchans : Z) (save : bool) (content : list byte)
        (T : Z) :
  String.eqb (py_suffix 4 bp) ".bin" = true ->
  files !! (py_drop_last (String.length (last_component bp "") + 1) bp
            +:+ "/" +:+ last_component bp "" +:+ "_sync.npy")
  = None ->
  files !! bp = Some content ->
  0 < Nchans -> 0 <= syncChan < Nchans ->
  Z.of_nat (length content) = 2 * Nchans * T ->
  1 <= T ->
  exists run sc n,
    extract_syncChan np_load np_save files bp syncChan fs ampFactor Nchans save
    = Some run
    /\ outcome run = Ok sc
    /\ shape sc = [16%nat; n]
    /\ Z.of_nat n = Z.max 0 (Z.min 30000 (T - 30000)).
Proof.
  intros Hbin Hsaved Hfile HN HS Hlen HT.
  destruct (extract_syncChan_recording files bp syncChan fs ampFactor Nchans
              save content T Hbin Hsaved Hfile HN HS Hlen HT)
    as (run & k & Hrun & Hk & _ & Hout).
  eexists run, _, k. split; [exact Hrun|]. split; [exact Hout|].
  split; [reflexivity | exact Hk].
Qed.

(** Entry [r, s] of the array is one bit of the 16-bit word the file
    holds for the sync channel at sample 30000 + s: bit 7 - r for the
    rows r < 8 and bit 23 - r for the rows r >= 8.  The rows are thus
    not in the order of the sync lines of [unpackbits], which puts bit b
    in column b. *)
Theorem extract_syncChan_bits
        (files : filesystem) (bp : string) (syncChan fs : Z)
        (ampFactor : Q) (Nchans : Z) (save : bool) (content : list byte)
        (T : Z) :
  String.eqb (py_suffix 4 bp) ".bin" = true ->
  files !! (py_drop_last (String.length (last_component bp "") + 1) bp
            +:+ "/" +:+ last_component bp "" +:+ "_sync.npy")
  = None ->
  files !! bp = Some content ->
  0 < Nchans -> 0 <= syncChan < Nchans ->
  Z.of_nat (length content) = 2 * Nchans * T ->
  1 <= T ->
  exists run sc n,
    extract_syncChan np_load np_save files bp syncChan fs ampFactor Nchans save
    = Some run
    /\ outcome run = Ok sc
    /\ shape sc = [16%nat; n]
    /\ forall r s, (r < 16)%nat -> (s < n)%nat ->
         np.get2 sc r s
         = Z.b2z (Z.testbit
                    (stored_sample content (Z.to_nat Nchans) (Z.to_nat syncChan)
                                   (Z.to_nat (30000 + Z.of_nat s)))
                    (syncChan_row_bit r)).
Proof.
  intros Hbin Hsaved Hfile HN HS Hlen HT.
  destruct (extract_syncChan_recording files bp syncChan fs ampFactor Nchans
              save content T Hbin Hsaved Hfile HN HS Hlen HT)
    as (run & k & Hrun & Hk & Hlenk & Hout).
  eexists run, _, k. split; [exact Hrun|]. split; [exact Hout|].
  split; [reflexivity|]. intros r s Hr Hs.
  unfold np.get2 at 1. cbn [shape data].
  rewrite (nth_rows (fun j i => np.get2 _ i j)) by assumption.
  cbn [Nat.add]. unfold np.get2. cbn [shape data np.unpackbits np.frombuffer_uint8].
  set (reads := sync_reads content Nchans syncChan 30000 k) in *.
  set (word := read_at content
                 (sample_offset Nchans syncChan (30000 + Z.of_nat s)) 2).
  assert (HsT : 30000 + Z.of_nat s < T) by lia.
  assert (Hword : length word = 2%nat)
    by (apply (read_at_inside content Nchans syncChan HN HS T Hlen); lia).
  assert (Hstored :
    stored_sample content (Z.to_nat Nchans) (Z.to_nat syncChan)
                  (Z.to_nat (30000 + Z.of_nat s))
    = decode np_int16 word).
  { unfold stored_sample, buffer_item, word, read_at, sample_offset.
    cbn [itemsize np_int16]. do 3 f_equal. nia. }
  destruct word as [|b0 [|b1 [|]]] eqn:Eword; try discriminate.
  assert (Hbyte : forall e, (e < 2)%nat ->
    nth (s * 2 + e) (map (fun b => Z.of_N (Byte.to_N b)) reads) 0
    = Z.of_N (Byte.to_N (nth e [b0; b1] Byte.x00))).
  { intros e He.
    change 0 with ((fun b => Z.of_N (Byte.to_N b)) Byte.x00) at 1.
    rewrite map_nth. f_equal. f_equal. unfold reads.
    rewrite (nth_sync_reads content Nchans syncChan HN HS T Hlen)
      by lia.
    fold word. rewrite Eword. reflexivity. }
  rewrite Hstored. unfold syncChan_row_bit.
  destruct (Nat.ltb_spec r 8) as [Hlo|Hhi].
  - replace (s * 16 + r)%nat with ((s * 2 + 0) * 8 + r)%nat by lia.
    rewrite nth_byte_bits by (rewrite ?length_map, ?Hlenk; lia).
    rewrite (Hbyte 0%nat) by lia. cbn [nth].
    rewrite <- Z.testbit_spec' by lia.
    f_equal. symmetry. apply (word_bits b0 b1 (7 - Z.of_nat r)). lia.
  - replace (s * 16 + r)%nat with ((s * 2 + 1) * 8 + (r - 8))%nat by lia.
    rewrite nth_byte_bits by (rewrite ?length_map, ?Hlenk; lia).
    rewrite (Hbyte 1%nat) by lia. cbn [nth].
    rewrite <- Z.testbit_spec' by lia.
    f_equal. replace (23 - Z.of_nat r) with (7 - Z.of_nat (r - 8) + 8) by lia.
    symmetry. apply (word_bits b0 b1 (7 - Z.of_nat (r - 8))). lia.
Qed.

End SyncChanContent.

Lemma extract_syncChan_sample_count_witness :
  Z.of_nat (length sync_recording) = 2 * 1 * 30003
  /\ exists run sc n,
      extract_syncChan (fun saved => mk_ndarray [length saved] []) (fun _ => [])
        sync_files "d/f.bin" 0 30000 500%Q 1 false = Some run
      /\ outcome run = Ok sc
      /\ shape sc = [16%nat; n]
      /\ Z.of_nat n = Z.max 0 (Z.min 30000 (30003 - 30000)).
Proof.
  split; [exact sync_recording_length|].
  apply (extract_syncChan_sample_count
           (fun saved => mk_ndarray [length saved] []) (fun _ => [])
           sync_files "d/f.bin" 0 30000 500%Q 1 false sync_recording 30003).
  - reflexivity.
  - apply lookup_singleton_ne. discriminate.
  - apply lookup_singleton_eq.
  - lia.
  - lia.
  - exact sync_recording_length.
  - lia.
Defined.

Lemma extract_syncChan_bits_witness :
  Z.of_nat (length sync_recording) = 2 * 1 * 30003
  /\ exists run sc n,
      extract_syncChan (fun saved => mk_ndarray [length saved] []) (fun _ => [])
        sync_files "d/f.bin" 0 30000 500%Q 1 false = Some run
      /\ outcome run = Ok sc
      /\ shape sc = [16%nat; n]
      /\ forall r s, (r < 16)%nat -> (s < n)%nat ->
           np.get2 sc r s
           = Z.b2z (Z.testbit
                      (stored_sample sync_recording (Z.to_nat 1) (Z.to_nat 0)
                                     (Z.to_nat (30000 + Z.of_nat s)))
                      (syncChan_row_bit r)).
Proof.
  split; [exact sync_recording_length|].
  apply (extract_syncChan_bits
           (fun saved => mk_ndarray [length saved] []) (fun _ => [])
           sync_files "d/f.bin" 0 30000 500%Q 1 false sync_recording 30003).
  - reflexivity.
  - apply lookup_singleton_ne. discriminate.
  - apply lookup_singleton_eq.
  - lia.
  - lia.
  - exact sync_recording_length.
  - lia.
Defined.

(** * [read_spikeglx_meta] *)

Section SpikeglxMetaFacts.

Context {float : Type} (py_float : string -> option float).

Lemma py_split_cons (sep : ascii) (s : string) :
  exists h t, py_split sep s = h :: t.
Proof.
  induction s as [|c r (h & t & IH)]; simpl; [eauto|].
  destruct (Ascii.eqb c sep); [eauto|]. rewrite IH. eauto.
Qed.

Lemma length_py_split (sep : ascii) (s : string) :
  length (py_split sep s) = S (count_char sep s).
Proof.
  induction s as [|c r IH]; simpl; [reflexivity|].
  destruct (Ascii.eqb c sep); simpl; [now rewrite IH|].
  destruct (py_split_cons sep r) as (h & t & E). rewrite E in *.
  simpl in *. exact IH.
Qed.

(** A line is accepted exactly when it holds one '='. *)
Lemma meta_line_done (ln : string) :
  count_char "=" ln = 1%nat ->
  exists k v, meta_line py_float ln = Done (k, v).
Proof.
  intros Hc. unfold meta_line.
  pose proof (length_py_split "=" ln) as Hl. rewrite Hc in Hl.
  destruct (py_split "=" ln) as [|k [|val [|]]]; try discriminate.
  destruct (py_in _ _); [eauto|]. destruct (py_float _); eauto.
Qed.

Lemma meta_line_fail (ln : string) :
  count_char "=" ln <> 1%nat ->
  meta_line py_float ln = Fail (Builtin ValueError).
Proof.
  intros Hc. unfold meta_line.
  pose proof (length_py_split "=" ln) as Hl.
  destruct (py_split "=" ln) as [|k [|val [|]]]; try reflexivity.
  simpl in Hl. congruence.
Qed.

Lemma meta_line_cases (ln : string) :
  (exists k v, meta_line py_float ln = Done (k, v))
  \/ meta_line py_float ln = Fail (Builtin ValueError).
Proof.
  destruct (Nat.eq_dec (count_char "=" ln) 1%nat);
    [left; apply meta_line_done | right; apply meta_line_fail]; assumption.
Qed.

Lemma meta_lines_fail (lines : list string) (meta : gmap string meta_value)
      (ln : string) :
  In ln lines -> count_char "=" ln <> 1%nat ->
  meta_lines py_float lines meta = Fail (Builtin ValueError).
Proof.
  revert meta. induction lines as [|l lines IH]; intros meta Hin Hc; [destruct Hin|].
  cbn [meta_lines].
  destruct (meta_line_cases l) as [(k & v & E)|E]; rewrite E;
    cbn [mbind checked_bind]; [|reflexivity].
  destruct Hin as [->|Hin]; [|apply IH; assumption].
  rewrite meta_line_fail in E by assumption. discriminate.
Qed.

(** Where a binding of the dictionary built from the lines comes from. *)
Lemma meta_lines_origin (lines : list string) (m0 m : gmap string meta_value)
      (k : string) (v : meta_value) :
  meta_lines py_float lines m0 = Done m ->
  m !! k = Some v ->
  m0 !! k = Some v
  \/ exists ln, In ln lines /\ meta_line py_float ln = Done (k, v).
Proof.
  revert m0. induction lines as [|l lines IH]; intros m0 Hrun Hk.
  - injection Hrun as <-. now left.
  - cbn [meta_lines] in Hrun.
    destruct (meta_line py_float l) as [[k' v']|e] eqn:E;
      cbn [mbind checked_bind] in Hrun; [|discriminate].
    destruct (IH _ Hrun Hk) as [H0|(ln & Hin & Hln)].
    + cbn [fst snd] in H0. destruct (decide (k' = k)) as [->|Hne].
      * rewrite lookup_insert_eq in H0. injection H0 as ->.
        right. exists l. split; [now left | exact E].
      * rewrite lookup_insert_ne in H0 by exact Hne. now left.
    + right. exists ln. split; [now right | exact Hln].
Qed.

(** The last line that binds a key decides its value. *)
Lemma meta_lines_last (l1 l2 : list string) (ln : string)
      (m0 m : gmap string meta_value) (k : string) (v : meta_value) :
  meta_lines py_float (l1 ++ ln :: l2) m0 = Done m ->
  meta_line py_float ln = Done (k, v) ->
  (forall ln' k' v', In ln' l2 -> meta_line py_float ln' = Done (k', v') ->
                     k' <> k) ->
  m !! k = Some v.
Proof.
  revert m0. induction l1 as [|l l1 IH]; intros m0 Hrun Hln Hlater.
  - cbn [app meta_lines] in Hrun. rewrite Hln in Hrun.
    cbn [mbind checked_bind fst snd] in Hrun.
    assert (Hkeep : forall l2 m1, m1 !! k = Some v ->
              (forall ln' k' v', In ln' l2 ->
                 meta_line py_float ln' = Done (k', v') -> k' <> k) ->
              meta_lines py_float l2 m1 = Done m -> m !! k = Some v).
    { clear. intros l2. induction l2 as [|l l2 IH]; intros m1 H1 Hlater Hrun.
      - injection Hrun as <-. exact H1.
      - cbn [meta_lines] in Hrun.
        destruct (meta_line py_float l) as [[k' v']|e] eqn:E;
          cbn [mbind checked_bind fst snd] in Hrun; [|discriminate].
        apply (IH (<[k' := v']> m1)).
        + rewrite lookup_insert_ne; [exact H1|].
          apply (Hlater l k' v'); [now left | exact E].
        + intros ln' k'' v'' Hin. apply Hlater. now right.
        + exact Hrun. }
    apply (Hkeep l2 (<[k := v]> m0)); [apply lookup_insert_eq | exact Hlater | exact Hrun].
  - cbn [app meta_lines] in Hrun.
    destruct (meta_line py_float l) as [[k' v']|e];
      cbn [mbind checked_bind] in Hrun; [|discriminate].
    apply (IH _ Hrun Hln Hlater).
Qed.

Lemma samp_rate_key_not_sRateHz (s : string) :
  substring 0 2 s +:+ "SampRate" <> "sRateHz"%string.
Proof.
  intros H. apply (f_equal String.length) in H.
  rewrite str_length_append in H. simpl in H. lia.
Qed.

Lemma checked_bind_done {A B} (x : checked A) (f : A -> checked B) (b : B) :
  x ≫= f = Done b -> exists a, x = Done a /\ f a = Done b.
Proof. destruct x as [a|e]; [eauto | discriminate]. Qed.

Lemma meta_get_done (m : gmap string (@meta_value float)) (k : string)
      (v : meta_value) :
  meta_get m k = Done v -> m !! k = Some v.
Proof. unfold meta_get. destruct (m !! k); [congruence | discriminate]. Qed.

Lemma meta_get_none (m : gmap string (@meta_value float)) (k : string) :
  m !! k = None -> meta_get m k = Fail (KeyError k).
Proof. unfold meta_get. now intros ->. Qed.

(** What a successful call returns: the dictionary of the lines with the
    sampling rate added. *)
Lemma read_spikeglx_meta_inv (text : textfiles) (metafile : string)
      (lines : list string) (meta : gmap string meta_value) :
  text !! metafile = Some lines ->
  read_spikeglx_meta py_float text metafile = Done meta ->
  exists m0 s rate,
    meta_lines py_float lines ∅ = Done m0
    /\ m0 !! "typeThis"%string = Some (MStr s)
    /\ m0 !! (substring 0 2 s +:+ "SampRate") = Some rate
    /\ meta = <["sRateHz"%string := rate]> m0.
Proof.
  intros Hfile Hrun. unfold read_spikeglx_meta in Hrun. rewrite Hfile in Hrun.
  apply checked_bind_done in Hrun as (m0 & Hm0 & Hrun).
  apply checked_bind_done in Hrun as (tt & Htt & Hrun).
  apply meta_get_done in Htt.
  apply checked_bind_done in Hrun as (key & Hkey & Hrun).
  destruct tt as [x|s|l]; try discriminate Hkey.
  cbn [samp_rate_key] in Hkey. injection Hkey as <-.
  apply checked_bind_done in Hrun as (rate & Hrate & Hrun).
  apply meta_get_done in Hrate.
  apply checked_bind_done in Hrun as (tt2 & Htt2 & Hrun).
  apply meta_get_done in Htt2.
  rewrite lookup_insert_ne in Htt2 by discriminate.
  rewrite Htt in Htt2. injection Htt2 as <-. cbn [is_str] in Hrun.
  exists m0, s, rate. repeat split; try assumption.
  destruct (String.eqb_spec s "imec") as [->|Hs].
  - apply checked_bind_done in Hrun as (r0 & Hr0 & Hrun).
    apply meta_get_done in Hr0.
    rewrite lookup_insert_ne in Hr0 by discriminate.
    change (substring 0 2 "imec" +:+ "SampRate") with "imSampRate"%string in Hrate.
    rewrite Hrate in Hr0. injection Hr0 as <-.
    rewrite insert_insert_eq in Hrun. now injection Hrun as <-.
  - now injection Hrun as <-.
Qed.

(** A line that does not hold exactly one '=' (a blank line, a comment,
    a value with an '=' in it) makes the whole call raise [ValueError],
    wherever it stands in the file. *)
Theorem read_spikeglx_meta_malformed (text : textfiles) (metafile : string)
        (lines : list string) (ln : string) :
  text !! metafile = Some lines ->
  In ln lines ->
  count_char "=" ln <> 1%nat ->
  read_spikeglx_meta py_float text metafile = Fail (Builtin ValueError).
Proof.
  intros Hfile Hin Hc. unfold read_spikeglx_meta. rewrite Hfile.
  rewrite (meta_lines_fail lines ∅ ln Hin Hc). reflexivity.
Qed.

(** When every line is well formed and none binds 'typeThis', the call
    raises [KeyError] for that key; an empty file is such a case. *)
Theorem read_spikeglx_meta_no_type (text : textfiles) (metafile : string)
        (lines : list string) :
  text !! metafile = Some lines ->
  (forall ln, In ln lines -> count_char "=" ln = 1%nat) ->
  (forall ln v, In ln lines ->
     meta_line py_float ln <> Done ("typeThis"%string, v)) ->
  read_spikeglx_meta py_float text metafile = Fail (KeyError "typeThis").
Proof.
  intros Hfile Hall Hnone. unfold read_spikeglx_meta. rewrite Hfile.
  assert (Hdone : forall m0, exists m, meta_lines py_float lines m0 = Done m).
  { clear Hnone Hfile. induction lines as [|l lines IH]; intros m0;
      cbn [meta_lines]; [eauto|].
    destruct (meta_line_done l) as (k & v & E); [apply Hall; now left|].
    rewrite E. cbn [mbind checked_bind]. apply IH.
    intros ln Hin. apply Hall. now right. }
  destruct (Hdone ∅) as [m Hm]. rewrite Hm. cbn [mbind checked_bind].
  destruct (m !! "typeThis"%string) as [v|] eqn:Hv;
    [|rewrite (meta_get_none m "typeThis" Hv); reflexivity].
  destruct (meta_lines_origin _ _ _ _ _ Hm Hv) as [H0|(ln & Hin & Hln)].
  - rewrite lookup_empty in H0. discriminate.
  - exfalso. exact (Hnone ln v Hin Hln).
Qed.

(** The sampling rate returned under 'sRateHz' is the entry named by the
    first two characters of 'typeThis' followed by 'SampRate', for every
    recording type, 'imec' included; a 'sRateHz' line of the file is
    overridden. *)
Theorem read_spikeglx_meta_rate (text : textfiles) (metafile : string)
        (lines : list string) (meta : gmap string meta_value) :
  text !! metafile = Some lines ->
  read_spikeglx_meta py_float text metafile = Done meta ->
  exists s rate,
    meta !! "typeThis"%string = Some (MStr s)
    /\ meta !! (substring 0 2 s +:+ "SampRate") = Some rate
    /\ meta !! "sRateHz"%string = Some rate.
Proof.
  intros Hfile Hrun.
  destruct (read_spikeglx_meta_inv text metafile lines meta Hfile Hrun)
    as (m0 & s & rate & _ & Htt & Hrate & ->).
  exists s, rate. split; [|split].
  - rewrite lookup_insert_ne by discriminate. exact Htt.
  - rewrite lookup_insert_ne; [exact Hrate|].
    intros H. symmetry in H. exact (samp_rate_key_not_sRateHz s H).
  - apply lookup_insert_eq.
Qed.

(** Later lines win: in the dictionary returned, a key other than
    'sRateHz' is bound to the value of the last line that binds it. *)
Theorem read_spikeglx_meta_last_wins (text : textfiles) (metafile : string)
        (l1 l2 : list string) (ln : string)
        (meta : gmap string meta_value) (k : string) (v : meta_value) :
  text !! metafile = Some (l1 ++ ln :: l2) ->
  read_spikeglx_meta py_float text metafile = Done meta ->
  meta_line py_float ln = Done (k, v) ->
  k <> "sRateHz"%string ->
  (forall ln' k' v', In ln' l2 -> meta_line py_float ln' = Done (k', v') ->
                     k' <> k) ->
  meta !! k = Some v.
Proof.
  intros Hfile Hrun Hln Hk Hlater.
  destruct (read_spikeglx_meta_inv text metafile _ meta Hfile Hrun)
    as (m0 & s & rate & Hm0 & _ & _ & ->).
  rewrite lookup_insert_ne by congruence.
  exact (meta_lines_last l1 l2 ln ∅ m0 k v Hm0 Hln Hlater).
Qed.

End SpikeglxMetaFacts.

Lemma read_spikeglx_meta_malformed_witness :
  read_spikeglx_meta sample_float
    {[ "rec.meta"%string := sample_meta ++ [newline] ]} "rec.meta"
  = Fail (Builtin ValueError).
Proof.
  apply (read_spikeglx_meta_malformed sample_float
           {[ "rec.meta"%string := sample_meta ++ [newline] ]} "rec.meta"
           (sample_meta ++ [newline]) newline).
  - reflexivity.
  - apply in_or_app. right. now left.
  - vm_compute. discriminate.
Defined.

Lemma read_spikeglx_meta_no_type_witness :
  read_spikeglx_meta sample_float
    {[ "rec.meta"%string := ["imSampRate=30000" +:+ newline] ]} "rec.meta"
  = Fail (KeyError "typeThis").
Proof.
  apply (read_spikeglx_meta_no_type sample_float
           {[ "rec.meta"%string := ["imSampRate=30000" +:+ newline] ]}
           "rec.meta" ["imSampRate=30000" +:+ newline]).
  - reflexivity.
  - intros ln [<-|[]]. reflexivity.
  - intros ln v [<-|[]]. vm_compute. discriminate.
Defined.

Lemma read_spikeglx_meta_rate_witness :
  exists meta rate,
    read_spikeglx_meta sample_float sample_text "rec.meta" = Done meta
    /\ meta !! "typeThis"%string = Some (MStr "imec")
    /\ meta !! "sRateHz"%string = Some rate.
Proof.
  eassert (Hrun : read_spikeglx_meta sample_float sample_text "rec.meta"
                  = Done _) by (vm_compute; reflexivity).
  destruct (read_spikeglx_meta_rate sample_float sample_text "rec.meta"
              sample_meta _ eq_refl Hrun) as (s & rate & Htt & _ & Hrate).
  eexists _, rate. split; [exact Hrun|]. split; [reflexivity | exact Hrate].
Defined.

Lemma read_spikeglx_meta_last_wins_witness :
  exists meta,
    read_spikeglx_meta sample_float sample_text "rec.meta" = Done meta
    /\ meta !! "imSampRate"%string = Some (MFloat 30000).
Proof.
  eassert (Hrun : read_spikeglx_meta sample_float sample_text "rec.meta"
                  = Done _) by (vm_compute; reflexivity).
  eexists. split; [exact Hrun|].
  apply (read_spikeglx_meta_last_wins sample_float sample_text "rec.meta"
           ["typeThis=imec" +:+ newline; "imSampRate=385" +:+ newline]
           ["nSavedChans=385" +:+ newline]
           ("imSampRate=30000" +:+ newline) _ "imSampRate" (MFloat 30000)).
  - reflexivity.
  - exact Hrun.
  - reflexivity.
  - discriminate.
  - intros ln' k' v' [<-|[]] Hln. vm_compute in Hln.
    injection Hln as <- _. discriminate.
Defined.

(** * [load_units_qualities] *)

Section UnitsQualitiesFacts.

Context {table : Type}.
Context (Path : string -> string -> string).
Context (isfile : string -> bool).
Context (read_csv : string -> string -> option string -> table).

(** The table of a merged dataset in comma-separated form,
    'merged_cluster_groups.csv', is never read: whatever files exist,
    the call reads the tab-separated table, the merged tab-separated
    table or the comma-separated table of [dp], or finds nothing.  The
    comma-separated table is looked for under its bare name, not in
    [dp]: when neither tab-separated table is in [dp] and the working
    directory holds no 'cluster_groups.csv', the call finds nothing even
    though [dp] holds the table. *)
Theorem load_units_qualities_reads (dp : string) :
  (load_units_qualities Path isfile read_csv dp = None
   \/ load_units_qualities Path isfile read_csv dp
      = Some (read_csv (Path dp "cluster_group.tsv") (String "009"%char "") None)
   \/ load_units_qualities Path isfile read_csv dp
      = Some (read_csv (Path dp "merged_cluster_group.tsv")
                       (String "009"%char "") (Some "dataset_i"%string))
   \/ load_units_qualities Path isfile read_csv dp
      = Some (read_csv (Path dp "cluster_groups.csv") "," None))
  /\ (isfile (Path dp "cluster_group.tsv") = false ->
      isfile (Path dp "merged_cluster_group.tsv") = false ->
      isfile "cluster_groups.csv" = false ->
      load_units_qualities Path isfile read_csv dp = None).
Proof.
  unfold load_units_qualities.
  change ("merged_" +:+ "cluster_group.tsv") with "merged_cluster_group.tsv"%string.
  split.
  - destruct (isfile (Path dp "cluster_group.tsv")); [auto|].
    destruct (isfile (Path dp "merged_cluster_group.tsv")); [auto|].
    destruct (isfile "cluster_groups.csv"); auto.
  - intros -> -> ->. reflexivity.
Qed.

End UnitsQualitiesFacts.

Lemma load_units_qualities_reads_witness :
  load_units_qualities (fun dp name => dp +:+ "/" +:+ name)
    (fun p => String.eqb p "data/cluster_groups.csv"
              || String.eqb p "data/merged_cluster_groups.csv")
    (fun p d i => p) "data"
  = None.
Proof.
  apply (load_units_qualities_reads (fun dp name => dp +:+ "/" +:+ name)
           (fun p => String.eqb p "data/cluster_groups.csv"
                     || String.eqb p "data/merged_cluster_groups.csv")
           (fun p d i => p) "data"); reflexivity.
Defined.
